(** * Reload-proof scorekeeper: a shallow embedding of [InternalDraftLeague.js]

    The development follows the layout of the source file: JavaScript values
    and the browser platform, [Utils], [PersistenceManager], [DataManager],
    [TimerManager], [SecondsTimerManager], [ScorekeeperApp]; the theorems
    come last.

    Conventions of the embedding.
    - A JavaScript number is an integer [Z]: millisecond time stamps and
      counters, within the range in which doubles and [Date] are exact.
    - A JavaScript string is a [string]; the characters the code inspects
      (quote, comma, line feed, carriage return) are ASCII.  Where a
      definition is the source only on a class of texts or numbers (ASCII
      text for [trim], names without markup for the table rows, numbers
      that a double and a [Date] hold exactly), its comment says so, and
      the theorems that depend on it carry the restriction as a
      hypothesis.
    - [Date.now()] is an argument [now] of every handler: one reading of the
      clock per synchronous handler.
    - Objects mutated in place become explicit state passing.  The single
      [localStorage] and the single [PersistenceManager] instance that the
      managers share live in one [World], which every stateful function
      threads; the world also keeps a journal of the storage operations, a
      history variable that no function reads.
    - [localStorage] has a quota: [setItem] throws, and changes nothing,
      when the stored keys and texts would exceed it.
    - A function that reads a stored value returns [None] where the value
      has a shape that this program never writes under that key; on every
      shape it does write the result is the one of the source.
    - What a handler only shows (timer display, notifications, popup
      visibility) is left out; the elements whose values the code reads back
      are in [Dom.t]. *)

From Stdlib Require Import ZArith Lia String Ascii List Bool.
From stdpp Require Import gmap strings list fin_maps pretty.

Open Scope string_scope.
Open Scope list_scope.
Open Scope Z_scope.

(* ===================================================================== *)
(** ** JavaScript strings                                                 *)
(* ===================================================================== *)

Module Js.

(** The four characters the CSV code looks at. *)
Definition dquote : ascii := "034"%char.
Definition comma : ascii := ","%char.
Definition LF : ascii := "010"%char.
Definition CR : ascii := "013"%char.

(** [s + c] for a single character [c]. *)
Definition snoc (s : string) (c : ascii) : string := s +:+ String c EmptyString.

(** [Array.prototype.join]. *)
Fixpoint join (sep : string) (l : list string) : string :=
  match l with
  | [] => EmptyString
  | [x] => x
  | x :: rest => x +:+ sep +:+ join sep rest
  end.

(** [a || b] on strings: the empty string is the only falsy string. *)
Definition or_else (a b : string) : string :=
  if String.eqb a EmptyString then b else a.

(** [Number.prototype.toString()] of an integer. *)
Definition toString (n : Z) : string := pretty n.

(** White space removed by [String.prototype.trim], the ASCII part: tab,
    line feed, vertical tab, form feed, carriage return and space.  The
    source also removes the white space beyond ASCII (no-break space, byte
    order mark, the Unicode spaces); [trim] below is the trim of the source
    on ASCII text. *)
Definition is_space (c : ascii) : bool :=
  match nat_of_ascii c with
  | 9%nat | 10%nat | 11%nat | 12%nat | 13%nat | 32%nat => true
  | _ => false
  end.

Fixpoint trim_start (s : string) : string :=
  match s with
  | String c rest => if is_space c then trim_start rest else s
  | EmptyString => EmptyString
  end.

Fixpoint trim_end (s : string) : string :=
  match s with
  | EmptyString => EmptyString
  | String c rest =>
      match trim_end rest with
      | EmptyString => if is_space c then EmptyString else String c EmptyString
      | r => String c r
      end
  end.

Definition trim (s : string) : string := trim_end (trim_start s).

Fixpoint map_chars (f : ascii -> ascii) (s : string) : string :=
  match s with
  | EmptyString => EmptyString
  | String c rest => String (f c) (map_chars f rest)
  end.

Fixpoint existsb_chars (p : ascii -> bool) (s : string) : bool :=
  match s with
  | EmptyString => false
  | String c rest => p c || existsb_chars p rest
  end.

End Js.

(* ===================================================================== *)
(** ** Utils                                                              *)
(* ===================================================================== *)

Module Utils.
Import Js.

(** [Utils.generateId]: the clock reading followed by the random base-36
    suffix [rnd] that [Math.random().toString(36).substr(2, 9)] yields. *)
Definition generateId (now : Z) (rnd : string) : string :=
  toString now +:+ rnd.

(** Characters replaced by [_] in [sanitizeFilename]:
    less-than, greater-than, colon, double quote, slash, backslash, bar,
    question mark, star, and the control characters U+0000..U+001F. *)
Definition invalid_filename_char (c : ascii) : bool :=
  let n := nat_of_ascii c in
  (n <? 32)%nat
  || existsb (Nat.eqb n) [60; 62; 58; 34; 47; 92; 124; 63; 42]%nat.

(** [Utils.sanitizeFilename].  The cut at 120 counts the characters of the
    [string]; these are the UTF-16 units that [slice] counts when the name
    is ASCII. *)
Definition sanitizeFilename (name fallback : string) : string :=
  let base := or_else (trim name) fallback in
  substring 0 120
    (map_chars (fun c => if invalid_filename_char c then "_"%char else c) base).

(** The regular-expression test of [toCSVLine]: does [s] hold a double
    quote, a comma, a line feed or a carriage return? *)
Definition needs_quotes (s : string) : bool :=
  existsb_chars
    (fun c => Ascii.eqb c dquote || Ascii.eqb c comma
              || Ascii.eqb c LF || Ascii.eqb c CR) s.

(** The [replace] of [toCSVLine]: every double quote is written twice. *)
Fixpoint double_quotes (s : string) : string :=
  match s with
  | EmptyString => EmptyString
  | String c rest =>
      if Ascii.eqb c dquote
      then String dquote (String dquote (double_quotes rest))
      else String c (double_quotes rest)
  end.

(** The body of the [map] callback of [toCSVLine]; [None] stands for a
    [null] or [undefined] field. *)
Definition csv_field (v : option string) : string :=
  let s := match v with None => EmptyString | Some s => s end in
  if needs_quotes s
  then String dquote (double_quotes s) +:+ String dquote EmptyString
  else s.

(** [Utils.toCSVLine]. *)
Definition toCSVLine (fields : list (option string)) : string :=
  join "," (map csv_field fields).

(** The four loop variables of [parseCSV]. *)
Record csv_state := CsvState {
  rows : list (list string);
  row : list string;
  cell : string;
  inQuotes : bool
}.

(** [row.push(cell); rows.push(row); row = []; cell = ''] when there is
    something to push. *)
Definition push_row (st : csv_state) : csv_state :=
  if negb (String.eqb (cell st) EmptyString) || (0 <? length (row st))%nat
  then CsvState (rows st ++ [row st ++ [cell st]]) [] EmptyString (inQuotes st)
  else st.

(** The [for] loop of [parseCSV]; the escaped quote consumes two
    characters ([i++] inside the body). *)
Fixpoint parseCSV_loop (text : string) (st : csv_state) : csv_state :=
  match text with
  | EmptyString => st
  | String char rest =>
      if Ascii.eqb char dquote then
        match inQuotes st, rest with
        | true, String next rest' =>
            if Ascii.eqb next dquote
            then parseCSV_loop rest'
                   (CsvState (rows st) (row st) (snoc (cell st) dquote) true)
            else parseCSV_loop rest
                   (CsvState (rows st) (row st) (cell st) false)
        | q, _ =>
            parseCSV_loop rest (CsvState (rows st) (row st) (cell st) (negb q))
        end
      else if Ascii.eqb char comma && negb (inQuotes st) then
        parseCSV_loop rest
          (CsvState (rows st) (row st ++ [cell st]) EmptyString (inQuotes st))
      else if (Ascii.eqb char LF || Ascii.eqb char CR) && negb (inQuotes st) then
        parseCSV_loop rest (push_row st)
      else if negb (Ascii.eqb char CR) then
        parseCSV_loop rest
          (CsvState (rows st) (row st) (snoc (cell st) char) (inQuotes st))
      else parseCSV_loop rest st
  end.

(** [Utils.parseCSV]. *)
Definition parseCSV (text : string) : list (list string) :=
  rows (push_row (parseCSV_loop text (CsvState [] [] EmptyString false))).

(** What the parser keeps of a quoted field: every carriage return is
    dropped ([if (char !== '\r') cell += char]). *)
Fixpoint strip_CR (s : string) : string :=
  match s with
  | EmptyString => EmptyString
  | String c rest =>
      if Ascii.eqb c CR then strip_CR rest else String c (strip_CR rest)
  end.

(** The assignment [teams[teamName] = players] on the properties of the
    object: a name already present keeps its place and takes the new
    players.  The list is in the order of first assignment, which is the
    enumeration order of the object for names that are not array indices.
    One name is no property of its own: an assignment to [__proto__] sets
    the prototype of the object instead; this definition is the source for
    every other name. *)
Fixpoint set_team (teamName : string) (players : list string)
    (teams : list (string * list string)) : list (string * list string) :=
  match teams with
  | [] => [(teamName, players)]
  | (name, old) :: rest =>
      if String.eqb name teamName then (name, players) :: rest
      else (name, old) :: set_team teamName players rest
  end.

(** The inner [for] loop of [csvToTeamsMap]: the cells of column [colIdx]
    below the header, trimmed, the empty ones skipped; a row too short
    reads as the empty string there. *)
Definition column_players (body : list (list string)) (colIdx : nat) : list string :=
  List.filter (fun val => negb (String.eqb val EmptyString))
    (map (fun r => trim (nth colIdx r EmptyString)) body).

(** [header.forEach((teamName, colIdx) => ...)], from index [colIdx] on. *)
Fixpoint header_forEach (header : list string) (colIdx : nat)
    (body : list (list string)) (teams : list (string * list string))
  : list (string * list string) :=
  match header with
  | [] => teams
  | teamName :: rest =>
      header_forEach rest (S colIdx) body
        (set_team teamName (column_players body colIdx) teams)
  end.

(** [Utils.csvToTeamsMap]: the header cells are trimmed and the empty ones
    filtered out before the columns are numbered. *)
Definition csvToTeamsMap (rows : list (list string)) : list (string * list string) :=
  match rows with
  | [] => []
  | first :: body =>
      header_forEach
        (List.filter (fun h => negb (String.eqb h EmptyString)) (map trim first))
        0 body []
  end.

End Utils.

(* ===================================================================== *)
(** ** Data: log entries, the game state, persisted values                *)
(* ===================================================================== *)

(** One element of [scoreLogs], as [createLogObject] builds it. *)
Module LogEntry.
Record t := Build {
  scoreID : string;
  GameID : string;
  Time : string;
  Team : string;
  Score : string;
  Assist : string
}.
End LogEntry.

(** The [gameState] object.  Every read of a field in the source goes
    through a truthiness test or [||], so a missing field is represented by
    the falsy value the code would substitute ([0], the empty string, the
    empty array). *)
Module GameState.
Record t := Build {
  teamAScore : Z;
  teamBScore : Z;
  teamAName : string;
  teamBName : string;
  teamAPlayers : string;
  teamBPlayers : string;
  gameTime : string;
  scoreLogs : list LogEntry.t;
  abbaStart : string;
  timestamp : Z
}.

(** The literal of [loadGameState] and [resetGameState]. *)
Definition fresh (now : Z) : t :=
  Build 0 0 "" "" "" "" "" [] "" now.

(** The argument of [updateGameState]: the fields an object literal
    mentions. *)
Record updates := Updates {
  u_teamAScore : option Z;
  u_teamBScore : option Z;
  u_teamAName : option string;
  u_teamBName : option string;
  u_teamAPlayers : option string;
  u_teamBPlayers : option string;
  u_gameTime : option string;
  u_scoreLogs : option (list LogEntry.t);
  u_abbaStart : option string;
  u_timestamp : option Z
}.

(** [Object.assign(gameState, updates)]. *)
Definition assign (g : t) (u : updates) : t :=
  Build (default (teamAScore g) (u_teamAScore u))
        (default (teamBScore g) (u_teamBScore u))
        (default (teamAName g) (u_teamAName u))
        (default (teamBName g) (u_teamBName u))
        (default (teamAPlayers g) (u_teamAPlayers u))
        (default (teamBPlayers g) (u_teamBPlayers u))
        (default (gameTime g) (u_gameTime u))
        (default (scoreLogs g) (u_scoreLogs u))
        (default (abbaStart g) (u_abbaStart u))
        (default (timestamp g) (u_timestamp u)).

(** The spread [{...gameState, timestamp: Date.now()}] of [saveGameState]. *)
Definition stamp (g : t) (now : Z) : t :=
  Build (teamAScore g) (teamBScore g) (teamAName g) (teamBName g)
        (teamAPlayers g) (teamBPlayers g) (gameTime g) (scoreLogs g)
        (abbaStart g) now.
End GameState.

(** The roster mapping [{ team: [players] }], in key order. *)
Definition teams := list (string * list string).

(** The wrapper [saveTeamsData] stores. *)
Module TeamsCache.
Record t := Build {
  data : teams;
  timestamp : Z;
  expiresAt : Z
}.
End TeamsCache.

(** The values this program serialises with [JSON.stringify]. *)
Inductive value :=
| VNull
| VBool (b : bool)
| VNum (n : Z)
| VDate (ms : Z)            (* the string [toISOString()] of the time [ms] *)
| VGame (g : GameState.t)
| VTeams (c : TeamsCache.t).

(** JavaScript truthiness. *)
Definition truthy (v : value) : bool :=
  match v with
  | VNull => false
  | VBool b => b
  | VNum n => negb (n =? 0)
  | VDate _ | VGame _ | VTeams _ => true
  end.

(** The text held under one key of [localStorage]: the JSON text of a value,
    or some other text, for which [JSON.parse] throws (the empty text, which
    is falsy, is one of them and takes the same fallback). *)
Inductive item :=
| Json (v : value)
| Garbled (text : string).

(** What the embedding takes from the browser: the capacity of
    [localStorage], the length of the JSON text of a value, and the
    locale-dependent date formats. *)
Class Platform := {
  quota : nat;
  text_length : value -> nat;
  toLocaleString : Z -> string;
  toLocaleDateString : Z -> string
}.

Definition item_length `{Platform} (i : item) : nat :=
  match i with
  | Json v => text_length v
  | Garbled text => String.length text
  end.

(** Traces of what happens on the storage medium. *)
Inductive event :=
| EvSetItem (key : string) (ok : bool)   (* [localStorage.setItem]; [false]: it threw *)
| EvRemoveItem (key : string)            (* [localStorage.removeItem] *)
| EvCleanup                              (* entry into [cleanupOldData] *)
| EvPut (key : string) (ok : bool).      (* [saveToStorage] returned [ok] *)

Module CONFIG.
Definition DEFAULT_TIMER_MINUTES : Z := 100.
Definition AUTO_SAVE_INTERVAL : Z := 2000.
Module STORAGE_KEYS.
Definition SCORE_LOGS := "scoreLogs".
Definition TIMER_END_TIME := "timerEndTime".
Definition TIMER_RUNNING := "timerRunning".
Definition GAME_STATE := "gameState".
Definition TEAMS_DATA := "teamsData".
Definition LAST_SAVE := "lastSave".
End STORAGE_KEYS.
End CONFIG.

(** The browser storage, the journal of what was done to it, and the fields
    of the one [PersistenceManager] instance that the data manager, the timer
    and the application share. *)
Record World := MkWorld {
  localStorage : gmap string item;
  journal : list event;
  lastSaveTime : Z;
  autoSaveInterval : bool
}.

Module Storage.
Section WithPlatform.
Context `{Platform}.

(** Characters in use: keys and texts. *)
Definition used (ls : gmap string item) : nat :=
  map_fold (fun k i acc => (String.length k + item_length i + acc)%nat) 0%nat ls.

Definition record (e : event) (w : World) : World :=
  MkWorld (localStorage w) (journal w ++ [e]) (lastSaveTime w) (autoSaveInterval w).

(** [localStorage.setItem]: stores the text, or throws and leaves the
    storage as it was when the result would not fit the quota. *)
Definition setItem (w : World) (key : string) (i : item) : bool * World :=
  let ls' := <[key := i]> (localStorage w) in
  if (used ls' <=? quota)%nat
  then (true, record (EvSetItem key true)
                (MkWorld ls' (journal w) (lastSaveTime w) (autoSaveInterval w)))
  else (false, record (EvSetItem key false) w).

(** [localStorage.getItem]. *)
Definition getItem (w : World) (key : string) : option item :=
  localStorage w !! key.

(** [localStorage.removeItem]. *)
Definition removeItem (w : World) (key : string) : World :=
  record (EvRemoveItem key)
    (MkWorld (delete key (localStorage w)) (journal w) (lastSaveTime w)
       (autoSaveInterval w)).

End WithPlatform.
End Storage.

(* ===================================================================== *)
(** ** PersistenceManager                                                 *)
(* ===================================================================== *)

(** The auto-save interval, [getStorageInfo] and [clearAllData] play no part
    in what follows and are not embedded. *)
Module PersistenceManager.
Import CONFIG Storage.
Section WithPlatform.
Context `{Platform}.

(** The constructor: [autoSaveInterval = null], [lastSaveTime = 0]. *)
Definition new (ls : gmap string item) : World := MkWorld ls [] 0 false.

(** [loadFromStorage(key, fallback)]; [None] stands for the fallback:
    no item, an empty text, or a text that does not parse. *)
Definition loadFromStorage (w : World) (key : string) : option value :=
  match getItem w key with
  | Some (Json v) => Some v
  | Some (Garbled _) | None => None
  end.

(** [teamsData.expiresAt], [undefined] when the value has no such field. *)
Definition expiresAt_of (v : value) : option Z :=
  match v with
  | VTeams c => Some (TeamsCache.expiresAt c)
  | _ => None
  end.

(** [gameState.timestamp], [undefined] when the value has no such field. *)
Definition timestamp_of (v : value) : option Z :=
  match v with
  | VGame g => Some (GameState.timestamp g)
  | VTeams c => Some (TeamsCache.timestamp c)
  | _ => None
  end.

(** The two durations the source writes out as products. *)
Definition SEVEN_DAYS : Z := 7 * 24 * 60 * 60 * 1000.
Definition ONE_DAY : Z := 24 * 60 * 60 * 1000.

(** [cleanupOldData]. *)
Definition cleanupOldData (w : World) (now : Z) : World :=
  let w := record EvCleanup w in
  let w :=
    match loadFromStorage w STORAGE_KEYS.TEAMS_DATA with
    | Some teamsData =>
        match expiresAt_of teamsData with
        | Some e =>
            if truthy teamsData && (e <? now)
            then removeItem w STORAGE_KEYS.TEAMS_DATA else w
        | None => w
        end
    | None => w
    end in
  match loadFromStorage w STORAGE_KEYS.GAME_STATE with
  | Some gameState =>
      match timestamp_of gameState with
      | Some ts =>
          if truthy gameState && negb (ts =? 0) && (SEVEN_DAYS <? now - ts)
          then removeItem w STORAGE_KEYS.GAME_STATE else w
      | None => w
      end
  | None => w
  end.

(** The [catch] branch of [saveToStorage]: one clean-up, one more
    [setItem]. *)
Definition retry (w : World) (key : string) (data : value) (now : Z)
  : bool * World :=
  let w := cleanupOldData w now in
  let '(ok, w) := setItem w key (Json data) in
  (ok, record (EvPut key ok) w).

(** [saveToStorage(key, data)].  A throw of either [setItem] of the [try]
    block, the one for [key] or the one for the last-save stamp, lands in
    the [catch] branch. *)
Definition saveToStorage (w : World) (key : string) (data : value) (now : Z)
  : bool * World :=
  let '(ok1, w1) := setItem w key (Json data) in
  if ok1 then
    let w2 := MkWorld (localStorage w1) (journal w1) now (autoSaveInterval w1) in
    let '(ok2, w3) := setItem w2 STORAGE_KEYS.LAST_SAVE (Json (VNum now)) in
    if ok2 then (true, record (EvPut key true) w3)
    else retry w3 key data now
  else retry w1 key data now.

(** [saveGameState]. *)
Definition saveGameState (w : World) (gameState : GameState.t) (now : Z)
  : bool * World :=
  saveToStorage w STORAGE_KEYS.GAME_STATE
    (VGame (GameState.stamp gameState now)) now.

(** [saveTeamsData]. *)
Definition saveTeamsData (w : World) (teamsData : teams) (now : Z)
  : bool * World :=
  saveToStorage w STORAGE_KEYS.TEAMS_DATA
    (VTeams (TeamsCache.Build teamsData now (now + ONE_DAY))) now.

(** [loadTeamsData]; [None] is the falsy result ([null], or the
    [undefined] field [data] of a value that is no roster wrapper). *)
Definition loadTeamsData (w : World) (now : Z) : option teams * World :=
  match loadFromStorage w STORAGE_KEYS.TEAMS_DATA with
  | Some (VTeams c) =>
      if TeamsCache.expiresAt c <? now
      then (None, removeItem w STORAGE_KEYS.TEAMS_DATA)
      else (Some (TeamsCache.data c), w)
  | _ => (None, w)
  end.

End WithPlatform.
End PersistenceManager.

(* ===================================================================== *)
(** ** DataManager                                                        *)
(* ===================================================================== *)

Module DataManager.
Import CONFIG Storage.

Record t := Build {
  teamsData : teams;
  scoreLogs : list LogEntry.t;
  gameState : GameState.t;
  isDirty : bool
}.

Definition set_dirty (d : t) (b : bool) : t :=
  Build (teamsData d) (scoreLogs d) (gameState d) b.

(** [markDirty]. *)
Definition markDirty (d : t) : t := set_dirty d true.

(** [gameState.scoreLogs = this.scoreLogs]. *)
Definition with_logs (g : GameState.t) (logs : list LogEntry.t) : GameState.t :=
  GameState.assign g
    (GameState.Updates None None None None None None None (Some logs) None None).

(** [findIndex(log => log.scoreID === scoreID)]; [None] is [-1]. *)
Fixpoint findIndex (scoreID : string) (logs : list LogEntry.t) : option nat :=
  match logs with
  | [] => None
  | e :: rest =>
      if String.eqb (LogEntry.scoreID e) scoreID then Some 0%nat
      else option_map S (findIndex scoreID rest)
  end.

(** [splice(index, 1)] seen from the array. *)
Fixpoint remove_at (index : nat) (logs : list LogEntry.t) : list LogEntry.t :=
  match index, logs with
  | _, [] => []
  | O, _ :: rest => rest
  | S i, e :: rest => e :: remove_at i rest
  end.

Section WithPlatform.
Context `{Platform}.

(** [PersistenceManager.loadGameState], seen from the only caller: the
    stored value when there is one, else the default state.  [None] when
    the stored value is no game-state object: on [null] the constructor
    throws, and no other shape is ever written under this key. *)
Definition loadGameState (w : World) (now : Z) : option GameState.t :=
  match PersistenceManager.loadFromStorage w STORAGE_KEYS.GAME_STATE with
  | None => Some (GameState.fresh now)
  | Some (VGame g) => Some g
  | Some _ => None
  end.

(** The constructor followed by [loadAllData]. *)
Definition new (w : World) (now : Z) : option (t * World) :=
  match loadGameState w now with
  | None => None
  | Some g =>
      let '(cachedTeamsData, w) := PersistenceManager.loadTeamsData w now in
      Some (Build (default [] cachedTeamsData) (GameState.scoreLogs g) g false, w)
  end.

(** [saveCurrentState]; the result [None] is the [undefined] of the bare
    [return] taken when nothing is dirty. *)
Definition saveCurrentState (d : t) (w : World) (now : Z)
  : option bool * t * World :=
  if negb (isDirty d) then (None, d, w)
  else
    let '(success, w) := PersistenceManager.saveGameState w (gameState d) now in
    (Some success, if success then set_dirty d false else d, w).

(** [setTeamsData]. *)
Definition setTeamsData (d : t) (data : option teams) (w : World) (now : Z)
  : t * World :=
  let d := Build (default [] data) (scoreLogs d) (gameState d) (isDirty d) in
  (d, snd (PersistenceManager.saveTeamsData w (teamsData d) now)).

End WithPlatform.

(** [updateGameState]. *)
Definition updateGameState (d : t) (u : GameState.updates) : t :=
  markDirty (Build (teamsData d) (scoreLogs d) (GameState.assign (gameState d) u)
               (isDirty d)).

(** [addScoreLog]. *)
Definition addScoreLog (d : t) (logEntry : LogEntry.t) : t :=
  let logs := scoreLogs d ++ [logEntry] in
  markDirty (Build (teamsData d) logs (with_logs (gameState d) logs) (isDirty d)).

(** [Object.assign(log, { Score: scorer, Assist: assist })]. *)
Definition assign_entry (e : LogEntry.t) (scorer assist : string) : LogEntry.t :=
  LogEntry.Build (LogEntry.scoreID e) (LogEntry.GameID e) (LogEntry.Time e)
    (LogEntry.Team e) scorer assist.

Fixpoint update_at (index : nat) (f : LogEntry.t -> LogEntry.t)
    (logs : list LogEntry.t) : list LogEntry.t :=
  match index, logs with
  | _, [] => []
  | O, e :: rest => f e :: rest
  | S i, e :: rest => e :: update_at i f rest
  end.

(** [updateScoreLog]. *)
Definition updateScoreLog (d : t) (scoreID scorer assist : string) : bool * t :=
  match findIndex scoreID (scoreLogs d) with
  | Some index =>
      let logs := update_at index (fun e => assign_entry e scorer assist)
                    (scoreLogs d) in
      (true, markDirty (Build (teamsData d) logs (with_logs (gameState d) logs)
                          (isDirty d)))
  | None => (false, d)
  end.

(** [getScoreLog]. *)
Definition getScoreLog (d : t) (scoreID : string) : option LogEntry.t :=
  List.find (fun e => String.eqb (LogEntry.scoreID e) scoreID) (scoreLogs d).

(** [clearScoreLogs]. *)
Definition clearScoreLogs (d : t) : t :=
  markDirty (Build (teamsData d) [] (with_logs (gameState d) []) (isDirty d)).

(** [removeScoreLog]; [None] is the [null] of an unknown id. *)
Definition removeScoreLog (d : t) (scoreID : string) : option LogEntry.t * t :=
  match findIndex scoreID (scoreLogs d) with
  | None => (None, d)
  | Some index =>
      let logs := remove_at index (scoreLogs d) in
      (nth_error (scoreLogs d) index,
       markDirty (Build (teamsData d) logs (with_logs (gameState d) logs)
                    (isDirty d)))
  end.

(** [resetGameState]. *)
Definition resetGameState (d : t) (now : Z) : t :=
  markDirty (Build (teamsData d) [] (GameState.fresh now) (isDirty d)).

End DataManager.

(* ===================================================================== *)
(** ** TimerManager                                                       *)
(* ===================================================================== *)

Module TimerManager.
Import CONFIG Storage.

(** [endTime] is the time value of the [Date] object, [timerInterval]
    tells whether an interval is scheduled. *)
Record t := Build {
  timerInterval : bool;
  isRunning : bool;
  endTime : option Z;
  remainingTimeMs : option Z;
  defaultMinutes : Z
}.

(** [Date.parse(d)] of a [Date] object [d]: the object is first turned into
    its display string, which stops at the second. *)
Definition Date_parse (ms : Z) : Z := 1000 * (ms / 1000).

Record time_remaining := TimeRemaining {
  total : Z;
  minutes : Z;
  seconds : Z
}.

(** [getTimeRemaining(endtime)]: [%] is the remainder that takes the sign
    of the dividend; [total] is a multiple of 1000. *)
Definition getTimeRemaining (endtime now : Z) : time_remaining :=
  let total := Date_parse endtime - Date_parse now in
  TimeRemaining total (total / 1000 / 60) (Z.rem (total / 1000) 60).

(** [setRemainingTime]. *)
Definition setRemainingTime (tm : t) (milliseconds : Z) : t :=
  Build (timerInterval tm) (isRunning tm) None (Some milliseconds)
    (defaultMinutes tm).

(** [getRemainingSeconds]. *)
Definition getRemainingSeconds (tm : t) (now : Z) : Z :=
  match isRunning tm, endTime tm, remainingTimeMs tm with
  | true, Some e, _ => total (getTimeRemaining e now) / 1000
  | _, _, Some r => r / 1000
  | _, _, _ => 0
  end.

Section WithPlatform.
Context `{Platform}.

(** [saveTimerState]: three independent writes, results ignored. *)
Definition saveTimerState (tm : t) (w : World) (now : Z) : World :=
  let w := snd (PersistenceManager.saveToStorage w "timerEndTime"
                  (match endTime tm with Some e => VDate e | None => VNull end) now) in
  let w := snd (PersistenceManager.saveToStorage w STORAGE_KEYS.TIMER_RUNNING
                  (VBool (isRunning tm)) now) in
  snd (PersistenceManager.saveToStorage w "timerRemainingTime"
         (match remainingTimeMs tm with Some r => VNum r | None => VNull end) now).

(** [start].  The end time is the time value of [new Date(...)], which is
    the number itself within the range of a [Date] (8.64e15 milliseconds
    either side of 1970); beyond it the source holds an invalid date. *)
Definition start (tm : t) (w : World) (now : Z) : t * World :=
  if isRunning tm then (tm, w)
  else
    let endTime1 :=
      match remainingTimeMs tm with
      | Some r => Some (now + r)
      | None => endTime tm
      end in
    let endTime2 :=
      match endTime1 with
      | Some e => e
      | None => now + defaultMinutes tm * 60 * 1000
      end in
    let tm := Build (timerInterval tm) true (Some endTime2) None
                (defaultMinutes tm) in
    let w := saveTimerState tm w now in
    (Build true (isRunning tm) (endTime tm) (remainingTimeMs tm)
       (defaultMinutes tm), w).

(** [stop]. *)
Definition stop (tm : t) (w : World) (now : Z) : t * World :=
  if negb (isRunning tm) then (tm, w)
  else
    let remaining :=
      match endTime tm with
      | Some e => Some (Z.max 0 (total (getTimeRemaining e now)))
      | None => remainingTimeMs tm
      end in
    let tm := Build false false None remaining (defaultMinutes tm) in
    (tm, saveTimerState tm w now).

(** The callback given to [setInterval] in [start]; it only runs while
    the interval is scheduled. *)
Definition tick (tm : t) (w : World) (now : Z) : t * World :=
  if timerInterval tm then
    match endTime tm with
    | Some e =>
        if (total (getTimeRemaining e now) <=? 0) && isRunning tm
        then stop tm w now else (tm, w)
    | None => (tm, w)
    end
  else (tm, w).

(** [toggle]. *)
Definition toggle (tm : t) (w : World) (now : Z) : t * World :=
  if isRunning tm then stop tm w now else start tm w now.

(** [reset(minutes)]. *)
Definition reset (tm : t) (min : Z) (w : World) (now : Z) : t * World :=
  let '(tm, w) := stop tm w now in
  let tm := Build (timerInterval tm) (isRunning tm) None (Some (min * 60 * 1000))
              (defaultMinutes tm) in
  (tm, saveTimerState tm w now).

(** [parseInt(n, 10)] of a number [n].  The number is first written out: in
    plain digits below 10^21, which read back as [n]; from 10^21 on in
    exponent form, of which only the leading digits are read, a case this
    embedding leaves out ([None]). *)
Definition parseInt_number (n : Z) : option Z :=
  if Z.abs n <? 1000000000000000000000 then Some n else None.

(** [new Date(storedEndTime)] for a truthy stored value; [None] for the
    shapes that the timer never writes under this key. *)
Definition stored_date (v : value) : option Z :=
  match v with
  | VDate ms => Some ms
  | VNum n => Some n
  | VBool true => Some 1
  | _ => None
  end.

(** [loadTimerState], run on the object the constructor has just
    initialised.  The result is [None] when a timer key holds a truthy
    value of a shape that [saveTimerState] never writes there, or a
    remaining time of 10^21 or more. *)
Definition loadTimerState (tm : t) (w : World) (now : Z) : option (t * World) :=
  let storedEndTime := PersistenceManager.loadFromStorage w "timerEndTime" in
  let storedIsRunning :=
    PersistenceManager.loadFromStorage w STORAGE_KEYS.TIMER_RUNNING in
  let storedRemainingTime :=
    PersistenceManager.loadFromStorage w "timerRemainingTime" in
  let endTime' : option (option Z) :=
    match storedEndTime with
    | Some v => if truthy v then option_map Some (stored_date v)
                else Some (endTime tm)
    | None => Some (endTime tm)
    end in
  let remaining' : option (option Z) :=
    match storedRemainingTime with
    | Some v =>
        if truthy v
        then match v with
             | VNum n => option_map Some (parseInt_number n)
             | _ => None
             end
        else Some (remainingTimeMs tm)
    | None => Some (remainingTimeMs tm)
    end in
  let running :=
    match storedIsRunning with
    | Some (VBool true) => true
    | _ => false
    end in
  match endTime', remaining' with
  | Some e, Some r =>
      let tm := Build (timerInterval tm) running e r (defaultMinutes tm) in
      match running, e with
      | true, Some e =>
          if total (getTimeRemaining e now) <=? 0
          then Some (stop tm w now)
          else Some (start tm w now)
      | _, _ =>
          match r with
          | Some r => Some (setRemainingTime tm r, w)
          | None => Some (reset tm (defaultMinutes tm) w now)
          end
      end
  | _, _ => None
  end.

(** The constructor. *)
Definition new (w : World) (now : Z) : option (t * World) :=
  loadTimerState (Build false false None None DEFAULT_TIMER_MINUTES) w now.

End WithPlatform.
End TimerManager.

(* ===================================================================== *)
(** ** SecondsTimerManager                                                *)
(* ===================================================================== *)

(** The interval timer: the same fields as the match timer, nothing stored.
    The text of the seconds input, read through [parseInt(..., 10)], is an
    argument [input], [None] when the element is missing or its text is no
    number. *)
Module SecondsTimerManager.

Record t := Build {
  timerInterval : bool;
  isRunning : bool;
  endTime : option Z;
  remainingTimeMs : option Z;
  defaultSeconds : Z
}.

(** The constructor. *)
Definition new : t := Build false false None None 90.

(** [getTimeRemaining(endtime)], the same body as the one of the match
    timer. *)
Definition getTimeRemaining (endtime now : Z) : TimerManager.time_remaining :=
  let total := TimerManager.Date_parse endtime - TimerManager.Date_parse now in
  TimerManager.TimeRemaining total (total / 1000 / 60) (Z.rem (total / 1000) 60).

(** [parseInt(text, 10) || fallback]: no number and zero are both falsy. *)
Definition or_default (input : option Z) (fallback : Z) : Z :=
  match input with
  | Some n => if n =? 0 then fallback else n
  | None => fallback
  end.

(** [start]. *)
Definition start (tm : t) (input : option Z) (now : Z) : t :=
  if isRunning tm then tm
  else
    let remaining :=
      match remainingTimeMs tm with
      | Some r => r
      | None => or_default input (defaultSeconds tm) * 1000
      end in
    Build true true (Some (now + remaining)) (Some remaining) (defaultSeconds tm).

(** [stop].  The result is [None] for a running timer without an end time,
    where the source would store a remaining time that is no number; no
    operation of the timer leads to such a state. *)
Definition stop (tm : t) (now : Z) : option t :=
  if negb (isRunning tm) then Some tm
  else
    match endTime tm with
    | Some e =>
        Some (Build false false None
                (Some (Z.max 0 (TimerManager.total (getTimeRemaining e now))))
                (defaultSeconds tm))
    | None => None
    end.

(** [toggle]. *)
Definition toggle (tm : t) (input : option Z) (now : Z) : option t :=
  if isRunning tm then stop tm now else Some (start tm input now).

(** [reset(seconds)] for a number [seconds].  [parseInt(seconds, 10)] reads
    the number back from its decimal text, which gives the number itself
    below 10^21; this definition is the source in that range. *)
Definition reset (tm : t) (secs : Z) (now : Z) : option t :=
  match stop tm now with
  | None => None
  | Some tm =>
      let secs := Z.max 1 (if secs =? 0 then defaultSeconds tm else secs) in
      Some (Build (timerInterval tm) (isRunning tm) (endTime tm)
              (Some (secs * 1000)) (defaultSeconds tm))
  end.

(** [tick], the callback of the interval; it only runs while the interval
    is scheduled.  Without an end time the comparison is false. *)
Definition tick (tm : t) (now : Z) : option t :=
  if timerInterval tm then
    match endTime tm with
    | Some e =>
        if TimerManager.total (getTimeRemaining e now) <=? 0 then
          match stop tm now with
          | Some tm =>
              Some (Build (timerInterval tm) (isRunning tm) (endTime tm) (Some 0)
                      (defaultSeconds tm))
          | None => None
          end
        else Some tm
    | None => Some tm
    end
  else Some tm.

(** [ScorekeeperApp.handleSecTimerReset], on the timer it owns. *)
Definition handleSecTimerReset (tm : t) (input : option Z) (now : Z) : option t :=
  reset tm (or_default input (defaultSeconds tm)) now.

End SecondsTimerManager.

(* ===================================================================== *)
(** ** The page                                                           *)
(* ===================================================================== *)

(** The elements the application reads and writes.  An element the page
    lacks is [None] (every access in the source is guarded). *)
Module Dom.

(** A [select]: its option values and the selected one. *)
Record select := Select {
  options : list string;
  value : string
}.

(** Assignment to [select.value]: without an option of that value nothing
    is selected and the value reads as the empty string. *)
Definition set_value (s : select) (v : string) : select :=
  Select (options s) (if existsb (String.eqb v) (options s) then v else "").

(** One [tr] of the scoring table: its [data-score-id] and its cells (the
    scoreboard cell keeps the two counters that the template prints). *)
Record row := Row {
  data_score_id : string;
  abba_cell : string;
  scoreA_cell : string;
  assistA_cell : string;
  total_cell : Z * Z;
  scoreB_cell : string;
  assistB_cell : string
}.

Record t := Build {
  teamA : option select;
  teamB : option select;
  teamAList : option string;
  teamBList : option string;
  time : option string;
  abbaStart : option string;
  scoringTableBody : option (list row);
  overlay : bool;
  scorePopup : option (option string)       (* [popup.dataset.team] *)
}.

(** [document.getElementById(id)?.value || ''] for the two selects. *)
Definition teamA_value (d : t) : string :=
  match teamA d with Some s => value s | None => "" end.
Definition teamB_value (d : t) : string :=
  match teamB d with Some s => value s | None => "" end.

Definition with_table (d : t) (rows : list row) : t :=
  Build (teamA d) (teamB d) (teamAList d) (teamBList d) (time d) (abbaStart d)
    (Some rows) (overlay d) (scorePopup d).

End Dom.

(* ===================================================================== *)
(** ** ScorekeeperApp                                                     *)
(* ===================================================================== *)

Module ScorekeeperApp.
Import CONFIG.

(** The application object; the loading, API and seconds-timer managers
    hold no state that the functions below read. *)
Record t := Build {
  dataManager : DataManager.t;
  timerManager : TimerManager.t;
  teamAScore : Z;
  teamBScore : Z;
  currentEditID : option string;
  isRestoring : bool;
  abbaStart : string;
  dom : Dom.t
}.

Definition with_dom (a : t) (d : Dom.t) : t :=
  Build (dataManager a) (timerManager a) (teamAScore a) (teamBScore a)
    (currentEditID a) (isRestoring a) (abbaStart a) d.

Definition with_dataManager (a : t) (dm : DataManager.t) : t :=
  Build dm (timerManager a) (teamAScore a) (teamBScore a)
    (currentEditID a) (isRestoring a) (abbaStart a) (dom a).

Definition with_scores (a : t) (sa sb : Z) : t :=
  Build (dataManager a) (timerManager a) sa sb
    (currentEditID a) (isRestoring a) (abbaStart a) (dom a).

Definition with_isRestoring (a : t) (b : bool) : t :=
  Build (dataManager a) (timerManager a) (teamAScore a) (teamBScore a)
    (currentEditID a) b (abbaStart a) (dom a).

Definition with_abbaStart (a : t) (s : string) : t :=
  Build (dataManager a) (timerManager a) (teamAScore a) (teamBScore a)
    (currentEditID a) (isRestoring a) s (dom a).

(** [computeAbbaForIndex], as a function of [this.abbaStart] and the
    index. *)
Definition computeAbbaForIndex (abbaStart : string) (index : nat) : string :=
  let start := if String.eqb abbaStart "F" then "F" else "M" in
  let other := if String.eqb start "M" then "F" else "M" in
  match index with
  | O => start
  | S adjusted =>
      let block := (adjusted / 2)%nat in
      if (block mod 2 =? 0)%nat then other else start
  end.

(** [updateAbbaColumn]. *)
Definition updateAbbaColumn (a : t) : t :=
  match Dom.scoringTableBody (dom a) with
  | None => a
  | Some rows =>
      with_dom a
        (Dom.with_table (dom a)
           (imap (fun idx r =>
                    Dom.Row (Dom.data_score_id r)
                      (computeAbbaForIndex (abbaStart a) idx)
                      (Dom.scoreA_cell r) (Dom.assistA_cell r) (Dom.total_cell r)
                      (Dom.scoreB_cell r) (Dom.assistB_cell r))
              rows))
  end.

Definition with_currentEditID (a : t) (id : option string) : t :=
  Build (dataManager a) (timerManager a) (teamAScore a) (teamBScore a)
    id (isRestoring a) (abbaStart a) (dom a).

(** [closePopup]: besides hiding the popup it forgets the edited id. *)
Definition closePopup (a : t) : t := with_currentEditID a None.

(** [createScoreRow(logEntry, index)].  The source writes the row as markup
    and assigns it to [innerHTML]: the seven cells below are what the
    browser builds when scorer and assist are text without markup (see
    [plain_text]); a name with a less-than sign or an ampersand is parsed
    as markup and can change the cells, even their number. *)
Definition createScoreRow (a : t) (logEntry : LogEntry.t) (index : nat) : Dom.row :=
  let teamAName := Dom.teamA_value (dom a) in
  let scoreboard := (teamAScore a, teamBScore a) in
  let abba := computeAbbaForIndex (abbaStart a) index in
  if String.eqb (LogEntry.Team logEntry) teamAName
  then Dom.Row (LogEntry.scoreID logEntry) abba
         (LogEntry.Score logEntry) (LogEntry.Assist logEntry) scoreboard "" ""
  else Dom.Row (LogEntry.scoreID logEntry) abba "" "" scoreboard
         (LogEntry.Score logEntry) (LogEntry.Assist logEntry).

(** [addScoreToTable]. *)
Definition addScoreToTable (a : t) (logEntry : LogEntry.t) : t :=
  match Dom.scoringTableBody (dom a) with
  | None => a
  | Some rows =>
      with_dom a
        (Dom.with_table (dom a)
           (rows ++ [createScoreRow a logEntry (length rows)]))
  end.

(** [rebuildScoreTable(scoreLogs)]. *)
Definition rebuildScoreTable (a : t) (scoreLogs : list LogEntry.t) : t :=
  match Dom.scoringTableBody (dom a) with
  | None => a
  | Some _ =>
      with_dom a (Dom.with_table (dom a) (imap (fun idx e => createScoreRow a e idx) scoreLogs))
  end.

(** The callback of the [forEach] of [rebuildTableAndCounters]. *)
Definition rebuild_step (a : t) (logEntry : LogEntry.t) (idx : nat) : t :=
  let teamAName := Dom.teamA_value (dom a) in
  let a := if String.eqb (LogEntry.Team logEntry) teamAName
           then with_scores a (teamAScore a + 1) (teamBScore a)
           else with_scores a (teamAScore a) (teamBScore a + 1) in
  match Dom.scoringTableBody (dom a) with
  | None => a
  | Some rows =>
      with_dom a
        (Dom.with_table (dom a) (rows ++ [createScoreRow a logEntry idx]))
  end.

(** [scoreLogs.forEach((logEntry, idx) => ...)], from index [idx] on. *)
Fixpoint rebuild_forEach (logs : list LogEntry.t) (idx : nat) (a : t) : t :=
  match logs with
  | [] => a
  | logEntry :: rest => rebuild_forEach rest (S idx) (rebuild_step a logEntry idx)
  end.

(** [rebuildTableAndCounters]. *)
Definition rebuildTableAndCounters (a : t) : t :=
  match Dom.scoringTableBody (dom a) with
  | None => a
  | Some _ =>
      let a := with_scores a 0 0 in
      let a := with_dom a (Dom.with_table (dom a) []) in
      let a := rebuild_forEach (DataManager.scoreLogs (dataManager a)) 0 a in
      updateAbbaColumn a
  end.

(** [createLogObject]. *)
Definition createLogObject `{Platform} (a : t) (scoreID teamLetter scorer assist : string)
    (now : Z) : LogEntry.t :=
  let teamAName := Dom.teamA_value (dom a) in
  let teamBName := Dom.teamB_value (dom a) in
  let gameID := teamAName +:+ " vs " +:+ teamBName in
  let teamName := if String.eqb teamLetter "A" then teamAName else teamBName in
  LogEntry.Build scoreID gameID (toLocaleString now) teamName scorer assist.

(** [addNewScore]. *)
Definition addNewScore `{Platform} (a : t) (team scorer assist : string) (now : Z) : t :=
  let a := if String.eqb team "A"
           then with_scores a (teamAScore a + 1) (teamBScore a)
           else with_scores a (teamAScore a) (teamBScore a + 1) in
  let newScoreID := Js.toString now in
  let logEntry := createLogObject a newScoreID team scorer assist now in
  let a := with_dataManager a (DataManager.addScoreLog (dataManager a) logEntry) in
  let a := addScoreToTable a logEntry in
  closePopup a.

(** The truthiness of [this.currentEditID]. *)
Definition editing (a : t) : option string :=
  match currentEditID a with
  | Some id => if String.eqb id "" then None else Some id
  | None => None
  end.

(** [row.cells[1]], [row.cells[2]] or [row.cells[4]], [row.cells[5]] of the
    first row that carries the id.  A [Dom.row] always has these cells: it
    stands for a row of the seven cells of [createScoreRow]; on a shorter
    row the source throws. *)
Fixpoint set_cells (scoreID teamLetter scorer assist : string)
    (rows : list Dom.row) : list Dom.row :=
  match rows with
  | [] => []
  | r :: rest =>
      if String.eqb (Dom.data_score_id r) scoreID then
        (if String.eqb teamLetter "A"
         then Dom.Row (Dom.data_score_id r) (Dom.abba_cell r) scorer assist
                (Dom.total_cell r) (Dom.scoreB_cell r) (Dom.assistB_cell r)
         else Dom.Row (Dom.data_score_id r) (Dom.abba_cell r)
                (Dom.scoreA_cell r) (Dom.assistA_cell r)
                (Dom.total_cell r) scorer assist) :: rest
      else r :: set_cells scoreID teamLetter scorer assist rest
  end.

(** [updateScoreInTable]; a popup whose data set has no team compares
    unequal to the letter A. *)
Definition updateScoreInTable (a : t) (scoreID scorer assist : string) : t :=
  match Dom.scoringTableBody (dom a), Dom.scorePopup (dom a) with
  | Some rows, Some team =>
      with_dom a
        (Dom.with_table (dom a)
           (set_cells scoreID (default "" team) scorer assist rows))
  | _, _ => a
  end.

(** [updateExistingScore]; the result tells whether the entry was found. *)
Definition updateExistingScore (a : t) (scorer assist : string) : bool * t :=
  match currentEditID a with
  | None => (false, a)
  | Some id =>
      let '(updated, dm) := DataManager.updateScoreLog (dataManager a) id scorer assist in
      if updated
      then (true, closePopup (updateScoreInTable (with_dataManager a dm) id scorer assist))
      else (false, with_dataManager a dm)
  end.

Definition set_popup_team (d : Dom.t) (team : string) : Dom.t :=
  match Dom.scorePopup d with
  | Some _ =>
      Dom.Build (Dom.teamA d) (Dom.teamB d) (Dom.teamAList d) (Dom.teamBList d)
        (Dom.time d) (Dom.abbaStart d) (Dom.scoringTableBody d) (Dom.overlay d)
        (Some (Some team))
  | None => d
  end.

(** [openPopup(team)]. *)
Definition openPopup (a : t) (team : string) : t :=
  let a := with_currentEditID a None in
  if Dom.overlay (dom a) then with_dom a (set_popup_team (dom a) team) else a.

(** [editScore(scoreID)]. *)
Definition editScore (a : t) (scoreID : string) : t :=
  match DataManager.getScoreLog (dataManager a) scoreID with
  | None => a
  | Some logToEdit =>
      let a := with_currentEditID a (Some scoreID) in
      let teamLetter :=
        if String.eqb (LogEntry.Team logToEdit) (Dom.teamA_value (dom a))
        then "A" else "B" in
      with_dom a (set_popup_team (dom a) teamLetter)
  end.

(** [teamsData[selectedTeam] || []]. *)
Fixpoint players_of (teamsData : teams) (selectedTeam : string) : list string :=
  match teamsData with
  | [] => []
  | (name, players) :: rest =>
      if String.eqb name selectedTeam then players
      else players_of rest selectedTeam
  end.

(** [handleTeamChange(teamID)] for the two ids the listeners pass. *)
Definition handleTeamChange (a : t) (teamID : string) : t :=
  let d := dom a in
  let players (sel : option Dom.select) : option string :=
    match sel with
    | Some s =>
        if String.eqb (Dom.value s) "" then None
        else Some (Js.join (String Js.LF EmptyString)
                     (players_of (DataManager.teamsData (dataManager a))
                        (Dom.value s)))
    | None => None
    end in
  if String.eqb teamID "teamA" then
    match players (Dom.teamA d), Dom.teamAList d with
    | Some text, Some _ =>
        with_dom a
          (Dom.Build (Dom.teamA d) (Dom.teamB d) (Some text) (Dom.teamBList d)
             (Dom.time d) (Dom.abbaStart d) (Dom.scoringTableBody d)
             (Dom.overlay d) (Dom.scorePopup d))
    | _, _ => a
    end
  else if String.eqb teamID "teamB" then
    match players (Dom.teamB d), Dom.teamBList d with
    | Some text, Some _ =>
        with_dom a
          (Dom.Build (Dom.teamA d) (Dom.teamB d) (Dom.teamAList d) (Some text)
             (Dom.time d) (Dom.abbaStart d) (Dom.scoringTableBody d)
             (Dom.overlay d) (Dom.scorePopup d))
    | _, _ => a
    end
  else a.

(** [row.parentElement.removeChild(row)] for the first row with the id. *)
Fixpoint remove_row (scoreID : string) (rows : list Dom.row) : list Dom.row :=
  match rows with
  | [] => []
  | r :: rest =>
      if String.eqb (Dom.data_score_id r) scoreID then rest
      else r :: remove_row scoreID rest
  end.

Section WithPlatform.
Context `{Platform}.

(** [autoSave]. *)
Definition autoSave (a : t) (w : World) (now : Z) : t * World :=
  if isRestoring a then (a, w)
  else
    let d := dom a in
    let currentState :=
      GameState.Updates
        (Some (teamAScore a)) (Some (teamBScore a))
        (Some (Dom.teamA_value d)) (Some (Dom.teamB_value d))
        (Some (default "" (Dom.teamAList d))) (Some (default "" (Dom.teamBList d)))
        (Some (default "" (Dom.time d)))
        (Some (DataManager.scoreLogs (dataManager a)))
        (Some (Js.or_else (default "" (Dom.abbaStart d)) (abbaStart a)))
        (Some now) in
    let dm := DataManager.updateGameState (dataManager a) currentState in
    let '(_, dm, w) := DataManager.saveCurrentState dm w now in
    (with_dataManager a dm, w).

(** [handleAbbaChange]. *)
Definition handleAbbaChange (a : t) (w : World) (now : Z) : t * World :=
  let a := with_abbaStart a
             (if String.eqb (default "" (Dom.abbaStart (dom a))) "F"
              then "F" else "M") in
  autoSave (updateAbbaColumn a) w now.

(** [handleDeleteScore]. *)
Definition handleDeleteScore (a : t) (w : World) (now : Z) : t * World :=
  match editing a with
  | None => (a, w)
  | Some scoreID =>
      match DataManager.removeScoreLog (dataManager a) scoreID with
      | (None, _) => (a, w)
      | (Some _, dm) =>
          let a := with_dataManager a dm in
          let a :=
            match Dom.scoringTableBody (dom a) with
            | Some rows =>
                with_dom a (Dom.with_table (dom a) (remove_row scoreID rows))
            | None => a
            end in
          let a := rebuildTableAndCounters a in
          autoSave (closePopup a) w now
      end
  end.

(** [restoreGameState]. *)
Definition restoreGameState (a : t) (gameState : GameState.t) : t :=
  let a := with_scores a (GameState.teamAScore gameState)
             (GameState.teamBScore gameState) in
  let d := dom a in
  let keep_or (old : option string) (v : string) : option string :=
    match old with
    | Some x => Some (if String.eqb v "" then x else v)
    | None => None
    end in
  let pick (old : option Dom.select) (v : string) : option Dom.select :=
    match old with
    | Some s => Some (if String.eqb v "" then s else Dom.set_value s v)
    | None => None
    end in
  let d := Dom.Build
             (pick (Dom.teamA d) (GameState.teamAName gameState))
             (pick (Dom.teamB d) (GameState.teamBName gameState))
             (keep_or (Dom.teamAList d) (GameState.teamAPlayers gameState))
             (keep_or (Dom.teamBList d) (GameState.teamBPlayers gameState))
             (keep_or (Dom.time d) (GameState.gameTime gameState))
             (Dom.abbaStart d) (Dom.scoringTableBody d) (Dom.overlay d)
             (Dom.scorePopup d) in
  let a := with_dom a d in
  let a := match GameState.scoreLogs gameState with
           | [] => a
           | logs => rebuildScoreTable a logs
           end in
  match Dom.abbaStart (dom a) with
  | Some _ =>
      if String.eqb (GameState.abbaStart gameState) "" then a
      else
        let start := if String.eqb (GameState.abbaStart gameState) "F"
                     then "F" else "M" in
        let a := with_abbaStart a start in
        let d := dom a in
        let a := with_dom a
                   (Dom.Build (Dom.teamA d) (Dom.teamB d) (Dom.teamAList d)
                      (Dom.teamBList d) (Dom.time d) (Some start)
                      (Dom.scoringTableBody d) (Dom.overlay d) (Dom.scorePopup d)) in
        updateAbbaColumn a
  | None => a
  end.

(** [checkAndRestoreState]; [shouldRestore] is the answer to [confirm]. *)
Definition checkAndRestoreState (a : t) (shouldRestore : bool) (now : Z) : t :=
  let gameState := DataManager.gameState (dataManager a) in
  if negb (GameState.timestamp gameState =? 0)
     && (now - GameState.timestamp gameState <? PersistenceManager.ONE_DAY)
  then
    let a := with_isRestoring a true in
    let a := if shouldRestore then restoreGameState a gameState
             else with_dataManager a
                    (DataManager.resetGameState (dataManager a) now) in
    with_isRestoring a false
  else a.

(** The constructor of the application on the page [d], with the browser
    storage [ls]. *)
Definition new (ls : gmap string item) (d : Dom.t) (now : Z) : option (t * World) :=
  let w := PersistenceManager.new ls in
  match DataManager.new w now with
  | None => None
  | Some (dm, w) =>
      match TimerManager.new w now with
      | None => None
      | Some (tm, w) => Some (Build dm tm 0 0 None false "M" d, w)
      end
  end.

(** What [handleSubmitScore] hands to the download and to the sink. *)
Record export := Export {
  filename : string;
  csv : string;
  payload_GameID : string;
  payload_Date : string;
  payload_logs : list LogEntry.t
}.

(** One CSV line of the export. *)
Definition csv_line (gameID : string) (log : LogEntry.t) : string :=
  Utils.toCSVLine
    [Some (Js.or_else (LogEntry.GameID log) gameID);
     Some (LogEntry.Time log); Some (LogEntry.Team log);
     Some (LogEntry.Score log); Some (LogEntry.Assist log)].

Definition CRLF : string := String Js.CR (String Js.LF EmptyString).

(** [handleSubmitScore], run without interruption at its [await]; the
    outcome of the submission only selects a notification.  The records
    of the payload carry no [scoreID]. *)
Definition handleSubmitScore (a : t) (w : World) (now : Z)
  : t * World * option export :=
  let scoreLogs := DataManager.scoreLogs (dataManager a) in
  match scoreLogs with
  | [] => (a, w, None)
  | _ =>
      let teamAName := Dom.teamA_value (dom a) in
      let teamBName := Dom.teamB_value (dom a) in
      let gameID := teamAName +:+ " vs " +:+ teamBName in
      let header := [Some "GameID"; Some "Time"; Some "Team"; Some "Score";
                     Some "Assist"] in
      let lines := Utils.toCSVLine header :: map (csv_line gameID) scoreLogs in
      let out :=
        Export
          (Utils.sanitizeFilename (Js.or_else gameID "Game") "Game" +:+ ".csv")
          (Js.join CRLF lines)
          gameID (toLocaleDateString now)
          (map (fun log =>
                  LogEntry.Build "" (Js.or_else (LogEntry.GameID log) gameID)
                    (LogEntry.Time log) (LogEntry.Team log)
                    (LogEntry.Score log) (LogEntry.Assist log))
             scoreLogs) in
      let a := with_dataManager a (DataManager.clearScoreLogs (dataManager a)) in
      let a := with_currentEditID (rebuildTableAndCounters a) None in
      let dm := DataManager.updateGameState (dataManager a)
                  (GameState.Updates (Some 0) (Some 0) None None None None None
                     (Some []) None (Some now)) in
      let '(_, dm, w) := DataManager.saveCurrentState dm w now in
      (with_dataManager a dm, w, Some out)
  end.

(** [handleSaveScore]; [scorer] and [assist] are the values of the two
    dropdowns, the team is read from the data set of the popup. *)
Definition handleSaveScore (a : t) (scorer assist : string) (now : Z) : t :=
  match Dom.scorePopup (dom a) with
  | Some (Some team) =>
      if String.eqb team "" || String.eqb scorer "" || String.eqb assist ""
      then a
      else match editing a with
           | None => addNewScore a team scorer assist now
           | Some _ => snd (updateExistingScore a scorer assist)
           end
  | _ => a
  end.

(** What the user does to the point log and to the team selectors; each
    constructor stands for the listeners that [setupEventListeners]
    installs, on their successful path: the popup is there and both
    dropdowns have a value, so that [handleSaveScore] reaches [addNewScore]
    or [updateExistingScore]. *)
Inductive action :=
| AddScore (team scorer assist : string)
    (* the add button of a team, then the popup button *)
| EditScore (scoreID scorer assist : string)
    (* the edit button of a row, then the popup button *)
| DeleteScore (scoreID : string)
    (* the edit button of a row, then the delete button *)
| ChangeTeamA (name : string)
| ChangeTeamB (name : string).

Definition select_team (d : Dom.t) (teamID name : string) : Dom.t :=
  let pick (s : option Dom.select) := option_map (fun s => Dom.set_value s name) s in
  if String.eqb teamID "teamA"
  then Dom.Build (pick (Dom.teamA d)) (Dom.teamB d) (Dom.teamAList d)
         (Dom.teamBList d) (Dom.time d) (Dom.abbaStart d)
         (Dom.scoringTableBody d) (Dom.overlay d) (Dom.scorePopup d)
  else Dom.Build (Dom.teamA d) (pick (Dom.teamB d)) (Dom.teamAList d)
         (Dom.teamBList d) (Dom.time d) (Dom.abbaStart d)
         (Dom.scoringTableBody d) (Dom.overlay d) (Dom.scorePopup d).

(** One user action at clock reading [now]. *)
Definition perform (a : t) (w : World) (act : action) (now : Z) : t * World :=
  match act with
  | AddScore team scorer assist =>
      (addNewScore (openPopup a team) team scorer assist now, w)
  | EditScore scoreID scorer assist =>
      (snd (updateExistingScore (editScore a scoreID) scorer assist), w)
  | DeleteScore scoreID =>
      handleDeleteScore (editScore a scoreID) w now
  | ChangeTeamA name =>
      autoSave (handleTeamChange (with_dom a (select_team (dom a) "teamA" name))
                  "teamA") w now
  | ChangeTeamB name =>
      autoSave (handleTeamChange (with_dom a (select_team (dom a) "teamB" name))
                  "teamB") w now
  end.

(** A session: the actions in order, each with its clock reading. *)
Fixpoint run (a : t) (w : World) (acts : list (action * Z)) : t * World :=
  match acts with
  | [] => (a, w)
  | (act, now) :: rest =>
      let '(a, w) := perform a w act now in run a w rest
  end.

(** [handleBeforeUnload]: the final save, then the warning text when
    something is unsaved or logged; [None] is the bare return. *)
Definition handleBeforeUnload (a : t) (w : World) (now : Z)
  : t * World * option string :=
  let '(a, w) := autoSave a w now in
  (a, w,
   if DataManager.isDirty (dataManager a)
      || (0 <? length (DataManager.scoreLogs (dataManager a)))%nat
   then Some "You have unsaved game data. Are you sure you want to leave?"
   else None).


End WithPlatform.

End ScorekeeperApp.

(* ===================================================================== *)
(** ** Vocabulary of the statements                                       *)
(* ===================================================================== *)

(** The number of entries of a log that bear a team name. *)
Definition count_team (name : string) (logs : list LogEntry.t) : Z :=
  Z.of_nat (length (filter (fun e => LogEntry.Team e = name) logs)).

(** The text of a field of [toCSVLine]. *)
Definition field_text (v : option string) : string :=
  match v with None => EmptyString | Some s => s end.

(** Does the text hold a carriage return? *)
Definition has_CR (s : string) : bool :=
  Js.existsb_chars (fun c => Ascii.eqb c Js.CR) s.

(** The next character, if any, is no double quote. *)
Definition no_leading_quote (rest : string) : Prop :=
  match rest with
  | EmptyString => True
  | String ch _ => Ascii.eqb ch Js.dquote = false
  end.

(** The header line of the export. *)
Definition csv_header : string :=
  Utils.toCSVLine [Some "GameID"; Some "Time"; Some "Team"; Some "Score"; Some "Assist"].

(** The [EvPut] events of a trace: calls of [saveToStorage]. *)
Definition puts (tr : list event) : list (string * bool) :=
  omap (fun e => match e with EvPut k ok => Some (k, ok) | _ => None end) tr.


(** The number of clean-up passes in a trace. *)
Definition cleanups (tr : list event) : nat :=
  length (omap (fun e => match e with EvCleanup => Some tt | _ => None end) tr).

(** The roster cache is present and past its expiry. *)
Definition expired_roster (ls : gmap string item) (now : Z) : bool :=
  match ls !! CONFIG.STORAGE_KEYS.TEAMS_DATA with
  | Some (Json (VTeams c)) => TeamsCache.expiresAt c <? now
  | _ => false
  end.

(** The stored game state bears a time stamp more than seven days old. *)
Definition stale_game (ls : gmap string item) (now : Z) : bool :=
  match ls !! CONFIG.STORAGE_KEYS.GAME_STATE with
  | Some (Json v) =>
      match PersistenceManager.timestamp_of v with
      | Some ts => negb (ts =? 0) && (PersistenceManager.SEVEN_DAYS <? now - ts)
      | None => false
      end
  | _ => false
  end.

(** What one remediation pass removes, as events. *)
Definition removals (ls : gmap string item) (now : Z) : list event :=
  (if expired_roster ls now
   then [EvRemoveItem CONFIG.STORAGE_KEYS.TEAMS_DATA] else [])
  ++ (if stale_game ls now
      then [EvRemoveItem CONFIG.STORAGE_KEYS.GAME_STATE] else []).

(** What one remediation pass leaves in the storage. *)
Definition remediated (ls : gmap string item) (now : Z) : gmap string item :=
  let ls1 := if expired_roster ls now
             then delete CONFIG.STORAGE_KEYS.TEAMS_DATA ls else ls in
  if stale_game ls now then delete CONFIG.STORAGE_KEYS.GAME_STATE ls1 else ls1.

(** The three timer keys hold what [saveTimerState] writes for [tm]. *)
Definition timer_persisted (tm : TimerManager.t) (ls : gmap string item) : Prop :=
  ls !! "timerEndTime"
    = Some (Json (match TimerManager.endTime tm with
                  | Some e => VDate e | None => VNull end))
  /\ ls !! CONFIG.STORAGE_KEYS.TIMER_RUNNING
    = Some (Json (VBool (TimerManager.isRunning tm)))
  /\ ls !! "timerRemainingTime"
    = Some (Json (match TimerManager.remainingTimeMs tm with
                  | Some r => VNum r | None => VNull end)).

(** A timer that has been reset to [min] minutes and not started. *)
Definition idle_timer (min : Z) : TimerManager.t :=
  TimerManager.Build false false None (Some (min * 60 * 1000))
    CONFIG.DEFAULT_TIMER_MINUTES.

(** A page reload: a fresh [PersistenceManager] over the same storage. *)
Definition reload (w : World) : World := PersistenceManager.new (localStorage w).

(** The actions of a session that only adds points. *)
Definition additions (l : list (string * string * string * Z))
  : list (ScorekeeperApp.action * Z) :=
  map (fun '(team, scorer, assist, now) =>
         (ScorekeeperApp.AddScore team scorer assist, now)) l.

(** A line of fields that parses to a row: at least two fields, or one
    whose text is not empty once its carriage returns are gone. *)
Definition line_ok (fields : list (option string)) : Prop :=
  (2 <= length fields)%nat
  \/ exists v, fields = [v] /\ Utils.strip_CR (field_text v) <> EmptyString.


(** The row that the rebuild makes for entry [i] of the log: the two
    counters of its scoreboard cell are the points of each side among the
    first [i + 1] entries. *)
Definition running_row (a : ScorekeeperApp.t) (logs : list LogEntry.t)
    (i : nat) (e : LogEntry.t) : Dom.row :=
  let nameA := Dom.teamA_value (ScorekeeperApp.dom a) in
  let scoredA := count_team nameA (take (S i) logs) in
  ScorekeeperApp.createScoreRow
    (ScorekeeperApp.with_scores a scoredA (Z.of_nat (S i) - scoredA)) e i.

(** The match timer holds what its phase needs: while running an end time
    and no remaining time, while idle a remaining time, no end time and no
    interval. *)
Definition timer_ok (tm : TimerManager.t) : Prop :=
  if TimerManager.isRunning tm
  then TimerManager.endTime tm <> None /\ TimerManager.remainingTimeMs tm = None
  else TimerManager.endTime tm = None
       /\ TimerManager.remainingTimeMs tm <> None
       /\ TimerManager.timerInterval tm = false.

(** What happens to the seconds timer: its two buttons, each with the number
    read from the seconds input at that moment, and the callback of its
    interval. *)
Inductive sec_event :=
| SecToggle (input : option Z)
| SecReset (input : option Z)
| SecTick.

Definition sec_step (tm : SecondsTimerManager.t) (ev : sec_event) (now : Z)
  : option SecondsTimerManager.t :=
  match ev with
  | SecToggle input => SecondsTimerManager.toggle tm input now
  | SecReset input => SecondsTimerManager.handleSecTimerReset tm input now
  | SecTick => SecondsTimerManager.tick tm now
  end.

Fixpoint sec_run (tm : SecondsTimerManager.t) (evs : list (sec_event * Z))
  : option SecondsTimerManager.t :=
  match evs with
  | [] => Some tm
  | (ev, now) :: rest =>
      match sec_step tm ev now with
      | Some tm => sec_run tm rest
      | None => None
      end
  end.

(** The seconds timer holds what its phase needs: while running an end
    time and its interval, while idle neither, and no negative remaining
    time. *)
Definition sec_ok (tm : SecondsTimerManager.t) : Prop :=
  if SecondsTimerManager.isRunning tm
  then SecondsTimerManager.endTime tm <> None
       /\ SecondsTimerManager.timerInterval tm = true
  else SecondsTimerManager.endTime tm = None
       /\ SecondsTimerManager.timerInterval tm = false
       /\ forall r : Z, SecondsTimerManager.remainingTimeMs tm = Some r -> 0 <= r.

(** A text of ASCII characters only.  On such a text [Js.trim] removes
    what [String.prototype.trim] removes. *)
Definition ascii_text (s : string) : bool :=
  negb (Js.existsb_chars (fun c => (127 <? nat_of_ascii c)%nat) s).

(** A character that stands for itself in the markup of a table cell: an
    ASCII character other than the null character, the carriage return,
    the ampersand and the less-than sign. *)
Definition plain_char (c : ascii) : bool :=
  let n := nat_of_ascii c in
  (0 <? n)%nat && (n <? 128)%nat
  && negb (existsb (Nat.eqb n) [13; 38; 60]%nat).

(** A text without markup: assigned to [innerHTML] inside a cell, it is
    the text of the cell. *)
Definition plain_text (s : string) : bool :=
  negb (Js.existsb_chars (fun c => negb (plain_char c)) s).

(** A log entry whose scorer and assist are texts without markup. *)
Definition plain_entry (e : LogEntry.t) : Prop :=
  plain_text (LogEntry.Score e) = true /\ plain_text (LogEntry.Assist e) = true.

(** A user action whose names are texts without markup. *)
Definition plain_action (act : ScorekeeperApp.action) : Prop :=
  match act with
  | ScorekeeperApp.AddScore _ scorer assist
  | ScorekeeperApp.EditScore _ scorer assist =>
      plain_text scorer = true /\ plain_text assist = true
  | _ => True
  end.

(** A text that stands for itself between the quotes of an attribute
    selector, as [updateScoreInTable] writes the id of a row: ASCII
    without the null character, the line breaks, the quote and the
    backslash. *)
Definition selector_text (s : string) : bool :=
  negb (Js.existsb_chars
          (fun c => let n := nat_of_ascii c in
                    negb ((0 <? n)%nat && (n <? 128)%nat)
                    || existsb (Nat.eqb n) [10; 12; 13; 34; 92]%nat) s).

(** [Number.MAX_SAFE_INTEGER]: up to it a double holds every integer, and
    the decimal text of a number reads back as the number. *)
Definition MAX_SAFE_INTEGER : Z := 9007199254740991.

Definition safe_integer (n : Z) : Prop := Z.abs n <= MAX_SAFE_INTEGER.

(** A time of the years 1970 to 9999, in milliseconds: in this range a
    [Date] is valid, [toISOString] does not throw and the display string
    of the date parses back to its second. *)
Definition calendar_time (ms : Z) : Prop := 0 <= ms <= 253402214400000.

(* ===================================================================== *)
(** ** Browsers, a page and a short match to run the model on             *)
(* ===================================================================== *)

(** A browser with room for 4000 characters in which every text counts
    for 20; the locale formats print the time value. *)
Definition small_browser : Platform :=
  {| quota := 4000;
     text_length := fun _ => 20%nat;
     toLocaleString := Js.toString;
     toLocaleDateString := Js.toString |}.

(** A browser whose storage takes nothing (private mode, storage
    disabled). *)
Definition full_browser : Platform :=
  {| quota := 0;
     text_length := fun _ => 20%nat;
     toLocaleString := Js.toString;
     toLocaleDateString := Js.toString |}.

(** The page once the roster has been loaded: three teams to choose from,
    an empty table. *)
Definition page : Dom.t :=
  let sel := Dom.Select [""; "Red"; "Blue"; "Green"] "" in
  Dom.Build (Some sel) (Some sel) (Some "") (Some "") (Some "") (Some "M")
    (Some []) true (Some None).

(** The scorer of the example: Smith, comma, space, Ace between double
    quotes. *)
Definition smith_ace : string :=
  "Smith, " +:+ String Js.dquote "Ace" +:+ String Js.dquote EmptyString.

(** Its expected serialisation: the whole between double quotes, the inner
    quotes doubled. *)
Definition smith_ace_csv : string :=
  String Js.dquote "Smith, "
  +:+ String Js.dquote (String Js.dquote "Ace")
  +:+ String Js.dquote (String Js.dquote (String Js.dquote EmptyString)).

(** The application as the constructor leaves it on a first visit: nothing
    stored, the timer at its default, no point logged. *)
Definition blank_app : ScorekeeperApp.t :=
  ScorekeeperApp.Build
    (DataManager.Build [] [] (GameState.fresh 0) false)
    (idle_timer CONFIG.DEFAULT_TIMER_MINUTES) 0 0 None false "M" page.

(** The first visit at time 0 in the small browser. *)
Definition opening : ScorekeeperApp.t * World :=
  match @ScorekeeperApp.new small_browser ∅ page 0 with
  | Some s => s
  | None => (blank_app, PersistenceManager.new ∅)
  end.

(** A short match: Red against Blue, one point for Red. *)
Definition red_blue_one_point : list (ScorekeeperApp.action * Z) :=
  [(ScorekeeperApp.ChangeTeamA "Red", 1000);
   (ScorekeeperApp.ChangeTeamB "Blue", 2000);
   (ScorekeeperApp.AddScore "A" "Ann" "Bob", 3000)].

(** The storage the short match leaves behind once the periodic auto-save
    has run, at time 4000. *)
Definition storage_after_match : gmap string item :=
  let s := @ScorekeeperApp.run small_browser (fst opening) (snd opening)
             red_blue_one_point in
  localStorage (snd (@ScorekeeperApp.autoSave small_browser (fst s) (snd s) 4000)).

(** Two days after that auto-save. *)
Definition two_days_later : Z := 4000 + 2 * PersistenceManager.ONE_DAY.

(* ===================================================================== *)
(** * Theorems                                                            *)
(* ===================================================================== *)

(** ** The possession marker *)

Lemma block_parity (k r : nat) :
  (r < 4)%nat -> (((4 * k + r) / 2) mod 2 = (r / 2) mod 2)%nat.
Proof.
  intros Hr.
  replace (4 * k + r)%nat with (r + (2 * k) * 2)%nat by lia.
  rewrite Nat.div_add by lia.
  replace (r / 2 + 2 * k)%nat with (r / 2 + k * 2)%nat by lia.
  apply Nat.Div0.mod_add.
Qed.

Lemma computeAbba_S (abbaStart : string) (k r : nat) :
  (r < 4)%nat ->
  ScorekeeperApp.computeAbbaForIndex abbaStart (S (4 * k + r)) =
  ScorekeeperApp.computeAbbaForIndex abbaStart (S r).
Proof.
  intros Hr. unfold ScorekeeperApp.computeAbbaForIndex.
  rewrite (block_parity k r Hr). reflexivity.
Qed.

(** C2. The marker depends on the starting side and the index alone.  With
    start M the indices 0..7 give M,F,F,M,M,F,F,M and with start F they give
    F,M,M,F,F,M,M,F.  In general index 0 gives the starting side, and for
    every k the indices 4k+1 and 4k+2 give the other side while 4k+3 and 4k+4
    give the starting side again. *)
Theorem computeAbbaForIndex_blocks_of_two :
  map (ScorekeeperApp.computeAbbaForIndex "M") (seq 0 8)
    = ["M"; "F"; "F"; "M"; "M"; "F"; "F"; "M"]
  /\ map (ScorekeeperApp.computeAbbaForIndex "F") (seq 0 8)
    = ["F"; "M"; "M"; "F"; "F"; "M"; "M"; "F"]
  /\ forall abbaStart : string,
       let start := if String.eqb abbaStart "F" then "F" else "M" in
       let other := if String.eqb abbaStart "F" then "M" else "F" in
       ScorekeeperApp.computeAbbaForIndex abbaStart 0 = start
       /\ forall k : nat,
            ScorekeeperApp.computeAbbaForIndex abbaStart (4 * k + 1) = other
            /\ ScorekeeperApp.computeAbbaForIndex abbaStart (4 * k + 2) = other
            /\ ScorekeeperApp.computeAbbaForIndex abbaStart (4 * k + 3) = start
            /\ ScorekeeperApp.computeAbbaForIndex abbaStart (4 * k + 4) = start.
Proof.
  split; [reflexivity | split; [reflexivity |]].
  intros abbaStart start other. split.
  - reflexivity.
  - intros k.
    replace (4 * k + 1)%nat with (S (4 * k + 0)) by lia.
    replace (4 * k + 2)%nat with (S (4 * k + 1)) by lia.
    replace (4 * k + 3)%nat with (S (4 * k + 2)) by lia.
    replace (4 * k + 4)%nat with (S (4 * k + 3)) by lia.
    rewrite !computeAbba_S by lia.
    subst start other. unfold ScorekeeperApp.computeAbbaForIndex.
    destruct (String.eqb abbaStart "F"); repeat split; reflexivity.
Qed.

(** ** CSV: serialising and parsing a line *)

Section Csv.
Import Js Utils.

Lemma append_cons (a : ascii) (s t : string) :
  String a s +:+ t = String a (s +:+ t).
Proof. reflexivity. Qed.

Lemma append_nil (t : string) : EmptyString +:+ t = t.
Proof. reflexivity. Qed.

Lemma append_snoc (c : string) (x : ascii) (s : string) :
  snoc c x +:+ s = c +:+ String x s.
Proof.
  unfold snoc. induction c as [|y c IH].
  - reflexivity.
  - rewrite !append_cons. f_equal. exact IH.
Qed.

Lemma append_empty_r (s : string) : s +:+ EmptyString = s.
Proof.
  induction s as [|y s IH]; [reflexivity |].
  rewrite append_cons. f_equal. exact IH.
Qed.

Lemma append_assoc (a b c : string) : (a +:+ b) +:+ c = a +:+ (b +:+ c).
Proof.
  induction a as [|y a IH]; [reflexivity |].
  rewrite !append_cons. f_equal. exact IH.
Qed.

(** Inside quotes the loop copies the field back, dropping carriage
    returns, and leaves the quotes at the closing one. *)
Lemma loop_quoted (s rest : string) :
  no_leading_quote rest ->
  forall R r c,
    parseCSV_loop (double_quotes s +:+ String dquote rest) (CsvState R r c true)
    = parseCSV_loop rest (CsvState R r (c +:+ strip_CR s) false).
Proof.
  intros Hrest. induction s as [|a s IH]; intros R r c.
  - simpl. rewrite append_empty_r.
    destruct rest as [|ch rest']; simpl; [reflexivity |].
    simpl in Hrest. now rewrite Hrest.
  - simpl. destruct (Ascii.eqb a dquote) eqn:Hq.
    + apply Ascii.eqb_eq in Hq. subst a. simpl.
      rewrite IH, append_snoc. reflexivity.
    + simpl. rewrite Hq. simpl. rewrite !andb_false_r.
      destruct (Ascii.eqb a CR) eqn:Hcr; simpl.
      * apply IH.
      * rewrite IH, append_snoc. reflexivity.
Qed.

(** Outside quotes a field without special characters is copied as it is. *)
Lemma loop_plain (s rest : string) :
  needs_quotes s = false ->
  forall R r c,
    parseCSV_loop (s +:+ rest) (CsvState R r c false)
    = parseCSV_loop rest (CsvState R r (c +:+ s) false).
Proof.
  induction s as [|a s IH]; intros Hs R r c.
  - simpl. now rewrite append_empty_r.
  - unfold needs_quotes in Hs. simpl in Hs.
    apply orb_false_iff in Hs as [Ha Hs].
    apply orb_false_iff in Ha as [Ha Hcr].
    apply orb_false_iff in Ha as [Ha Hlf].
    apply orb_false_iff in Ha as [Hq Hco].
    simpl. rewrite Hq, Hco, Hlf, Hcr. simpl.
    rewrite (IH Hs), append_snoc. reflexivity.
Qed.

Lemma strip_CR_plain (s : string) : has_CR s = false -> strip_CR s = s.
Proof.
  induction s as [|a s IH]; simpl; [reflexivity |].
  unfold has_CR. simpl. intros H. apply orb_false_iff in H as [Ha Hs].
  rewrite Ha. f_equal. now apply IH.
Qed.

Lemma needs_quotes_has_CR (s : string) : needs_quotes s = false -> has_CR s = false.
Proof.
  induction s as [|a s IH]; [reflexivity |].
  unfold needs_quotes, has_CR. simpl. intros H.
  apply orb_false_iff in H as [Ha Hs].
  apply orb_false_iff in Ha as [_ Hcr].
  rewrite Hcr. simpl. now apply IH.
Qed.

(** One serialised field, whatever follows it on the line. *)
Lemma loop_field (v : option string) (rest : string) :
  no_leading_quote rest ->
  forall R r c,
    parseCSV_loop (csv_field v +:+ rest) (CsvState R r c false)
    = parseCSV_loop rest (CsvState R r (c +:+ strip_CR (field_text v)) false).
Proof.
  intros Hrest R r c. unfold csv_field. fold (field_text v).
  destruct (needs_quotes (field_text v)) eqn:Hn.
  - simpl. rewrite append_assoc, append_cons, append_nil. now rewrite loop_quoted.
  - rewrite loop_plain by assumption.
    now rewrite strip_CR_plain by now apply needs_quotes_has_CR.
Qed.

(** A whole line, read into an empty cell: the fields but the last go to
    the row, the last one stays in the cell. *)
Lemma loop_line (fs : list (option string)) :
  forall (f : option string) R r,
    exists l c,
      parseCSV_loop (join "," (map csv_field (f :: fs))) (CsvState R r EmptyString false)
      = CsvState R (r ++ l) c false
      /\ l ++ [c] = map (fun v => strip_CR (field_text v)) (f :: fs).
Proof.
  induction fs as [|g fs IH]; intros f R r.
  - exists [], (strip_CR (field_text f)). simpl.
    rewrite <- (append_empty_r (csv_field f)).
    rewrite loop_field by exact I. simpl. now rewrite app_nil_r.
  - destruct (IH g R (r ++ [strip_CR (field_text f)])) as (l & c & Hl & Hc).
    exists (strip_CR (field_text f) :: l), c. split.
    + change (join "," (map csv_field (f :: g :: fs)))
        with (csv_field f +:+ String comma (join "," (map csv_field (g :: fs)))).
      rewrite loop_field by reflexivity.
      cbn [parseCSV_loop]. change (Ascii.eqb comma dquote) with false.
      cbn [inQuotes negb andb row rows cell]. rewrite Ascii.eqb_refl.
      cbn [andb]. rewrite append_nil, Hl. now rewrite <- app_assoc.
    + simpl in *. now rewrite Hc.
Qed.

(** Parsing a serialised line gives one row: the fields, without their
    carriage returns.  (A line that consists of one field whose text is
    empty once the carriage returns are gone parses to no row at all.) *)
Lemma parseCSV_toCSVLine (fields : list (option string)) :
  (2 <= length fields)%nat
  \/ (exists v, fields = [v] /\ strip_CR (field_text v) <> EmptyString) ->
  parseCSV (toCSVLine fields) = [map (fun v => strip_CR (field_text v)) fields].
Proof.
  intros Hne. destruct fields as [|f fs].
  { destruct Hne as [H | (v & H & _)]; [simpl in H; lia | discriminate]. }
  unfold parseCSV, toCSVLine.
  destruct (loop_line fs f [] []) as (l & c & Hl & Hc).
  rewrite Hl. unfold push_row. cbn [cell row rows inQuotes].
  assert (Hpush : negb (String.eqb c EmptyString) || (0 <? length ([] ++ l))%nat = true).
  { destruct l as [|x l]; [| now rewrite orb_true_r].
    destruct Hne as [H | (v & H & Hv)].
    - destruct fs as [|g fs]; [simpl in H; lia |].
      simpl in Hc. destruct fs; discriminate.
    - injection H as -> ->. simpl in Hc. injection Hc as ->.
      apply String.eqb_neq in Hv. now rewrite Hv. }
  rewrite Hpush. simpl. now rewrite Hc.
Qed.

End Csv.

(** ** The storage medium *)

Section Medium.
Context `{Platform}.
Import CONFIG Storage PersistenceManager.

Lemma used_delete (m : gmap string item) (k : string) (i : item) :
  m !! k = Some i ->
  used m = (String.length k + item_length i + used (delete k m))%nat.
Proof.
  intros Hk. unfold used.
  apply (map_fold_delete_L (fun k i acc => (String.length k + item_length i + acc)%nat));
    [intros; lia | exact Hk].
Qed.

Lemma used_delete_le (m : gmap string item) (k : string) :
  (used (delete k m) <= used m)%nat.
Proof.
  destruct (m !! k) as [i|] eqn:Hk.
  - rewrite (used_delete m k i Hk). lia.
  - now rewrite delete_id.
Qed.

Lemma used_insert (m : gmap string item) (k : string) (i : item) :
  used (<[k := i]> m) = (String.length k + item_length i + used (delete k m))%nat.
Proof.
  rewrite (used_delete (<[k := i]> m) k i) by apply lookup_insert_eq.
  now rewrite delete_insert_eq.
Qed.

(** Writing after a removal never needs more room than writing before it. *)
Lemma used_insert_delete_le (m : gmap string item) (k k' : string) (i : item) :
  (used (<[k := i]> (delete k' m)) <= used (<[k := i]> m))%nat.
Proof.
  destruct (decide (k' = k)) as [-> | Hne].
  - now rewrite insert_delete_eq.
  - rewrite <- delete_insert_ne by assumption. apply used_delete_le.
Qed.

Lemma used_insert_remediated (m : gmap string item) (k : string) (i : item) (now : Z) :
  (used (<[k := i]> (remediated m now)) <= used (<[k := i]> m))%nat.
Proof.
  unfold remediated.
  destruct (stale_game m now), (expired_roster m now);
    repeat (etransitivity; [apply used_insert_delete_le |]); reflexivity.
Qed.

Lemma setItem_spec (w : World) (key : string) (i : item) :
  let ok := (used (<[key := i]> (localStorage w)) <=? quota)%nat in
  setItem w key i
  = (ok, MkWorld (if ok then <[key := i]> (localStorage w) else localStorage w)
           (journal w ++ [EvSetItem key ok]) (lastSaveTime w) (autoSaveInterval w)).
Proof. unfold setItem. simpl. destruct (_ <=? _)%nat; reflexivity. Qed.

(** One pass of [cleanupOldData]: what it removes and what it records. *)
Lemma cleanupOldData_spec (w : World) (now : Z) :
  cleanupOldData w now
  = MkWorld (remediated (localStorage w) now)
      (journal w ++ [EvCleanup] ++ removals (localStorage w) now)
      (lastSaveTime w) (autoSaveInterval w).
Proof.
  unfold cleanupOldData, remediated, removals, expired_roster, stale_game,
    loadFromStorage, getItem, removeItem, record, expiresAt_of. simpl.
  destruct (localStorage w !! STORAGE_KEYS.TEAMS_DATA) as [[[| | | | |c]|]|] eqn:Ht;
    simpl; rewrite ?Ht; simpl.
  all: try (destruct (TeamsCache.expiresAt c <? now); simpl;
            rewrite ?lookup_delete_ne by discriminate).
  all: destruct (localStorage w !! STORAGE_KEYS.GAME_STATE) as [[v|]|]; simpl;
    rewrite <- ?app_assoc; try reflexivity.
  all: destruct v; simpl; try reflexivity;
    match goal with
    | |- context [negb (?t =? 0) && ?b] => destruct (negb (t =? 0) && b)
    end; simpl; rewrite <- ?app_assoc; reflexivity.
Qed.


Lemma cleanups_app (a b : list event) :
  cleanups (a ++ b) = (cleanups a + cleanups b)%nat.
Proof. unfold cleanups. now rewrite omap_app, length_app. Qed.


Lemma cleanups_removals (ls : gmap string item) (now : Z) :
  cleanups (removals ls now) = 0%nat.
Proof.
  unfold removals. destruct (expired_roster ls now), (stale_game ls now); reflexivity.
Qed.

(** The [catch] branch, from a world with storage [ls]. *)
Lemma retry_spec (w : World) (key : string) (data : value) (now : Z) :
  let ls := remediated (localStorage w) now in
  let ok := (used (<[key := Json data]> ls) <=? quota)%nat in
  retry w key data now
  = (ok, MkWorld (if ok then <[key := Json data]> ls else ls)
           (journal w ++ [EvCleanup] ++ removals (localStorage w) now
              ++ [EvSetItem key ok; EvPut key ok])
           (lastSaveTime w) (autoSaveInterval w)).
Proof.
  unfold retry. rewrite cleanupOldData_spec, setItem_spec. simpl.
  unfold record. simpl. rewrite <- !app_assoc. reflexivity.
Qed.

Lemma remediated_lookup_other (ls : gmap string item) (now : Z) (k : string) :
  k <> STORAGE_KEYS.TEAMS_DATA -> k <> STORAGE_KEYS.GAME_STATE ->
  remediated ls now !! k = ls !! k.
Proof.
  intros Ht Hg. unfold remediated.
  destruct (stale_game ls now), (expired_roster ls now);
    rewrite ?lookup_delete_ne by congruence; reflexivity.
Qed.

(** A successful [saveToStorage] leaves the value under its key, unless the
    key is the one of the last-save stamp. *)
Lemma saveToStorage_stored (w : World) (key : string) (data : value) (now : Z) :
  fst (saveToStorage w key data now) = true ->
  key <> STORAGE_KEYS.LAST_SAVE ->
  localStorage (snd (saveToStorage w key data now)) !! key = Some (Json data).
Proof.
  unfold saveToStorage. rewrite setItem_spec. cbn zeta.
  destruct (used (<[key := Json data]> (localStorage w)) <=? quota)%nat.
  - rewrite setItem_spec. cbn zeta.
    cbn [localStorage journal lastSaveTime autoSaveInterval].
    destruct (used (<[STORAGE_KEYS.LAST_SAVE := Json (VNum now)]>
                      (<[key := Json data]> (localStorage w))) <=? quota)%nat.
    + intros _ Hne. cbn. rewrite lookup_insert_ne by congruence.
      apply lookup_insert_eq.
    + rewrite retry_spec. cbn zeta. cbn [fst snd localStorage].
      intros -> _. apply lookup_insert_eq.
  - rewrite retry_spec. cbn zeta. cbn [fst snd localStorage].
    intros -> _. apply lookup_insert_eq.
Qed.

(** What a [saveToStorage] can change: its key, the last-save stamp, and
    the two keys the clean-up may remove. *)
Lemma saveToStorage_frame (w : World) (key : string) (data : value) (now : Z)
    (k : string) :
  k <> key -> k <> STORAGE_KEYS.LAST_SAVE ->
  k <> STORAGE_KEYS.TEAMS_DATA -> k <> STORAGE_KEYS.GAME_STATE ->
  localStorage (snd (saveToStorage w key data now)) !! k = localStorage w !! k.
Proof.
  intros Hk Hl Ht Hg. unfold saveToStorage. rewrite setItem_spec. cbn zeta.
  destruct (used (<[key := Json data]> (localStorage w)) <=? quota)%nat.
  - rewrite setItem_spec. cbn zeta.
    cbn [localStorage journal lastSaveTime autoSaveInterval].
    destruct (used (<[STORAGE_KEYS.LAST_SAVE := Json (VNum now)]>
                      (<[key := Json data]> (localStorage w))) <=? quota)%nat.
    + cbn. now rewrite !lookup_insert_ne by congruence.
    + rewrite retry_spec. cbn zeta. cbn [fst snd localStorage].
      destruct (_ <=? _)%nat; rewrite ?lookup_insert_ne by congruence;
        rewrite remediated_lookup_other by assumption;
        now rewrite ?lookup_insert_ne by congruence.
  - rewrite retry_spec. cbn zeta. cbn [fst snd localStorage].
    destruct (_ <=? _)%nat; rewrite ?lookup_insert_ne by congruence;
      now rewrite remediated_lookup_other by assumption.
Qed.







End Medium.

(** ** The data manager: flushing *)

Section Flush.
Context `{Platform}.
Import CONFIG Storage PersistenceManager.







End Flush.

(** ** The countdown timer across a reload *)

Section Reload.
Context `{Platform}.
Import CONFIG Storage PersistenceManager.

Lemma loadFromStorage_lookup (w : World) (key : string) (v : value) :
  localStorage w !! key = Some (Json v) -> loadFromStorage w key = Some v.
Proof. intros Hk. unfold loadFromStorage, getItem. now rewrite Hk. Qed.

(** Thirty seconds into a hundred minutes, whatever the starting instant:
    both readings are cut at the second, so the difference is exact. *)
Lemma getTimeRemaining_after_30s (t0 : Z) :
  TimerManager.getTimeRemaining (t0 + 100 * 60 * 1000) (t0 + 30000)
  = TimerManager.TimeRemaining 5970000 99 30.
Proof.
  unfold TimerManager.getTimeRemaining, TimerManager.Date_parse.
  replace (t0 + 100 * 60 * 1000) with (t0 + 6000 * 1000) by lia.
  replace (t0 + 30000) with (t0 + 30 * 1000) by lia.
  rewrite !Z.div_add by lia.
  replace (1000 * (t0 / 1000 + 6000) - 1000 * (t0 / 1000 + 30)) with 5970000 by lia.
  reflexivity.
Qed.

(** What the constructor finds when the timer keys hold the state of a
    running timer whose end is still ahead. *)
Lemma loadTimerState_running (w : World) (e now : Z) :
  localStorage w !! "timerEndTime" = Some (Json (VDate e)) ->
  localStorage w !! STORAGE_KEYS.TIMER_RUNNING = Some (Json (VBool true)) ->
  localStorage w !! "timerRemainingTime" = Some (Json VNull) ->
  0 < TimerManager.total (TimerManager.getTimeRemaining e now) ->
  TimerManager.new w now
  = Some (TimerManager.Build false true (Some e) None DEFAULT_TIMER_MINUTES, w).
Proof.
  intros He Hr Hm Hpos. unfold TimerManager.new, TimerManager.loadTimerState.
  rewrite (loadFromStorage_lookup _ _ _ He), (loadFromStorage_lookup _ _ _ Hr),
    (loadFromStorage_lookup _ _ _ Hm).
  cbn -[TimerManager.getTimeRemaining]. apply Z.leb_gt in Hpos.
  rewrite Hpos. reflexivity.
Qed.

(** C3. A timer with 100 minutes is started at any instant [t0] and its
    state is persisted; the page is reloaded 30 seconds later.  The new timer
    is running towards the persisted end time, and the time remaining is 99
    minutes and 30 seconds (5970 seconds), not the original 100 minutes. *)
Theorem timer_reload_resumes_from_end_time (w : World) (t0 : Z) :
  let started := TimerManager.start (idle_timer 100) w t0 in
  timer_persisted (fst started) (localStorage (snd started)) ->
  exists (tm : TimerManager.t) (w' : World),
    TimerManager.new (reload (snd started)) (t0 + 30000) = Some (tm, w')
    /\ TimerManager.isRunning tm = true
    /\ TimerManager.endTime tm = Some (t0 + 100 * 60 * 1000)
    /\ TimerManager.remainingTimeMs tm = None
    /\ TimerManager.getTimeRemaining (t0 + 100 * 60 * 1000) (t0 + 30000)
       = TimerManager.TimeRemaining (99 * 60000 + 30 * 1000) 99 30
    /\ TimerManager.getRemainingSeconds tm (t0 + 30000) = 99 * 60 + 30
    /\ TimerManager.getRemainingSeconds tm (t0 + 30000) <> 100 * 60.
Proof.
  cbn zeta. unfold timer_persisted, idle_timer, TimerManager.start.
  cbn [TimerManager.isRunning TimerManager.remainingTimeMs TimerManager.endTime
       TimerManager.defaultMinutes TimerManager.timerInterval fst snd].
  intros (He & Hr & Hm).
  eexists _, _. split.
  - apply loadTimerState_running; unfold reload, PersistenceManager.new;
      cbn [localStorage]; try eassumption.
    rewrite getTimeRemaining_after_30s. cbn. lia.
  - cbn [TimerManager.isRunning TimerManager.endTime TimerManager.remainingTimeMs].
    repeat split.
    + apply getTimeRemaining_after_30s.
    + unfold TimerManager.getRemainingSeconds. cbn [TimerManager.isRunning
        TimerManager.endTime]. now rewrite getTimeRemaining_after_30s.
    + unfold TimerManager.getRemainingSeconds. cbn [TimerManager.isRunning
        TimerManager.endTime]. now rewrite getTimeRemaining_after_30s.
Qed.

(** Below 10^21 the text of a number reads back as the number. *)
Lemma parseInt_number_small (n : Z) :
  Z.abs n < 1000000000000000000000 -> TimerManager.parseInt_number n = Some n.
Proof.
  intros Hn. unfold TimerManager.parseInt_number.
  apply Z.ltb_lt in Hn. now rewrite Hn.
Qed.

(** A paused timer with a remaining time other than zero, below 10^21,
    comes back as it was. *)
Lemma loadTimerState_paused_nonzero (w : World) (r now : Z) :
  r <> 0 ->
  Z.abs r < 1000000000000000000000 ->
  localStorage w !! "timerEndTime" = Some (Json VNull) ->
  localStorage w !! STORAGE_KEYS.TIMER_RUNNING = Some (Json (VBool false)) ->
  localStorage w !! "timerRemainingTime" = Some (Json (VNum r)) ->
  TimerManager.new w now
  = Some (TimerManager.Build false false None (Some r) DEFAULT_TIMER_MINUTES, w).
Proof.
  intros Hnz Hsmall He Hr Hm. unfold TimerManager.new, TimerManager.loadTimerState.
  rewrite (loadFromStorage_lookup _ _ _ He), (loadFromStorage_lookup _ _ _ Hr),
    (loadFromStorage_lookup _ _ _ Hm).
  cbn -[TimerManager.parseInt_number]. apply Z.eqb_neq in Hnz. rewrite Hnz.
  cbn -[TimerManager.parseInt_number]. rewrite (parseInt_number_small r Hsmall).
  reflexivity.
Qed.

(** A paused timer whose remaining time is zero: the stored zero is falsy,
    so the constructor takes the branch for a missing state and resets to
    the default duration. *)
Lemma loadTimerState_paused_zero (w : World) (now : Z) :
  localStorage w !! "timerEndTime" = Some (Json VNull) ->
  localStorage w !! STORAGE_KEYS.TIMER_RUNNING = Some (Json (VBool false)) ->
  localStorage w !! "timerRemainingTime" = Some (Json (VNum 0)) ->
  exists (tm : TimerManager.t) (w' : World),
    TimerManager.new w now = Some (tm, w')
    /\ TimerManager.isRunning tm = false
    /\ TimerManager.remainingTimeMs tm = Some (DEFAULT_TIMER_MINUTES * 60 * 1000).
Proof.
  intros He Hr Hm. unfold TimerManager.new, TimerManager.loadTimerState.
  rewrite (loadFromStorage_lookup _ _ _ He), (loadFromStorage_lookup _ _ _ Hr),
    (loadFromStorage_lookup _ _ _ Hm).
  cbn. eexists _, _. split; [reflexivity |]. split; reflexivity.
Qed.

(** Pausing at or after the end stores zero, never a negative time. *)
Lemma stop_after_expiry (tm : TimerManager.t) (w : World) (e now : Z) :
  TimerManager.isRunning tm = true ->
  TimerManager.endTime tm = Some e ->
  e <= now ->
  TimerManager.remainingTimeMs (fst (TimerManager.stop tm w now)) = Some 0.
Proof.
  intros Hrun He Hle. unfold TimerManager.stop. rewrite Hrun, He. cbn.
  f_equal. unfold TimerManager.Date_parse.
  assert (e / 1000 <= now / 1000) by (apply Z.div_le_mono; lia). lia.
Qed.

End Reload.

(** The reload of C3 on a concrete browser, started at an instant that is
    not a whole second. *)
Lemma timer_reload_witness :
  let started :=
    @TimerManager.start small_browser (idle_timer 100)
      (PersistenceManager.new ∅) 1700000000123 in
  timer_persisted (fst started) (localStorage (snd started))
  /\ exists (tm : TimerManager.t) (w' : World),
       @TimerManager.new small_browser (reload (snd started)) (1700000000123 + 30000)
       = Some (tm, w')
       /\ TimerManager.isRunning tm = true
       /\ TimerManager.endTime tm = Some (1700000000123 + 100 * 60 * 1000)
       /\ TimerManager.remainingTimeMs tm = None
       /\ TimerManager.getTimeRemaining (1700000000123 + 100 * 60 * 1000)
            (1700000000123 + 30000)
          = TimerManager.TimeRemaining (99 * 60000 + 30 * 1000) 99 30
       /\ TimerManager.getRemainingSeconds tm (1700000000123 + 30000) = 99 * 60 + 30
       /\ TimerManager.getRemainingSeconds tm (1700000000123 + 30000) <> 100 * 60.
Proof.
  assert (Hp : timer_persisted
                 (fst (@TimerManager.start small_browser (idle_timer 100)
                         (PersistenceManager.new ∅) 1700000000123))
                 (localStorage
                    (snd (@TimerManager.start small_browser (idle_timer 100)
                            (PersistenceManager.new ∅) 1700000000123)))).
  { vm_compute. repeat split. }
  split; [exact Hp |].
  exact (@timer_reload_resumes_from_end_time small_browser
           (PersistenceManager.new ∅) 1700000000123 Hp).
Defined.

Section PausedAtZero.
Context `{Platform}.
Import CONFIG Storage PersistenceManager.

(** C4, the code at its failing input.  A running timer is paused at or
    after its end, which stores a remaining time of zero, and that state is
    persisted.  After a reload the timer is idle with the default 100 minutes:
    the stored zero is not restored. *)
Theorem timer_paused_at_zero_is_reset_on_reload (tm : TimerManager.t) (w : World)
    (e now later : Z) :
  TimerManager.isRunning tm = true ->
  TimerManager.endTime tm = Some e ->
  e <= now ->
  let stopped := TimerManager.stop tm w now in
  timer_persisted (fst stopped) (localStorage (snd stopped)) ->
  TimerManager.remainingTimeMs (fst stopped) = Some 0
  /\ exists (tm' : TimerManager.t) (w' : World),
       TimerManager.new (reload (snd stopped)) later = Some (tm', w')
       /\ TimerManager.isRunning tm' = false
       /\ TimerManager.remainingTimeMs tm' = Some (100 * 60 * 1000)
       /\ TimerManager.remainingTimeMs tm' <> TimerManager.remainingTimeMs (fst stopped).
Proof.
  intros Hrun He Hle stopped Hp.
  pose proof (stop_after_expiry tm w e now Hrun He Hle) as Hzero.
  fold stopped in Hzero. split; [exact Hzero |].
  assert (Hshape : TimerManager.endTime (fst stopped) = None
                   /\ TimerManager.isRunning (fst stopped) = false).
  { subst stopped. unfold TimerManager.stop. rewrite Hrun. cbn. split; reflexivity. }
  destruct Hshape as [Hend Hidle].
  destruct Hp as (Hpe & Hpr & Hpm). rewrite Hend in Hpe. rewrite Hidle in Hpr.
  rewrite Hzero in Hpm.
  destruct (loadTimerState_paused_zero (reload (snd stopped)) later Hpe Hpr Hpm)
    as (tm' & w' & Hnew & Hidle' & Hrem).
  exists tm', w'. repeat split; try assumption.
  rewrite Hrem, Hzero. discriminate.
Qed.

End PausedAtZero.

(** A timer with five seconds left, started at 0, paused at 6000 (one second
    after its end) and reloaded at 7000. *)
Lemma timer_paused_at_zero_witness :
  let tm := fst (@TimerManager.start small_browser
                   (TimerManager.Build false false None (Some 5000) 100)
                   (PersistenceManager.new ∅) 0) in
  let w := snd (@TimerManager.start small_browser
                  (TimerManager.Build false false None (Some 5000) 100)
                  (PersistenceManager.new ∅) 0) in
  let stopped := @TimerManager.stop small_browser tm w 6000 in
  (TimerManager.isRunning tm = true
   /\ TimerManager.endTime tm = Some 5000
   /\ 5000 <= 6000
   /\ timer_persisted (fst stopped) (localStorage (snd stopped)))
  /\ TimerManager.remainingTimeMs (fst stopped) = Some 0
  /\ exists (tm' : TimerManager.t) (w' : World),
       @TimerManager.new small_browser (reload (snd stopped)) 7000 = Some (tm', w')
       /\ TimerManager.isRunning tm' = false
       /\ TimerManager.remainingTimeMs tm' = Some (100 * 60 * 1000)
       /\ TimerManager.remainingTimeMs tm' <> TimerManager.remainingTimeMs (fst stopped).
Proof.
  cbv zeta.
  assert (Hrun : TimerManager.isRunning
                   (fst (@TimerManager.start small_browser
                           (TimerManager.Build false false None (Some 5000) 100)
                           (PersistenceManager.new ∅) 0)) = true) by reflexivity.
  assert (He : TimerManager.endTime
                 (fst (@TimerManager.start small_browser
                         (TimerManager.Build false false None (Some 5000) 100)
                         (PersistenceManager.new ∅) 0)) = Some 5000) by reflexivity.
  assert (Hle : 5000 <= 6000) by lia.
  assert (Hp : timer_persisted
                 (fst (@TimerManager.stop small_browser
                         (fst (@TimerManager.start small_browser
                                 (TimerManager.Build false false None (Some 5000) 100)
                                 (PersistenceManager.new ∅) 0))
                         (snd (@TimerManager.start small_browser
                                 (TimerManager.Build false false None (Some 5000) 100)
                                 (PersistenceManager.new ∅) 0)) 6000))
                 (localStorage
                    (snd (@TimerManager.stop small_browser
                            (fst (@TimerManager.start small_browser
                                    (TimerManager.Build false false None (Some 5000) 100)
                                    (PersistenceManager.new ∅) 0))
                            (snd (@TimerManager.start small_browser
                                    (TimerManager.Build false false None (Some 5000) 100)
                                    (PersistenceManager.new ∅) 0)) 6000)))).
  { vm_compute. repeat split. }
  split; [repeat split; assumption |].
  exact (@timer_paused_at_zero_is_reset_on_reload small_browser _ _ 5000 6000 7000
           Hrun He Hle Hp).
Defined.

(** ** The point log and the counters *)

Section PointLog.
Context `{Platform}.
Import ScorekeeperApp.

Lemma addScoreToTable_dataManager (a : t) (e : LogEntry.t) :
  dataManager (addScoreToTable a e) = dataManager a.
Proof. unfold addScoreToTable. destruct (Dom.scoringTableBody (dom a)); reflexivity. Qed.

(** [addNewScore] appends one entry; its id is the clock reading and its
    team is the name selected for the side of the button. *)
Lemma addNewScore_log (a : t) (team scorer assist : string) (now : Z) :
  exists e : LogEntry.t,
    DataManager.scoreLogs (dataManager (addNewScore a team scorer assist now))
    = DataManager.scoreLogs (dataManager a) ++ [e]
    /\ LogEntry.scoreID e = Js.toString now
    /\ LogEntry.Team e = (if String.eqb team "A" then Dom.teamA_value (dom a)
                          else Dom.teamB_value (dom a))
    /\ LogEntry.Score e = scorer /\ LogEntry.Assist e = assist.
Proof.
  unfold addNewScore. cbn [closePopup with_currentEditID dataManager].
  rewrite addScoreToTable_dataManager.
  destruct (String.eqb team "A") eqn:Ht;
    (eexists; split; [reflexivity |]);
    unfold createLogObject; cbn; rewrite ?Ht; repeat split; reflexivity.
Qed.

(** C7, the code at its failing input.  Two points added in the same
    millisecond: the two new entries of the log bear the same id, so the ids
    of the log are not pairwise distinct. *)
Theorem addNewScore_same_instant_same_id (a : t) (w : World)
    (team1 scorer1 assist1 team2 scorer2 assist2 : string) (now : Z) :
  let a' := fst (run a w [(AddScore team1 scorer1 assist1, now);
                          (AddScore team2 scorer2 assist2, now)]) in
  exists e1 e2 : LogEntry.t,
    DataManager.scoreLogs (dataManager a')
    = DataManager.scoreLogs (dataManager a) ++ [e1; e2]
    /\ LogEntry.scoreID e1 = Js.toString now
    /\ LogEntry.scoreID e2 = Js.toString now
    /\ ~ NoDup (map LogEntry.scoreID (DataManager.scoreLogs (dataManager a'))).
Proof.
  cbn [run perform fst snd].
  destruct (addNewScore_log (openPopup a team1) team1 scorer1 assist1 now)
    as (e1 & Hl1 & Hid1 & _).
  set (a1 := addNewScore (openPopup a team1) team1 scorer1 assist1 now) in *.
  destruct (addNewScore_log (openPopup a1 team2) team2 scorer2 assist2 now)
    as (e2 & Hl2 & Hid2 & _).
  assert (Hopen : forall x team, dataManager (openPopup x team) = dataManager x).
  { intros x team. unfold openPopup. cbn. destruct (Dom.overlay (dom x)); reflexivity. }
  rewrite Hopen in Hl1, Hl2.
  exists e1, e2. rewrite Hl2, Hl1, <- app_assoc. cbn [app].
  repeat split; try assumption.
  rewrite map_app. cbn [map]. rewrite Hid1, Hid2. intros Hnd.
  apply NoDup_app in Hnd as (_ & _ & Hnd).
  apply NoDup_cons in Hnd as [Hnot _]. apply Hnot. constructor.
Qed.

Lemma count_team_cons (name : string) (e : LogEntry.t) (logs : list LogEntry.t) :
  count_team name (e :: logs)
  = (if String.eqb (LogEntry.Team e) name then 1 else 0) + count_team name logs.
Proof.
  unfold count_team. rewrite filter_cons.
  destruct (decide (LogEntry.Team e = name)) as [Heq | Hne].
  - apply String.eqb_eq in Heq. rewrite Heq. cbn [length]. lia.
  - apply String.eqb_neq in Hne. rewrite Hne. lia.
Qed.

Lemma count_team_bounds (name : string) (logs : list LogEntry.t) :
  0 <= count_team name logs <= Z.of_nat (length logs).
Proof.
  induction logs as [|e logs IH].
  - unfold count_team. cbn. lia.
  - rewrite count_team_cons. cbn [length].
    destruct (String.eqb (LogEntry.Team e) name); lia.
Qed.

(** When the two names differ and every entry bears one of them, the
    entries that are not of the first name are those of the second. *)
Lemma count_team_complement (nameA nameB : string) (logs : list LogEntry.t) :
  nameA <> nameB ->
  Forall (fun e => LogEntry.Team e = nameA \/ LogEntry.Team e = nameB) logs ->
  Z.of_nat (length logs) - count_team nameA logs = count_team nameB logs.
Proof.
  intros Hne Hall. induction Hall as [|e logs He _ IH].
  - unfold count_team. cbn. lia.
  - rewrite !count_team_cons. cbn [length].
    destruct He as [He | He]; rewrite He, String.eqb_refl.
    + apply String.eqb_neq in Hne. rewrite Hne. lia.
    + assert (Hne' : nameB <> nameA) by congruence.
      apply String.eqb_neq in Hne'. rewrite Hne'. lia.
Qed.

(** The [forEach] of the rebuild: it adds to the first counter the entries
    that bear the selected Team A name and to the second counter all the
    others; it touches neither the log nor the selectors. *)
Lemma rebuild_forEach_counts (logs : list LogEntry.t) :
  forall (idx : nat) (a : t),
    let a' := rebuild_forEach logs idx a in
    teamAScore a' = teamAScore a + count_team (Dom.teamA_value (dom a)) logs
    /\ teamBScore a' = teamBScore a + (Z.of_nat (length logs)
                                      - count_team (Dom.teamA_value (dom a)) logs)
    /\ dataManager a' = dataManager a
    /\ abbaStart a' = abbaStart a
    /\ Dom.teamA (dom a') = Dom.teamA (dom a)
    /\ Dom.teamB (dom a') = Dom.teamB (dom a)
    /\ (Dom.scoringTableBody (dom a) <> None -> Dom.scoringTableBody (dom a') <> None).
Proof.
  induction logs as [|e logs IH]; intros idx a.
  - cbn. unfold count_team. cbn. repeat split; try lia. auto.
  - cbn [rebuild_forEach]. cbn zeta.
    specialize (IH (S idx) (rebuild_step a e idx)). cbn zeta in IH.
    destruct IH as (HA & HB & Hdm & Hab & HtA & HtB & Htab).
    assert (Hstep :
      teamAScore (rebuild_step a e idx)
        = teamAScore a + (if String.eqb (LogEntry.Team e) (Dom.teamA_value (dom a))
                          then 1 else 0)
      /\ teamBScore (rebuild_step a e idx)
        = teamBScore a + (if String.eqb (LogEntry.Team e) (Dom.teamA_value (dom a))
                          then 0 else 1)
      /\ dataManager (rebuild_step a e idx) = dataManager a
      /\ abbaStart (rebuild_step a e idx) = abbaStart a
      /\ Dom.teamA (dom (rebuild_step a e idx)) = Dom.teamA (dom a)
      /\ Dom.teamB (dom (rebuild_step a e idx)) = Dom.teamB (dom a)
      /\ (Dom.scoringTableBody (dom a) <> None ->
          Dom.scoringTableBody (dom (rebuild_step a e idx)) <> None)).
    { unfold rebuild_step.
      destruct (String.eqb (LogEntry.Team e) (Dom.teamA_value (dom a)));
        cbn; destruct (Dom.scoringTableBody (dom a)); cbn;
        repeat split; try lia; try congruence; auto. }
    destruct Hstep as (SA & SB & Sdm & Sab & StA & StB & Stab).
    assert (Hname : Dom.teamA_value (dom (rebuild_step a e idx))
                    = Dom.teamA_value (dom a)).
    { unfold Dom.teamA_value. now rewrite StA. }
    rewrite Hname in HA, HB. rewrite count_team_cons. cbn [length].
    rewrite HA, HB, SA, SB.
    destruct (String.eqb (LogEntry.Team e) (Dom.teamA_value (dom a)));
      repeat split; try lia; try congruence; auto.
Qed.

Lemma updateAbbaColumn_keeps (a : t) :
  teamAScore (updateAbbaColumn a) = teamAScore a
  /\ teamBScore (updateAbbaColumn a) = teamBScore a
  /\ dataManager (updateAbbaColumn a) = dataManager a
  /\ Dom.teamA (dom (updateAbbaColumn a)) = Dom.teamA (dom a)
  /\ Dom.teamB (dom (updateAbbaColumn a)) = Dom.teamB (dom a).
Proof.
  unfold updateAbbaColumn. destruct (Dom.scoringTableBody (dom a)); cbn; auto.
Qed.

(** The rebuild on a page that has the scoring table. *)
Lemma rebuildTableAndCounters_counts (a : t) :
  Dom.scoringTableBody (dom a) <> None ->
  let a' := rebuildTableAndCounters a in
  let logs := DataManager.scoreLogs (dataManager a) in
  dataManager a' = dataManager a
  /\ Dom.teamA (dom a') = Dom.teamA (dom a)
  /\ Dom.teamB (dom a') = Dom.teamB (dom a)
  /\ teamAScore a' = count_team (Dom.teamA_value (dom a)) logs
  /\ teamBScore a' = Z.of_nat (length logs) - count_team (Dom.teamA_value (dom a)) logs.
Proof.
  intros Htab. cbn zeta. unfold rebuildTableAndCounters.
  destruct (Dom.scoringTableBody (dom a)) as [rows|] eqn:Hrows; [| congruence].
  set (a1 := with_dom (with_scores a 0 0) (Dom.with_table (dom (with_scores a 0 0)) [])).
  destruct (rebuild_forEach_counts (DataManager.scoreLogs (dataManager a1)) 0 a1)
    as (HA & HB & Hdm & _ & HtA & HtB & _).
  destruct (updateAbbaColumn_keeps
              (rebuild_forEach (DataManager.scoreLogs (dataManager a1)) 0 a1))
    as (UA & UB & Udm & UtA & UtB).
  rewrite UA, UB, Udm, UtA, UtB, HA, HB, Hdm, HtA, HtB.
  subst a1. cbn. repeat split; reflexivity.
Qed.

End PointLog.

(** The constructor on a first visit. *)
Example opening_is_new :
  @ScorekeeperApp.new small_browser ∅ page 0 = Some opening
  /\ fst opening = blank_app.
Proof. vm_compute. split; reflexivity. Qed.

Section Rebuild.
Context `{Platform}.
Import ScorekeeperApp.

(** C1 (amended).  After any sequence of actions, on a page that has the
    scoring table, [rebuildTableAndCounters] leaves the log as it is and sets
    the counters so that their sum is the length of the log; the Team A
    counter is the number of entries whose team is the Team A name selected at
    that moment, and the Team B counter is the number of all other entries.
    That is the number of entries of the selected Team B name when the two
    names differ and every entry bears one of them. *)
Theorem rebuild_counts_after_any_session (a0 : t) (w0 : World)
    (acts : list (action * Z)) :
  let a := fst (run a0 w0 acts) in
  Dom.scoringTableBody (dom a) <> None ->
  let a' := rebuildTableAndCounters a in
  let logs := DataManager.scoreLogs (dataManager a') in
  let nameA := Dom.teamA_value (dom a') in
  let nameB := Dom.teamB_value (dom a') in
  logs = DataManager.scoreLogs (dataManager a)
  /\ teamAScore a' + teamBScore a' = Z.of_nat (length logs)
  /\ teamAScore a' = count_team nameA logs
  /\ teamBScore a' = Z.of_nat (length logs) - count_team nameA logs
  /\ (nameA <> nameB ->
      Forall (fun e => LogEntry.Team e = nameA \/ LogEntry.Team e = nameB) logs ->
      teamBScore a' = count_team nameB logs).
Proof.
  cbn zeta. intros Htab.
  destruct (rebuildTableAndCounters_counts (fst (run a0 w0 acts)) Htab)
    as (Hdm & HtA & HtB & HA & HB).
  cbn zeta in *.
  assert (HnA : Dom.teamA_value (dom (rebuildTableAndCounters (fst (run a0 w0 acts))))
                = Dom.teamA_value (dom (fst (run a0 w0 acts)))).
  { unfold Dom.teamA_value. now rewrite HtA. }
  rewrite Hdm, HnA, HA, HB.
  split; [reflexivity |]. split; [lia |]. split; [reflexivity |].
  split; [reflexivity |].
  intros Hne Hall. now apply count_team_complement.
Qed.

End Rebuild.

(** C1 as stated fails: Red against Blue, one point for Red, then Team A is
    switched to Green.  The rebuild counts the Red entry for side B, although
    no entry bears the name Blue. *)
Lemma rebuild_team_B_counterexample :
  let a := fst (@ScorekeeperApp.run small_browser (fst opening) (snd opening)
                  (red_blue_one_point ++ [(ScorekeeperApp.ChangeTeamA "Green", 4000)])) in
  let a' := ScorekeeperApp.rebuildTableAndCounters a in
  let logs := DataManager.scoreLogs (ScorekeeperApp.dataManager a') in
  Dom.scoringTableBody (ScorekeeperApp.dom a) <> None
  /\ Dom.teamA_value (ScorekeeperApp.dom a') = "Green"
  /\ Dom.teamB_value (ScorekeeperApp.dom a') = "Blue"
  /\ map LogEntry.Team logs = ["Red"]
  /\ ScorekeeperApp.teamAScore a' = 0
  /\ ScorekeeperApp.teamBScore a' = 1
  /\ ScorekeeperApp.teamBScore a'
     <> count_team (Dom.teamB_value (ScorekeeperApp.dom a')) logs.
Proof. vm_compute. repeat split; discriminate. Qed.

(** The amended C1 on the same session, before the switch to Green. *)
Lemma rebuild_counts_witness :
  let a := fst (@ScorekeeperApp.run small_browser (fst opening) (snd opening)
                  red_blue_one_point) in
  let a' := ScorekeeperApp.rebuildTableAndCounters a in
  let logs := DataManager.scoreLogs (ScorekeeperApp.dataManager a') in
  let nameA := Dom.teamA_value (ScorekeeperApp.dom a') in
  let nameB := Dom.teamB_value (ScorekeeperApp.dom a') in
  Dom.scoringTableBody (ScorekeeperApp.dom a) <> None
  /\ logs = DataManager.scoreLogs (ScorekeeperApp.dataManager a)
  /\ ScorekeeperApp.teamAScore a' + ScorekeeperApp.teamBScore a'
     = Z.of_nat (length logs)
  /\ ScorekeeperApp.teamAScore a' = count_team nameA logs
  /\ ScorekeeperApp.teamBScore a'
     = Z.of_nat (length logs) - count_team nameA logs
  /\ (nameA <> nameB ->
      Forall (fun e => LogEntry.Team e = nameA \/ LogEntry.Team e = nameB) logs ->
      ScorekeeperApp.teamBScore a' = count_team nameB logs).
Proof.
  cbv zeta.
  assert (Htab : Dom.scoringTableBody
                   (ScorekeeperApp.dom
                      (fst (@ScorekeeperApp.run small_browser (fst opening)
                              (snd opening) red_blue_one_point))) <> None).
  { vm_compute. discriminate. }
  split; [exact Htab |].
  exact (@rebuild_counts_after_any_session small_browser (fst opening) (snd opening)
           red_blue_one_point Htab).
Defined.

(** ** The export *)

Section SubmitScore.
Context `{Platform}.
Import ScorekeeperApp.

(** A flush changes nothing of the data manager but the dirty flag. *)
Lemma saveCurrentState_keeps (d : DataManager.t) (w : World) (now : Z) :
  let d' := snd (fst (DataManager.saveCurrentState d w now)) in
  DataManager.gameState d' = DataManager.gameState d
  /\ DataManager.scoreLogs d' = DataManager.scoreLogs d
  /\ DataManager.teamsData d' = DataManager.teamsData d.
Proof.
  unfold DataManager.saveCurrentState.
  destruct (DataManager.isDirty d); cbn; [| auto].
  destruct (PersistenceManager.saveGameState w (DataManager.gameState d) now)
    as [[|] w']; cbn; auto.
Qed.

(** The rebuild of an empty log. *)
Lemma rebuild_empty_log (a : t) :
  DataManager.scoreLogs (dataManager a) = [] ->
  let a' := rebuildTableAndCounters a in
  dataManager a' = dataManager a
  /\ Dom.teamA (dom a') = Dom.teamA (dom a)
  /\ Dom.teamB (dom a') = Dom.teamB (dom a)
  /\ Dom.teamAList (dom a') = Dom.teamAList (dom a)
  /\ Dom.teamBList (dom a') = Dom.teamBList (dom a)
  /\ Dom.time (dom a') = Dom.time (dom a)
  /\ (Dom.scoringTableBody (dom a) <> None ->
      teamAScore a' = 0 /\ teamBScore a' = 0
      /\ Dom.scoringTableBody (dom a') = Some []).
Proof.
  intros Hlogs. cbn zeta. unfold rebuildTableAndCounters.
  destruct (Dom.scoringTableBody (dom a)) as [rows|] eqn:Hrows.
  - cbn [dataManager with_dom with_scores]. rewrite Hlogs. cbn.
    repeat split; reflexivity.
  - repeat split; try reflexivity; congruence.
Qed.

(** C9 (amended).  An export, which needs at least one logged point, clears
    the log and sets both scores of the snapshot to 0 and its time stamp to
    the present; the team names, the rosters and the match clock label of the
    snapshot and of the page stay as they were.  On a page that has the
    scoring table the running scores become 0 and the table is emptied. *)
Theorem export_clears_log_and_scores_only (a : t) (w : World) (now : Z) :
  DataManager.scoreLogs (dataManager a) <> [] ->
  let r := handleSubmitScore a w now in
  let a' := fst (fst r) in
  let g := DataManager.gameState (dataManager a) in
  let g' := DataManager.gameState (dataManager a') in
  snd r <> None
  /\ DataManager.scoreLogs (dataManager a') = []
  /\ GameState.scoreLogs g' = []
  /\ GameState.teamAScore g' = 0
  /\ GameState.teamBScore g' = 0
  /\ GameState.timestamp g' = now
  /\ GameState.teamAName g' = GameState.teamAName g
  /\ GameState.teamBName g' = GameState.teamBName g
  /\ GameState.teamAPlayers g' = GameState.teamAPlayers g
  /\ GameState.teamBPlayers g' = GameState.teamBPlayers g
  /\ GameState.gameTime g' = GameState.gameTime g
  /\ Dom.teamA (dom a') = Dom.teamA (dom a)
  /\ Dom.teamB (dom a') = Dom.teamB (dom a)
  /\ Dom.teamAList (dom a') = Dom.teamAList (dom a)
  /\ Dom.teamBList (dom a') = Dom.teamBList (dom a)
  /\ Dom.time (dom a') = Dom.time (dom a)
  /\ (Dom.scoringTableBody (dom a) <> None ->
      teamAScore a' = 0 /\ teamBScore a' = 0
      /\ Dom.scoringTableBody (dom a') = Some []).
Proof.
  intros Hlogs. cbn zeta. unfold handleSubmitScore.
  destruct (DataManager.scoreLogs (dataManager a)) as [|e logs] eqn:Hl;
    [congruence |].
  set (a1 := with_dataManager a (DataManager.clearScoreLogs (dataManager a))).
  assert (Hempty : DataManager.scoreLogs (dataManager a1) = []) by reflexivity.
  destruct (rebuild_empty_log a1 Hempty)
    as (Rdm & RtA & RtB & RlA & RlB & Rtime & Rtab).
  set (a2 := with_currentEditID (rebuildTableAndCounters a1) None).
  set (dm := DataManager.updateGameState (dataManager a2) _).
  destruct (saveCurrentState_keeps dm w now) as (Kg & Kl & _).
  destruct (DataManager.saveCurrentState dm w now) as [[res dm'] w'].
  cbn [fst snd] in *. cbn [dataManager dom with_dataManager teamAScore teamBScore].
  rewrite Kg, Kl. subst dm a2. cbn [dataManager dom with_currentEditID
    teamAScore teamBScore]. rewrite Rdm, RtA, RtB, RlA, RlB, Rtime.
  subst a1. cbn.
  repeat split; try reflexivity; try discriminate; apply Rtab; assumption.
Qed.

End SubmitScore.

(** C9 as stated fails: after the export of the Red against Blue match the
    snapshot still names both teams, whereas [resetGameState] would have
    replaced it by the fresh defaults. *)
Lemma export_keeps_team_names_counterexample :
  let s := @ScorekeeperApp.run small_browser (fst opening) (snd opening)
             red_blue_one_point in
  let r := @ScorekeeperApp.handleSubmitScore small_browser (fst s) (snd s) 5000 in
  let g' := DataManager.gameState (ScorekeeperApp.dataManager (fst (fst r))) in
  snd r <> None
  /\ GameState.teamAName g' = "Red"
  /\ GameState.teamBName g' = "Blue"
  /\ Dom.teamA_value (ScorekeeperApp.dom (fst (fst r))) = "Red"
  /\ g' <> GameState.fresh 5000
  /\ DataManager.gameState
       (DataManager.resetGameState (ScorekeeperApp.dataManager (fst s)) 5000)
     = GameState.fresh 5000.
Proof. vm_compute. repeat split; discriminate. Qed.

(** The amended C9 on the Red against Blue match. *)
Lemma export_witness :
  let s := @ScorekeeperApp.run small_browser (fst opening) (snd opening)
             red_blue_one_point in
  let a := fst s in
  let r := @ScorekeeperApp.handleSubmitScore small_browser a (snd s) 5000 in
  let a' := fst (fst r) in
  let g := DataManager.gameState (ScorekeeperApp.dataManager a) in
  let g' := DataManager.gameState (ScorekeeperApp.dataManager a') in
  DataManager.scoreLogs (ScorekeeperApp.dataManager a) <> []
  /\ snd r <> None
  /\ DataManager.scoreLogs (ScorekeeperApp.dataManager a') = []
  /\ GameState.scoreLogs g' = []
  /\ GameState.teamAScore g' = 0
  /\ GameState.teamBScore g' = 0
  /\ GameState.timestamp g' = 5000
  /\ GameState.teamAName g' = GameState.teamAName g
  /\ GameState.teamBName g' = GameState.teamBName g
  /\ GameState.teamAPlayers g' = GameState.teamAPlayers g
  /\ GameState.teamBPlayers g' = GameState.teamBPlayers g
  /\ GameState.gameTime g' = GameState.gameTime g
  /\ Dom.teamA (ScorekeeperApp.dom a') = Dom.teamA (ScorekeeperApp.dom a)
  /\ Dom.teamB (ScorekeeperApp.dom a') = Dom.teamB (ScorekeeperApp.dom a)
  /\ Dom.teamAList (ScorekeeperApp.dom a') = Dom.teamAList (ScorekeeperApp.dom a)
  /\ Dom.teamBList (ScorekeeperApp.dom a') = Dom.teamBList (ScorekeeperApp.dom a)
  /\ Dom.time (ScorekeeperApp.dom a') = Dom.time (ScorekeeperApp.dom a)
  /\ (Dom.scoringTableBody (ScorekeeperApp.dom a) <> None ->
      ScorekeeperApp.teamAScore a' = 0 /\ ScorekeeperApp.teamBScore a' = 0
      /\ Dom.scoringTableBody (ScorekeeperApp.dom a') = Some []).
Proof.
  cbv zeta.
  assert (Hlogs : DataManager.scoreLogs
                    (ScorekeeperApp.dataManager
                       (fst (@ScorekeeperApp.run small_browser (fst opening)
                               (snd opening) red_blue_one_point))) <> []).
  { vm_compute. discriminate. }
  split; [exact Hlogs |].
  exact (@export_clears_log_and_scores_only small_browser _ _ 5000 Hlogs).
Defined.

(** ** Start-up with an old snapshot *)

Section Startup.
Context `{Platform}.
Import CONFIG ScorekeeperApp.

(** C10.  The stored snapshot is at least 24 hours old (and younger than
    seven days): start-up shows no prompt and changes nothing after the
    constructor, the in-memory log is the log of the snapshot, and both
    running scores are 0.  An export made then carries the old entries, line
    by line.  The Team A score differs from the number of entries of any team
    that has an entry in that log, and the sum of the two scores differs from
    the length of the log when it is not empty. *)
Theorem old_snapshot_log_loaded_scores_zero (ls : gmap string item) (d : Dom.t)
    (g : GameState.t) (now later : Z) (shouldRestore : bool) (a : t) (w : World) :
  ls !! STORAGE_KEYS.GAME_STATE = Some (Json (VGame g)) ->
  PersistenceManager.ONE_DAY <= now - GameState.timestamp g ->
  now - GameState.timestamp g < PersistenceManager.SEVEN_DAYS ->
  new ls d now = Some (a, w) ->
  let a' := checkAndRestoreState a shouldRestore now in
  let logs := DataManager.scoreLogs (dataManager a') in
  let gameID := Dom.teamA_value d +:+ " vs " +:+ Dom.teamB_value d in
  a' = a
  /\ logs = GameState.scoreLogs g
  /\ teamAScore a' = 0
  /\ teamBScore a' = 0
  /\ (logs <> [] ->
      exists out : export,
        snd (handleSubmitScore a' w later) = Some out
        /\ csv out = Js.join CRLF
                       (csv_header :: map (csv_line gameID) (GameState.scoreLogs g))
        /\ map LogEntry.Team (payload_logs out)
           = map LogEntry.Team (GameState.scoreLogs g)
        /\ map LogEntry.Score (payload_logs out)
           = map LogEntry.Score (GameState.scoreLogs g)
        /\ map LogEntry.Assist (payload_logs out)
           = map LogEntry.Assist (GameState.scoreLogs g))
  /\ (forall name : string,
        0 < count_team name logs -> teamAScore a' <> count_team name logs)
  /\ (logs <> [] -> teamAScore a' + teamBScore a' <> Z.of_nat (length logs)).
Proof.
  intros Hls Hday _ Hnew. cbn zeta.
  unfold new, DataManager.new, DataManager.loadGameState in Hnew.
  rewrite (loadFromStorage_lookup (PersistenceManager.new ls) _ _ Hls) in Hnew.
  destruct (PersistenceManager.loadTeamsData (PersistenceManager.new ls) now)
    as [cached w1].
  destruct (TimerManager.new w1 now) as [[tm w2]|]; [| discriminate].
  injection Hnew as <- <-.
  assert (Hcheck : forall x, DataManager.gameState (dataManager x) = g ->
                             checkAndRestoreState x shouldRestore now = x).
  { intros x Hx. unfold checkAndRestoreState. rewrite Hx.
    assert (Hlt : (now - GameState.timestamp g <? PersistenceManager.ONE_DAY) = false)
      by (apply Z.ltb_ge; lia).
    now rewrite Hlt, andb_false_r. }
  rewrite Hcheck by reflexivity.
  cbn [dataManager teamAScore teamBScore DataManager.scoreLogs].
  split; [reflexivity |]. split; [reflexivity |].
  split; [reflexivity |]. split; [reflexivity |]. split; [| split].
  - intros Hne. unfold handleSubmitScore.
    cbn [dataManager DataManager.scoreLogs dom].
    destruct (GameState.scoreLogs g) as [|e logs] eqn:Hl; [congruence |].
    match goal with
    | |- context [DataManager.saveCurrentState ?dm ?w ?n] =>
        destruct (DataManager.saveCurrentState dm w n) as [[res dm'] w']
    end.
    eexists. split; [reflexivity |]. cbn [csv payload_logs].
    split; [reflexivity |]. rewrite !map_map. cbn. repeat split; reflexivity.
  - intros name Hpos. lia.
  - intros Hne. destruct (GameState.scoreLogs g); [congruence |]. cbn [length]. lia.
Qed.

End Startup.

(** C10 on the storage left by the Red against Blue match, two days later:
    the old point is in the log while both scores are 0. *)
Lemma old_snapshot_witness :
  exists (g : GameState.t) (a : ScorekeeperApp.t) (w : World),
    (storage_after_match !! CONFIG.STORAGE_KEYS.GAME_STATE = Some (Json (VGame g))
     /\ PersistenceManager.ONE_DAY <= two_days_later - GameState.timestamp g
     /\ two_days_later - GameState.timestamp g < PersistenceManager.SEVEN_DAYS
     /\ @ScorekeeperApp.new small_browser storage_after_match page two_days_later
        = Some (a, w))
    /\ let a' := ScorekeeperApp.checkAndRestoreState a true two_days_later in
       DataManager.scoreLogs (ScorekeeperApp.dataManager a') = GameState.scoreLogs g
       /\ count_team "Red" (GameState.scoreLogs g) = 1
       /\ ScorekeeperApp.teamAScore a' = 0
       /\ ScorekeeperApp.teamBScore a' = 0
       /\ ScorekeeperApp.teamAScore a'
          <> count_team "Red" (DataManager.scoreLogs (ScorekeeperApp.dataManager a')).
Proof.
  destruct (storage_after_match !! CONFIG.STORAGE_KEYS.GAME_STATE)
    as [[[| | | | g |]|]|] eqn:Hls; try (vm_compute in Hls; discriminate).
  assert (Hts : GameState.timestamp g = 4000
                /\ count_team "Red" (GameState.scoreLogs g) = 1).
  { vm_compute in Hls. injection Hls as <-. vm_compute. split; reflexivity. }
  destruct Hts as [Hts Hred].
  destruct (@ScorekeeperApp.new small_browser storage_after_match page two_days_later)
    as [[a w]|] eqn:Hnew; [| vm_compute in Hnew; discriminate].
  assert (Hday : PersistenceManager.ONE_DAY <= two_days_later - GameState.timestamp g).
  { rewrite Hts. vm_compute. discriminate. }
  assert (Hweek : two_days_later - GameState.timestamp g < PersistenceManager.SEVEN_DAYS).
  { rewrite Hts. vm_compute. reflexivity. }
  exists g, a, w. split; [repeat split; assumption |].
  destruct (@old_snapshot_log_loaded_scores_zero small_browser storage_after_match
              page g two_days_later two_days_later true a w Hls Hday Hweek Hnew)
    as (Ha & Hlogs & HA & HB & _ & Hinv & _).
  cbv zeta. repeat split; try assumption.
  apply Hinv. rewrite Hlogs, Hred. lia.
Defined.

(** ** CSV escaping *)

Lemma needs_quotes_not_empty (s : string) :
  Utils.needs_quotes s = true -> s <> EmptyString.
Proof. intros Hn ->. discriminate. Qed.

(** C8 (amended).  A field that holds a comma, a double quote or a line
    feed, and no carriage return, is written between double quotes with its
    quotes doubled, and parsing the line it stands on gives one row with the
    field as it was, at its place (the other fields lose their carriage
    returns).  Whatever the field, the parser drops the carriage returns
    inside quotes.  The scorer Smith, Ace between quotes, is written as the
    expected text and parsed back to itself. *)
Theorem csv_quoted_field_round_trip :
  (forall (s : string) (before after : list (option string)),
     Utils.needs_quotes s = true ->
     has_CR s = false ->
     Utils.csv_field (Some s)
     = String Js.dquote (Utils.double_quotes s) +:+ String Js.dquote EmptyString
     /\ Utils.parseCSV (Utils.toCSVLine [Some s]) = [[s]]
     /\ Utils.parseCSV (Utils.toCSVLine (before ++ Some s :: after))
        = [map (fun v => Utils.strip_CR (field_text v)) before
            ++ s :: map (fun v => Utils.strip_CR (field_text v)) after])
  /\ (forall s : string,
        Utils.needs_quotes s = true ->
        Utils.strip_CR s <> EmptyString ->
        Utils.parseCSV (Utils.toCSVLine [Some s]) = [[Utils.strip_CR s]])
  /\ Utils.toCSVLine [Some smith_ace] = smith_ace_csv
  /\ Utils.parseCSV smith_ace_csv = [[smith_ace]].
Proof.
  split; [| split; [| split; reflexivity]].
  - intros s before after Hn Hcr.
    pose proof (strip_CR_plain s Hcr) as Hs.
    pose proof (needs_quotes_not_empty s Hn) as Hne.
    split; [| split].
    + unfold Utils.csv_field. now rewrite Hn.
    + rewrite parseCSV_toCSVLine.
      * cbn. now rewrite Hs.
      * right. exists (Some s). split; [reflexivity |]. cbn. now rewrite Hs.
    + rewrite parseCSV_toCSVLine.
      * rewrite map_app. cbn. now rewrite Hs.
      * destruct before as [|b before].
        -- destruct after as [|c after]; [| left; cbn; lia].
           right. exists (Some s). split; [reflexivity |]. cbn. now rewrite Hs.
        -- left. cbn. rewrite length_app. cbn. lia.
  - intros s Hn Hne. rewrite parseCSV_toCSVLine; [reflexivity |].
    right. exists (Some s). split; [reflexivity | exact Hne].
Qed.

(** C8 as stated fails on a field with a comma and a Windows line break:
    it is quoted, and parsing returns it without its carriage return. *)
Lemma csv_carriage_return_counterexample :
  let f := "a,b" +:+ String Js.CR (String Js.LF "c") in
  Utils.needs_quotes f = true
  /\ Utils.parseCSV (Utils.toCSVLine [Some f]) = [["a,b" +:+ String Js.LF "c"]]
  /\ Utils.parseCSV (Utils.toCSVLine [Some f]) <> [[f]].
Proof. vm_compute. repeat split. discriminate. Qed.

(** The amended C8 on the scorer of the example, with a field on either
    side. *)
Lemma csv_round_trip_witness :
  (Utils.needs_quotes smith_ace = true /\ has_CR smith_ace = false)
  /\ Utils.csv_field (Some smith_ace)
     = String Js.dquote (Utils.double_quotes smith_ace) +:+ String Js.dquote EmptyString
  /\ Utils.parseCSV (Utils.toCSVLine [Some smith_ace]) = [[smith_ace]]
  /\ Utils.parseCSV (Utils.toCSVLine ([Some "Red"] ++ Some smith_ace :: [Some "Bob"]))
     = [map (fun v => Utils.strip_CR (field_text v)) [Some "Red"]
         ++ smith_ace :: map (fun v => Utils.strip_CR (field_text v)) [Some "Bob"]].
Proof.
  split; [split; reflexivity |].
  exact (proj1 csv_quoted_field_round_trip smith_ace [Some "Red"] [Some "Bob"]
           eq_refl eq_refl).
Defined.

(** ** The storage on concrete browsers *)

(** A write that only fits after the remediation: the storage is full of an
    expired roster cache; the first write fails, the clean-up removes the
    cache, the retry succeeds. *)
Example saveToStorage_remediation_helps :
  let P := {| quota := 60; text_length := fun _ => 20%nat;
              toLocaleString := Js.toString; toLocaleDateString := Js.toString |} in
  let ls : gmap string item :=
    {[ CONFIG.STORAGE_KEYS.TEAMS_DATA := Json (VTeams (TeamsCache.Build [] 0 10)) ]} in
  let r := @PersistenceManager.saveToStorage P (PersistenceManager.new ls)
             "timerRunning" (VBool true) 5000 in
  fst (@Storage.setItem P (PersistenceManager.new ls) "timerRunning" (Json (VBool true)))
  = false
  /\ fst r = true
  /\ journal (snd r)
     = [EvSetItem "timerRunning" false; EvCleanup;
        EvRemoveItem CONFIG.STORAGE_KEYS.TEAMS_DATA;
        EvSetItem "timerRunning" true; EvPut "timerRunning" true]
  /\ localStorage (snd r) !! CONFIG.STORAGE_KEYS.TEAMS_DATA = None.
Proof. vm_compute. repeat split. Qed.

(** In a browser whose storage takes nothing both writes fail. *)
Example saveToStorage_both_fail :
  let r := @PersistenceManager.saveToStorage full_browser (PersistenceManager.new ∅)
             "timerRunning" (VBool true) 5000 in
  fst r = false
  /\ journal (snd r)
     = [EvSetItem "timerRunning" false; EvCleanup;
        EvSetItem "timerRunning" false; EvPut "timerRunning" false].
Proof. vm_compute. repeat split. Qed.

(** Two flushes of dirty data: one write in the small browser, two failed
    attempts in the full one. *)
Example flush_twice_examples :
  let d := DataManager.markDirty (DataManager.Build [] [] (GameState.fresh 0) false) in
  let run_twice (P : Platform) :=
    let r1 := @DataManager.saveCurrentState P d (PersistenceManager.new ∅) 10 in
    @DataManager.saveCurrentState P (snd (fst r1)) (snd r1) 20 in
  puts (journal (snd (run_twice small_browser)))
  = [(CONFIG.STORAGE_KEYS.GAME_STATE, true)]
  /\ puts (journal (snd (run_twice full_browser)))
     = [(CONFIG.STORAGE_KEYS.GAME_STATE, false); (CONFIG.STORAGE_KEYS.GAME_STATE, false)].
Proof. vm_compute. repeat split. Qed.

(** ** Ids of points added at distinct instants *)

Section Ids.
Context `{Platform}.
Import ScorekeeperApp.

(** The add button followed by the popup button, on a page that has the
    popup and its overlay, is [addNewScore] for the team of the button. *)
Lemma handleSaveScore_adds (a : t) (team scorer assist : string) (now : Z) :
  Dom.overlay (dom a) = true ->
  Dom.scorePopup (dom a) <> None ->
  team <> EmptyString -> scorer <> EmptyString -> assist <> EmptyString ->
  handleSaveScore (openPopup a team) scorer assist now
  = addNewScore (openPopup a team) team scorer assist now.
Proof.
  intros Hov Hpop Ht Hs Has.
  apply String.eqb_neq in Ht, Hs, Has.
  unfold handleSaveScore, openPopup, set_popup_team, editing.
  cbn. rewrite Hov. cbn.
  destruct (Dom.scorePopup (dom a)) as [old|]; [| congruence].
  cbn. now rewrite Ht, Hs, Has.
Qed.

Lemma openPopup_dataManager (a : t) (team : string) :
  dataManager (openPopup a team) = dataManager a.
Proof. unfold openPopup. cbn. destruct (Dom.overlay (dom a)); reflexivity. Qed.

(** The ids a session of additions appends are the clock readings of the
    additions, in order. *)
Lemma additions_ids (l : list (string * string * string * Z)) :
  forall (a : t) (w : World),
    map LogEntry.scoreID (DataManager.scoreLogs (dataManager (fst (run a w (additions l)))))
    = map LogEntry.scoreID (DataManager.scoreLogs (dataManager a))
      ++ map (fun p => Js.toString (snd p)) l.
Proof.
  induction l as [|[[[team scorer] assist] now] l IH]; intros a w.
  - cbn. now rewrite app_nil_r.
  - cbn [additions map run perform]. fold (additions l). rewrite IH.
    destruct (addNewScore_log (openPopup a team) team scorer assist now)
      as (e & Hl & Hid & _).
    rewrite Hl, openPopup_dataManager, map_app. cbn [map snd].
    rewrite Hid, <- app_assoc. reflexivity.
Qed.

(** What the code does guarantee: points added to an empty log at pairwise
    distinct clock readings get pairwise distinct ids. *)
Lemma distinct_instants_distinct_ids (l : list (string * string * string * Z))
    (a : t) (w : World) :
  DataManager.scoreLogs (dataManager a) = [] ->
  NoDup (map snd l) ->
  NoDup (map LogEntry.scoreID
           (DataManager.scoreLogs (dataManager (fst (run a w (additions l)))))).
Proof.
  intros Hempty Hnd. rewrite additions_ids, Hempty. cbn [map app].
  rewrite <- (map_map snd Js.toString).
  apply (NoDup_fmap_2 (Js.toString : Z -> string)). exact Hnd.
Qed.

End Ids.

(* ===================================================================== *)
(** * Further properties of the code                                      *)
(* ===================================================================== *)

(** ** File names *)

Section Filenames.
Import Js Utils.

Lemma substring_0_length (n : nat) :
  forall s : string, (String.length (substring 0 n s) <= n)%nat.
Proof.
  induction n as [|n IH]; intros [|c s]; cbn; try lia.
  specialize (IH s). lia.
Qed.

Lemma substring_0_chars (p : ascii -> bool) (n : nat) :
  forall s : string,
    existsb_chars p s = false -> existsb_chars p (substring 0 n s) = false.
Proof.
  induction n as [|n IH]; intros [|c s]; cbn; try reflexivity.
  intros Hs. apply orb_false_iff in Hs as [Hc Hs]. rewrite Hc. now apply IH.
Qed.

Lemma substring_0_not_empty (n : nat) (s : string) :
  s <> EmptyString -> substring 0 (S n) s <> EmptyString.
Proof. destruct s; [congruence | discriminate]. Qed.

Lemma map_chars_valid (s : string) :
  existsb_chars invalid_filename_char
    (map_chars (fun c => if invalid_filename_char c then "_"%char else c) s) = false.
Proof.
  induction s as [|c s IH]; [reflexivity |]. cbn [map_chars existsb_chars].
  rewrite IH, orb_false_r.
  destruct (invalid_filename_char c) eqn:Hc; [reflexivity | exact Hc].
Qed.

(** X1. Whatever the name and the fallback, [sanitizeFilename] returns at
    most 120 characters, none of which is a control character or one of the
    characters it replaces; the result is not empty when the fallback is
    not. *)
Theorem sanitizeFilename_safe (name fallback : string) :
  (String.length (sanitizeFilename name fallback) <= 120)%nat
  /\ existsb_chars invalid_filename_char (sanitizeFilename name fallback) = false
  /\ (fallback <> EmptyString -> sanitizeFilename name fallback <> EmptyString).
Proof.
  unfold sanitizeFilename. split; [apply substring_0_length |].
  split; [apply substring_0_chars, map_chars_valid |].
  intros Hf. apply substring_0_not_empty.
  unfold or_else. destruct (String.eqb (trim name) EmptyString) eqn:Ht.
  - destruct fallback; [congruence | discriminate].
  - apply String.eqb_neq in Ht. destruct (trim name); [congruence | discriminate].
Qed.

End Filenames.

(** ** The exported CSV, parsed back *)

Section CsvLines.
Import Js Utils.

(** A serialised line followed by more text that does not start with a
    double quote. *)
Lemma loop_line_then (fs : list (option string)) (rest : string) :
  no_leading_quote rest ->
  forall (f : option string) R r,
    exists l c,
      parseCSV_loop (toCSVLine (f :: fs) +:+ rest) (CsvState R r EmptyString false)
      = parseCSV_loop rest (CsvState R (r ++ l) c false)
      /\ l ++ [c] = map (fun v => strip_CR (field_text v)) (f :: fs).
Proof.
  intros Hrest. unfold toCSVLine.
  induction fs as [|g fs IH]; intros f R r.
  - exists [], (strip_CR (field_text f)). cbn [map join].
    rewrite loop_field by exact Hrest. rewrite append_nil.
    rewrite (app_nil_r r). split; reflexivity.
  - destruct (IH g R (r ++ [strip_CR (field_text f)])) as (l & c & Hl & Hc).
    exists (strip_CR (field_text f) :: l), c. split.
    + change (join "," (map csv_field (f :: g :: fs)))
        with (csv_field f +:+ String comma (join "," (map csv_field (g :: fs)))).
      rewrite append_assoc, append_cons.
      rewrite loop_field by reflexivity.
      cbn [parseCSV_loop]. change (Ascii.eqb comma dquote) with false.
      cbn [inQuotes negb andb row rows cell]. rewrite Ascii.eqb_refl.
      cbn [andb]. rewrite append_nil, Hl. now rewrite <- app_assoc.
    + cbn [map app] in *. now rewrite Hc.
Qed.

Lemma push_row_inQuotes (st : csv_state) : inQuotes (push_row st) = inQuotes st.
Proof. unfold push_row. now destruct (_ || _). Qed.

(** Outside quotes a line feed or a carriage return ends the row. *)
Lemma loop_newline (ch : ascii) (rest : string) (st : csv_state) :
  ch = LF \/ ch = CR ->
  inQuotes st = false ->
  parseCSV_loop (String ch rest) st = parseCSV_loop rest (push_row st).
Proof.
  intros [-> | ->] Hq; cbn [parseCSV_loop]; rewrite Hq; reflexivity.
Qed.

(** The line break the export puts between two lines ends the row. *)
Lemma loop_CRLF (rest : string) (R : list (list string)) (l : list string) (c : string) :
  parseCSV_loop (ScorekeeperApp.CRLF +:+ rest) (CsvState R l c false)
  = parseCSV_loop rest (push_row (push_row (CsvState R l c false))).
Proof.
  unfold ScorekeeperApp.CRLF. rewrite !append_cons, append_nil.
  rewrite loop_newline by (auto).
  rewrite loop_newline; [reflexivity | now left |].
  now rewrite push_row_inQuotes.
Qed.

Lemma push_row_pending (R : list (list string)) (l : list string) (c : string)
    (fields : list (option string)) :
  line_ok fields ->
  l ++ [c] = map (fun v => strip_CR (field_text v)) fields ->
  push_row (CsvState R l c false)
  = CsvState (R ++ [map (fun v => strip_CR (field_text v)) fields]) [] EmptyString false.
Proof.
  intros Hok Hc. unfold push_row. cbn [cell row rows inQuotes].
  assert (Hpush : negb (String.eqb c EmptyString) || (0 <? length l)%nat = true).
  { destruct l as [|x l]; [| now rewrite orb_true_r].
    destruct Hok as [H | (v & H & Hv)].
    - destruct fields as [|f [|g fs]]; cbn in H; try lia. discriminate.
    - subst fields. cbn in Hc. injection Hc as ->.
      apply String.eqb_neq in Hv. now rewrite Hv. }
  now rewrite Hpush, Hc.
Qed.

Lemma last_default {A : Type} (l : list A) :
  forall x d d' : A, List.last (x :: l) d = List.last (x :: l) d'.
Proof.
  induction l as [|y l IH]; intros x d d'; [reflexivity |].
  change (List.last (y :: l) d = List.last (y :: l) d'). apply IH.
Qed.

Lemma Forall_last {A : Type} (P : A -> Prop) (l : list A) :
  forall x d : A, Forall P (x :: l) -> P (List.last (x :: l) d).
Proof.
  induction l as [|y l IH]; intros x d Hall.
  - now apply Forall_cons in Hall as [H _].
  - apply Forall_cons in Hall as [_ Hall].
    change (P (List.last (y :: l) d)). now apply IH.
Qed.

(** Lines joined by CR LF: every line but the last has become a row, the
    last one is pending. *)
Lemma loop_lines (lines : list (list (option string))) :
  forall (ln : list (option string)) R,
    Forall line_ok (ln :: lines) ->
    exists l c,
      parseCSV_loop (join ScorekeeperApp.CRLF (map toCSVLine (ln :: lines)))
        (CsvState R [] EmptyString false)
      = CsvState (R ++ map (map (fun v => strip_CR (field_text v)))
                        (List.removelast (ln :: lines)))
          l c false
      /\ l ++ [c] = map (fun v => strip_CR (field_text v)) (List.last (ln :: lines) ln).
Proof.
  induction lines as [|ln' lines IH]; intros ln R Hok.
  - apply Forall_cons in Hok as [Hln _].
    destruct ln as [|f fs].
    { destruct Hln as [H | (v & H & _)]; [cbn in H; lia | discriminate]. }
    destruct (loop_line_then fs EmptyString I f R []) as (l & c & Hl & Hc).
    rewrite append_empty_r in Hl. exists l, c. cbn [map join List.removelast List.last].
    rewrite Hl. cbn. now rewrite app_nil_r.
  - apply Forall_cons in Hok as [Hln Hok].
    destruct ln as [|f fs].
    { destruct Hln as [H | (v & H & _)]; [cbn in H; lia | discriminate]. }
    change (join ScorekeeperApp.CRLF (map toCSVLine ((f :: fs) :: ln' :: lines)))
      with (toCSVLine (f :: fs)
            +:+ (ScorekeeperApp.CRLF +:+ join ScorekeeperApp.CRLF (map toCSVLine (ln' :: lines)))).
    destruct (loop_line_then fs
                (ScorekeeperApp.CRLF +:+ join ScorekeeperApp.CRLF (map toCSVLine (ln' :: lines)))
                eq_refl f R []) as (l & c & Hl & Hc).
    rewrite Hl, loop_CRLF. cbn [app] in *.
    rewrite (push_row_pending R l c (f :: fs) Hln Hc).
    change (push_row (CsvState (R ++ [map (fun v => strip_CR (field_text v)) (f :: fs)])
                        [] EmptyString false))
      with (CsvState (R ++ [map (fun v => strip_CR (field_text v)) (f :: fs)])
              [] EmptyString false).
    destruct (IH ln' (R ++ [map (fun v => strip_CR (field_text v)) (f :: fs)]) Hok)
      as (l' & c' & Hl' & Hc').
    exists l', c'. rewrite Hl'. split.
    + change (List.removelast ((f :: fs) :: ln' :: lines))
        with ((f :: fs) :: List.removelast (ln' :: lines)).
      cbn [map]. now rewrite <- app_assoc.
    + change (List.last ((f :: fs) :: ln' :: lines) (f :: fs))
        with (List.last (ln' :: lines) (f :: fs)).
      rewrite Hc'. f_equal. apply last_default.
Qed.

(** Lines that each give a row, joined by CR LF, parse back to those rows,
    carriage returns inside the fields apart. *)
Lemma parseCSV_lines (lines : list (list (option string))) :
  Forall line_ok lines ->
  parseCSV (join ScorekeeperApp.CRLF (map toCSVLine lines))
  = map (map (fun v => strip_CR (field_text v))) lines.
Proof.
  intros Hok. destruct lines as [|ln lines]; [reflexivity |].
  unfold parseCSV. destruct (loop_lines lines ln [] Hok) as (l & c & Hl & Hc).
  rewrite Hl.
  assert (Hlast : line_ok (List.last (ln :: lines) ln)).
  { now apply Forall_last. }
  rewrite (push_row_pending _ l c _ Hlast Hc). cbn [rows app].
  rewrite (app_removelast_last ln (l := ln :: lines)) at 3 by discriminate.
  rewrite map_app. reflexivity.
Qed.

End CsvLines.

Section ExportParse.
Context `{Platform}.
Import Js Utils ScorekeeperApp.

(** X2. The CSV text that [handleSubmitScore] downloads parses back, with
    [parseCSV], to the header row followed by one row of five fields per
    log entry, in log order; a field comes back as it was written, its
    carriage returns apart. *)
Theorem export_csv_parses_back (a : t) (w : World) (now : Z) (out : export) :
  snd (handleSubmitScore a w now) = Some out ->
  let gameID := Dom.teamA_value (dom a) +:+ " vs " +:+ Dom.teamB_value (dom a) in
  parseCSV (csv out)
  = ["GameID"; "Time"; "Team"; "Score"; "Assist"]
    :: map (fun log =>
              map strip_CR
                [or_else (LogEntry.GameID log) gameID; LogEntry.Time log;
                 LogEntry.Team log; LogEntry.Score log; LogEntry.Assist log])
         (DataManager.scoreLogs (dataManager a)).
Proof.
  intros Hout. cbn zeta. unfold handleSubmitScore in Hout.
  destruct (DataManager.scoreLogs (dataManager a)) as [|e logs] eqn:Hl;
    [discriminate |].
  match type of Hout with
  | context [DataManager.saveCurrentState ?dm ?w ?n] =>
      destruct (DataManager.saveCurrentState dm w n) as [[res dm'] w']
  end.
  cbn [snd] in Hout. injection Hout as <-. cbn [csv].
  set (gameID := Dom.teamA_value (dom a) +:+ " vs " +:+ Dom.teamB_value (dom a)).
  set (fields := fun log : LogEntry.t =>
         [Some (or_else (LogEntry.GameID log) gameID); Some (LogEntry.Time log);
          Some (LogEntry.Team log); Some (LogEntry.Score log);
          Some (LogEntry.Assist log)]).
  assert (Hlines :
    toCSVLine [Some "GameID"; Some "Time"; Some "Team"; Some "Score"; Some "Assist"]
      :: map (csv_line gameID) (e :: logs)
    = map toCSVLine
        ([Some "GameID"; Some "Time"; Some "Team"; Some "Score"; Some "Assist"]
         :: map fields (e :: logs))).
  { cbn [map]. rewrite map_map. reflexivity. }
  change (parseCSV
            (join CRLF
               (toCSVLine [Some "GameID"; Some "Time"; Some "Team"; Some "Score";
                           Some "Assist"] :: map (csv_line gameID) (e :: logs)))
          = ["GameID"; "Time"; "Team"; "Score"; "Assist"]
            :: map (fun log => map strip_CR
                      [or_else (LogEntry.GameID log) gameID; LogEntry.Time log;
                       LogEntry.Team log; LogEntry.Score log; LogEntry.Assist log])
                 (e :: logs)).
  rewrite Hlines.
  rewrite parseCSV_lines.
  - cbn [map]. f_equal. rewrite map_map. reflexivity.
  - apply Forall_cons. split; [left; cbn; lia |].
    apply Forall_forall. intros x Hx. apply list_elem_of_In in Hx.
    apply in_map_iff in Hx as (log & <- & _). left. cbn. lia.
Qed.

End ExportParse.

(** X2 on the Red against Blue match. *)
Lemma export_csv_witness :
  exists out : ScorekeeperApp.export,
    let s := @ScorekeeperApp.run small_browser (fst opening) (snd opening)
               red_blue_one_point in
    snd (@ScorekeeperApp.handleSubmitScore small_browser (fst s) (snd s) 5000)
    = Some out
    /\ Utils.parseCSV (ScorekeeperApp.csv out)
       = [["GameID"; "Time"; "Team"; "Score"; "Assist"];
          ["Red vs Blue"; "3000"; "Red"; "Ann"; "Bob"]].
Proof.
  destruct (snd (@ScorekeeperApp.handleSubmitScore small_browser
                   (fst (@ScorekeeperApp.run small_browser (fst opening)
                           (snd opening) red_blue_one_point))
                   (snd (@ScorekeeperApp.run small_browser (fst opening)
                           (snd opening) red_blue_one_point)) 5000))
    as [out|] eqn:Hout; [| vm_compute in Hout; discriminate].
  exists out. cbv zeta. split; [exact Hout |].
  rewrite (@export_csv_parses_back small_browser _ _ _ _ Hout).
  vm_compute. reflexivity.
Defined.

(** ** The roster table *)

Section Roster.
Import Js Utils.

Lemma set_team_fresh (teamName : string) (players : list string)
    (teams : list (string * list string)) :
  ~ In teamName (map fst teams) ->
  set_team teamName players teams = teams ++ [(teamName, players)].
Proof.
  induction teams as [|[name old] teams IH]; intros Hnot; [reflexivity |].
  cbn [set_team]. destruct (String.eqb name teamName) eqn:Hn.
  - apply String.eqb_eq in Hn. exfalso. apply Hnot. now left.
  - cbn [app]. f_equal. apply IH. intros Hin. apply Hnot. now right.
Qed.

Lemma header_forEach_fresh (body : list (list string)) (header : list string) :
  forall (colIdx : nat) (teams : list (string * list string)),
    List.NoDup header ->
    (forall n, In n header -> ~ In n (map fst teams)) ->
    header_forEach header colIdx body teams
    = teams ++ imap (fun i n => (n, column_players body (colIdx + i))) header.
Proof.
  induction header as [|n header IH]; intros colIdx teams Hnd Hfresh.
  - cbn. now rewrite app_nil_r.
  - cbn [header_forEach]. apply List.NoDup_cons_iff in Hnd as [Hn Hnd].
    rewrite set_team_fresh by (apply Hfresh; now left).
    rewrite IH; [| exact Hnd |].
    + rewrite <- app_assoc. cbn [app imap]. rewrite Nat.add_0_r.
      do 2 f_equal. apply imap_ext. intros i x _. cbn. f_equal. f_equal. lia.
    + intros m Hm Hin. rewrite map_app, in_app_iff in Hin.
      destruct Hin as [Hin | [<- | []]].
      * apply (Hfresh m); [now right | exact Hin].
      * exact (Hn Hm).
Qed.

Lemma imap_names (l : list string) :
  forall f : nat -> string -> string * list string,
    (forall i n, fst (f i n) = n) -> map fst (imap f l) = l.
Proof.
  induction l as [|x l IH]; intros f Hf; [reflexivity |].
  cbn [imap map]. rewrite Hf. f_equal. apply IH. intros i n. apply Hf.
Qed.

Lemma players_of_imap (g : nat -> list string) (header : list string) :
  forall (k i : nat) (name : string),
    List.NoDup header ->
    header !! i = Some name ->
    ScorekeeperApp.players_of (imap (fun j n => (n, g (k + j)%nat)) header) name
    = g (k + i)%nat.
Proof.
  induction header as [|n header IH]; intros k i name Hnd Hi; [discriminate |].
  apply List.NoDup_cons_iff in Hnd as [Hn Hnd].
  cbn [imap ScorekeeperApp.players_of]. destruct i as [|i].
  - injection Hi as ->. now rewrite String.eqb_refl.
  - cbn in Hi. destruct (String.eqb n name) eqn:Hname.
    + apply String.eqb_eq in Hname. subst n. exfalso. apply Hn.
      apply list_elem_of_In. eapply list_elem_of_lookup_2. exact Hi.
    + replace (k + S i)%nat with (S k + i)%nat by lia.
      rewrite <- (IH (S k) i name Hnd Hi).
      f_equal. apply imap_ext. intros j x _. cbn. do 2 f_equal. lia.
Qed.

(** X3. [csvToTeamsMap] on a table of ASCII cells whose header names,
    trimmed and with the empty cells dropped, are pairwise distinct and none
    of which is the name [__proto__]: the teams are exactly those names, and
    the players of the name at position [i] of that filtered header are the
    non-empty trimmed cells of column [i] of the rows below.  The columns
    are numbered after the empty header cells are dropped, so a name that
    follows an empty header cell reads the column to its left. *)
Theorem csvToTeamsMap_columns (first : list string) (body : list (list string)) :
  let header :=
    List.filter (fun h => negb (String.eqb h EmptyString)) (map trim first) in
  Forall (fun h => ascii_text h = true) first ->
  Forall (Forall (fun cell => ascii_text cell = true)) body ->
  ~ In "__proto__" header ->
  List.NoDup header ->
  Permutation (map fst (csvToTeamsMap (first :: body))) header
  /\ forall (i : nat) (name : string),
       header !! i = Some name ->
       ScorekeeperApp.players_of (csvToTeamsMap (first :: body)) name
       = column_players body i.
Proof.
  cbn zeta. intros _ _ _ Hnd. unfold csvToTeamsMap.
  rewrite header_forEach_fresh by (auto). cbn [app]. split.
  - rewrite imap_names by reflexivity. reflexivity.
  - intros i name Hi.
    apply (players_of_imap (column_players body) _ 0 i name Hnd Hi).
Qed.

End Roster.

(** X3 on a table with an empty header cell between two names: Blue, in
    the third column, gets the players of the second. *)
Lemma csvToTeamsMap_witness :
  let first := ["Red"; " "; "Blue"] in
  let body := [["Ann"; "Bea"; "Cy"]; ["Al"; ""; "Cleo "]] in
  (Forall (fun h => ascii_text h = true) first
   /\ Forall (Forall (fun cell => ascii_text cell = true)) body
   /\ ~ In "__proto__" (List.filter (fun h => negb (String.eqb h EmptyString))
                          (map Js.trim first))
   /\ List.NoDup (List.filter (fun h => negb (String.eqb h EmptyString))
                    (map Js.trim first)))
  /\ Permutation (map fst (Utils.csvToTeamsMap (first :: body))) ["Red"; "Blue"]
  /\ ScorekeeperApp.players_of (Utils.csvToTeamsMap (first :: body)) "Red"
     = ["Ann"; "Al"]
  /\ ScorekeeperApp.players_of (Utils.csvToTeamsMap (first :: body)) "Blue"
     = ["Bea"].
Proof.
  cbv zeta.
  assert (Hnd : List.NoDup
                  (List.filter (fun h => negb (String.eqb h EmptyString))
                     (map Js.trim ["Red"; " "; "Blue"]))).
  { vm_compute. repeat constructor; cbn; intuition discriminate. }
  assert (Hhead : Forall (fun h => ascii_text h = true) ["Red"; " "; "Blue"])
    by (repeat constructor).
  assert (Hbody : Forall (Forall (fun cell => ascii_text cell = true))
                    [["Ann"; "Bea"; "Cy"]; ["Al"; ""; "Cleo "]])
    by (repeat constructor).
  assert (Hproto : ~ In "__proto__"
                       (List.filter (fun h => negb (String.eqb h EmptyString))
                          (map Js.trim ["Red"; " "; "Blue"]))).
  { vm_compute. intuition discriminate. }
  split; [repeat split; assumption |].
  destruct (csvToTeamsMap_columns ["Red"; " "; "Blue"]
              [["Ann"; "Bea"; "Cy"]; ["Al"; ""; "Cleo "]] Hhead Hbody Hproto Hnd)
    as [Hnames Hcols].
  split; [exact Hnames |]. split.
  - exact (Hcols 0%nat "Red" eq_refl).
  - exact (Hcols 1%nat "Blue" eq_refl).
Defined.

(** ** Saving and loading through the storage *)

Section PutGet.
Context `{Platform}.
Import CONFIG Storage PersistenceManager.

(** X4. Put then get: after a [saveToStorage(key, data)] that returned
    true, for a key other than the last-save key, [loadFromStorage(key)]
    returns [data]. *)
Theorem saveToStorage_then_loadFromStorage (w : World) (key : string)
    (data : value) (now : Z) :
  fst (saveToStorage w key data now) = true ->
  key <> STORAGE_KEYS.LAST_SAVE ->
  loadFromStorage (snd (saveToStorage w key data now)) key = Some data.
Proof.
  intros Hok Hne. unfold loadFromStorage, getItem.
  now rewrite saveToStorage_stored.
Qed.

(** X5. What [saveToStorage] never does: it leaves every key alone but its
    own, the last-save stamp, the roster cache and the game state; and when
    it returns false it has written nothing: the storage is the old one
    less what the clean-up removed (an expired roster cache, a game state
    older than seven days). *)
Theorem saveToStorage_only_touches_its_keys (w : World) (key : string)
    (data : value) (now : Z) :
  (forall k : string,
     k <> key -> k <> STORAGE_KEYS.LAST_SAVE ->
     k <> STORAGE_KEYS.TEAMS_DATA -> k <> STORAGE_KEYS.GAME_STATE ->
     loadFromStorage (snd (saveToStorage w key data now)) k = loadFromStorage w k)
  /\ (fst (saveToStorage w key data now) = false ->
      localStorage (snd (saveToStorage w key data now))
      = remediated (localStorage w) now).
Proof.
  split.
  - intros k Hk Hl Ht Hg. unfold loadFromStorage, getItem.
    now rewrite saveToStorage_frame.
  - unfold saveToStorage. rewrite setItem_spec. cbn zeta.
    destruct (used (<[key := Json data]> (localStorage w)) <=? quota)%nat eqn:Hfirst.
    + rewrite setItem_spec. cbn zeta.
      cbn [localStorage journal lastSaveTime autoSaveInterval].
      destruct (used (<[STORAGE_KEYS.LAST_SAVE := Json (VNum now)]>
                        (<[key := Json data]> (localStorage w))) <=? quota)%nat.
      * discriminate.
      * rewrite retry_spec. cbn zeta. cbn [fst snd localStorage].
        intros Hretry. exfalso.
        apply Nat.leb_gt in Hretry. apply Nat.leb_le in Hfirst.
        pose proof (used_insert_remediated (<[key := Json data]> (localStorage w))
                      key (Json data) now) as Hle.
        rewrite insert_insert_eq in Hle. lia.
    + rewrite retry_spec. cbn zeta. cbn [fst snd localStorage].
      now intros ->.
Qed.

(** X6. The roster cache: after a [saveTeamsData] at time [t] that returned
    true, [loadTeamsData] returns the roster and leaves the world alone up to
    and including [t] plus 24 hours; later it returns nothing and removes
    the cache from the storage. *)
Theorem saveTeamsData_then_loadTeamsData (w : World) (data : teams) (t : Z) :
  fst (saveTeamsData w data t) = true ->
  let w' := snd (saveTeamsData w data t) in
  (forall now : Z, now <= t + ONE_DAY -> loadTeamsData w' now = (Some data, w'))
  /\ (forall now : Z, t + ONE_DAY < now ->
        fst (loadTeamsData w' now) = None
        /\ loadFromStorage (snd (loadTeamsData w' now)) STORAGE_KEYS.TEAMS_DATA = None).
Proof.
  intros Hok. cbn zeta. unfold saveTeamsData in *.
  pose proof (saveToStorage_then_stored_teams := saveToStorage_stored w
                STORAGE_KEYS.TEAMS_DATA
                (VTeams (TeamsCache.Build data t (t + ONE_DAY))) t Hok
                ltac:(discriminate)).
  set (w' := snd (saveToStorage w STORAGE_KEYS.TEAMS_DATA
                    (VTeams (TeamsCache.Build data t (t + ONE_DAY))) t)) in *.
  split; intros now Hnow; unfold loadTeamsData, loadFromStorage, getItem;
    rewrite saveToStorage_then_stored_teams; cbn [TeamsCache.expiresAt TeamsCache.data].
  - assert (Hlt : (t + ONE_DAY <? now) = false) by (apply Z.ltb_ge; lia).
    now rewrite Hlt.
  - assert (Hlt : (t + ONE_DAY <? now) = true) by (apply Z.ltb_lt; lia).
    rewrite Hlt. cbn. split; [reflexivity |].
    now rewrite lookup_delete_eq.
Qed.

(** X7. [cleanupOldData] never removes a roster cache that has not expired
    nor a game state stamped at most seven days ago, and it touches no other
    key. *)
Theorem cleanupOldData_keeps_fresh_data (w : World) (now : Z) :
  (forall c : TeamsCache.t,
     localStorage w !! STORAGE_KEYS.TEAMS_DATA = Some (Json (VTeams c)) ->
     now <= TeamsCache.expiresAt c ->
     localStorage (cleanupOldData w now) !! STORAGE_KEYS.TEAMS_DATA
     = Some (Json (VTeams c)))
  /\ (forall g : GameState.t,
        localStorage w !! STORAGE_KEYS.GAME_STATE = Some (Json (VGame g)) ->
        now - GameState.timestamp g <= SEVEN_DAYS ->
        localStorage (cleanupOldData w now) !! STORAGE_KEYS.GAME_STATE
        = Some (Json (VGame g)))
  /\ (forall k : string,
        k <> STORAGE_KEYS.TEAMS_DATA -> k <> STORAGE_KEYS.GAME_STATE ->
        localStorage (cleanupOldData w now) !! k = localStorage w !! k).
Proof.
  rewrite cleanupOldData_spec. cbn [localStorage]. split; [| split].
  - intros c Hc Hfresh. unfold remediated, expired_roster. rewrite Hc.
    assert (Hlt : (TeamsCache.expiresAt c <? now) = false) by (apply Z.ltb_ge; lia).
    rewrite Hlt. destruct (stale_game (localStorage w) now);
      rewrite ?lookup_delete_ne by discriminate; exact Hc.
  - intros g Hg Hfresh. unfold remediated, stale_game. rewrite Hg.
    cbn [timestamp_of].
    assert (Hlt : (SEVEN_DAYS <? now - GameState.timestamp g) = false)
      by (apply Z.ltb_ge; lia).
    rewrite Hlt, andb_false_r.
    destruct (expired_roster (localStorage w) now);
      rewrite ?lookup_delete_ne by discriminate; exact Hg.
  - intros k Ht Hg. now apply remediated_lookup_other.
Qed.

End PutGet.

(** X4 and X6 in the small browser: a roster saved at time 1000. *)
Lemma saveToStorage_load_witness :
  let data := VBool true in
  let w := PersistenceManager.new ∅ in
  (fst (@PersistenceManager.saveToStorage small_browser w "timerRunning" data 1000) = true
   /\ "timerRunning" <> CONFIG.STORAGE_KEYS.LAST_SAVE)
  /\ PersistenceManager.loadFromStorage
       (snd (@PersistenceManager.saveToStorage small_browser w "timerRunning" data 1000))
       "timerRunning" = Some data.
Proof.
  cbv zeta.
  assert (Hok : fst (@PersistenceManager.saveToStorage small_browser
                       (PersistenceManager.new ∅) "timerRunning" (VBool true) 1000)
                = true) by (vm_compute; reflexivity).
  assert (Hne : "timerRunning" <> CONFIG.STORAGE_KEYS.LAST_SAVE) by discriminate.
  split; [split; assumption |].
  exact (@saveToStorage_then_loadFromStorage small_browser _ _ _ _ Hok Hne).
Defined.

Lemma saveTeamsData_load_witness :
  let roster : teams := [("Red", ["Ann"; "Al"]); ("Blue", ["Bea"])] in
  let saved := @PersistenceManager.saveTeamsData small_browser
                 (PersistenceManager.new ∅) roster 1000 in
  fst saved = true
  /\ (forall now : Z, now <= 1000 + PersistenceManager.ONE_DAY ->
        PersistenceManager.loadTeamsData (snd saved) now = (Some roster, snd saved))
  /\ (forall now : Z, 1000 + PersistenceManager.ONE_DAY < now ->
        fst (PersistenceManager.loadTeamsData (snd saved) now) = None
        /\ PersistenceManager.loadFromStorage
             (snd (PersistenceManager.loadTeamsData (snd saved) now))
             CONFIG.STORAGE_KEYS.TEAMS_DATA = None).
Proof.
  cbv zeta.
  assert (Hok : fst (@PersistenceManager.saveTeamsData small_browser
                       (PersistenceManager.new ∅)
                       [("Red", ["Ann"; "Al"]); ("Blue", ["Bea"])] 1000) = true)
    by (vm_compute; reflexivity).
  split; [exact Hok |].
  exact (@saveTeamsData_then_loadTeamsData small_browser _ _ _ Hok).
Defined.

Lemma cleanupOldData_witness :
  let c := TeamsCache.Build [("Red", ["Ann"])] 0 5000 in
  let w := PersistenceManager.new {[ CONFIG.STORAGE_KEYS.TEAMS_DATA := Json (VTeams c) ]} in
  (localStorage w !! CONFIG.STORAGE_KEYS.TEAMS_DATA = Some (Json (VTeams c))
   /\ 4000 <= TeamsCache.expiresAt c)
  /\ localStorage (PersistenceManager.cleanupOldData w 4000)
       !! CONFIG.STORAGE_KEYS.TEAMS_DATA = Some (Json (VTeams c)).
Proof.
  cbv zeta.
  assert (Hc : localStorage
                 (PersistenceManager.new
                    {[ CONFIG.STORAGE_KEYS.TEAMS_DATA :=
                         Json (VTeams (TeamsCache.Build [("Red", ["Ann"])] 0 5000)) ]})
               !! CONFIG.STORAGE_KEYS.TEAMS_DATA
               = Some (Json (VTeams (TeamsCache.Build [("Red", ["Ann"])] 0 5000))))
    by reflexivity.
  assert (Hle : 4000 <= TeamsCache.expiresAt (TeamsCache.Build [("Red", ["Ann"])] 0 5000))
    by (cbn; lia).
  split; [split; assumption |].
  exact (proj1 (cleanupOldData_keeps_fresh_data _ 4000) _ Hc Hle).
Defined.

(** ** The data manager: editing and removing an entry *)

Section Entries.
Import DataManager.

(** Where [findIndex] stops: at the first entry that bears the id. *)
Lemma findIndex_split (scoreID : string) (logs : list LogEntry.t) :
  match findIndex scoreID logs with
  | Some i =>
      exists l1 e l2,
        logs = l1 ++ e :: l2 /\ length l1 = i /\ LogEntry.scoreID e = scoreID
        /\ Forall (fun x => LogEntry.scoreID x <> scoreID) l1
  | None => Forall (fun x => LogEntry.scoreID x <> scoreID) logs
  end.
Proof.
  induction logs as [|x logs IH]; cbn [findIndex].
  - constructor.
  - destruct (String.eqb (LogEntry.scoreID x) scoreID) eqn:Hx.
    + apply String.eqb_eq in Hx. exists [], x, logs. repeat split; auto.
    + apply String.eqb_neq in Hx.
      destruct (findIndex scoreID logs) as [i|]; cbn [option_map].
      * destruct IH as (l1 & e & l2 & -> & <- & He & Hl1).
        exists (x :: l1), e, l2. repeat split; auto.
      * constructor; assumption.
Qed.

Lemma find_skip (id : string) (l1 rest : list LogEntry.t) :
  Forall (fun x => LogEntry.scoreID x <> id) l1 ->
  List.find (fun e => String.eqb (LogEntry.scoreID e) id) (l1 ++ rest)
  = List.find (fun e => String.eqb (LogEntry.scoreID e) id) rest.
Proof.
  induction 1 as [|x l1 Hx _ IH]; [reflexivity |].
  cbn [app List.find]. apply String.eqb_neq in Hx. now rewrite Hx.
Qed.

Lemma find_none (id : string) (logs : list LogEntry.t) :
  Forall (fun x => LogEntry.scoreID x <> id) logs ->
  List.find (fun e => String.eqb (LogEntry.scoreID e) id) logs = None.
Proof.
  intros Hall. rewrite <- (app_nil_r logs). now rewrite find_skip.
Qed.

Lemma find_other (id id' : string) (l1 l2 : list LogEntry.t) (e e' : LogEntry.t) :
  LogEntry.scoreID e = id -> LogEntry.scoreID e' = id -> id' <> id ->
  List.find (fun x => String.eqb (LogEntry.scoreID x) id') (l1 ++ e' :: l2)
  = List.find (fun x => String.eqb (LogEntry.scoreID x) id') (l1 ++ e :: l2).
Proof.
  intros He He' Hne. induction l1 as [|x l1 IH]; cbn [app List.find].
  - rewrite He, He'. assert (Hid : id <> id') by congruence.
    apply String.eqb_neq in Hid. now rewrite Hid.
  - now rewrite IH.
Qed.

Lemma update_at_middle (f : LogEntry.t -> LogEntry.t) (l1 l2 : list LogEntry.t)
    (e : LogEntry.t) :
  update_at (length l1) f (l1 ++ e :: l2) = l1 ++ f e :: l2.
Proof. induction l1 as [|x l1 IH]; cbn; [reflexivity | now rewrite IH]. Qed.

Lemma remove_at_middle (l1 l2 : list LogEntry.t) (e : LogEntry.t) :
  remove_at (length l1) (l1 ++ e :: l2) = l1 ++ l2.
Proof. induction l1 as [|x l1 IH]; cbn; [reflexivity | now rewrite IH]. Qed.

Lemma nth_error_middle (l1 l2 : list LogEntry.t) (e : LogEntry.t) :
  nth_error (l1 ++ e :: l2) (length l1) = Some e.
Proof. induction l1 as [|x l1 IH]; cbn; [reflexivity | exact IH]. Qed.

(** The shape of the log around the entry that [getScoreLog] returns. *)
Lemma getScoreLog_split (d : t) (scoreID : string) (e : LogEntry.t) :
  getScoreLog d scoreID = Some e ->
  exists l1 l2,
    scoreLogs d = l1 ++ e :: l2 /\ LogEntry.scoreID e = scoreID
    /\ Forall (fun x => LogEntry.scoreID x <> scoreID) l1
    /\ findIndex scoreID (scoreLogs d) = Some (length l1).
Proof.
  unfold getScoreLog. intros Hget.
  pose proof (findIndex_split scoreID (scoreLogs d)) as Hsplit.
  destruct (findIndex scoreID (scoreLogs d)) as [i|].
  - destruct Hsplit as (l1 & e0 & l2 & Hlogs & <- & He0 & Hl1).
    rewrite Hlogs, find_skip in Hget by assumption. cbn [List.find] in Hget.
    apply String.eqb_eq in He0 as He0'. rewrite He0' in Hget.
    injection Hget as <-. exists l1, l2. auto.
  - rewrite find_none in Hget by assumption. discriminate.
Qed.

Lemma getScoreLog_none (d : t) (scoreID : string) :
  getScoreLog d scoreID = None -> findIndex scoreID (scoreLogs d) = None.
Proof.
  unfold getScoreLog. intros Hget.
  pose proof (findIndex_split scoreID (scoreLogs d)) as Hsplit.
  destruct (findIndex scoreID (scoreLogs d)) as [i|]; [| reflexivity].
  destruct Hsplit as (l1 & e0 & l2 & Hlogs & _ & He0 & Hl1).
  rewrite Hlogs, find_skip in Hget by assumption. cbn [List.find] in Hget.
  apply String.eqb_eq in He0. rewrite He0 in Hget. discriminate.
Qed.

(** X8. [updateScoreLog] and [getScoreLog] agree on the entry an id names,
    the first one that bears it.  The update succeeds exactly when the id is
    in the log; on an unknown id nothing changes, not even the dirty flag.
    Otherwise the entry that [getScoreLog] returned comes back with the new
    scorer and assist and all its other fields, every other id is looked up
    as before, the ids, teams and times of the log are what they were, the
    copy of the log in the game state is the log, and the data are dirty. *)
Theorem updateScoreLog_edits_first_match (d : t) (scoreID scorer assist : string) :
  let d' := snd (updateScoreLog d scoreID scorer assist) in
  (fst (updateScoreLog d scoreID scorer assist) = true
   <-> In scoreID (map LogEntry.scoreID (scoreLogs d)))
  /\ (getScoreLog d scoreID = None -> d' = d)
  /\ (forall e : LogEntry.t,
        getScoreLog d scoreID = Some e ->
        getScoreLog d' scoreID
        = Some (LogEntry.Build (LogEntry.scoreID e) (LogEntry.GameID e)
                  (LogEntry.Time e) (LogEntry.Team e) scorer assist)
        /\ isDirty d' = true
        /\ GameState.scoreLogs (gameState d') = scoreLogs d')
  /\ (forall id : string, id <> scoreID -> getScoreLog d' id = getScoreLog d id)
  /\ map LogEntry.scoreID (scoreLogs d') = map LogEntry.scoreID (scoreLogs d)
  /\ map LogEntry.Team (scoreLogs d') = map LogEntry.Team (scoreLogs d)
  /\ map LogEntry.Time (scoreLogs d') = map LogEntry.Time (scoreLogs d).
Proof.
  cbn zeta. unfold updateScoreLog.
  pose proof (findIndex_split scoreID (scoreLogs d)) as Hsplit.
  destruct (findIndex scoreID (scoreLogs d)) as [i|] eqn:Hfind.
  - destruct Hsplit as (l1 & e0 & l2 & Hlogs & <- & He0 & Hl1).
    cbn [fst snd]. rewrite Hlogs, update_at_middle.
    assert (Hget : getScoreLog d scoreID = Some e0).
    { unfold getScoreLog. rewrite Hlogs, find_skip by assumption.
      cbn [List.find]. apply String.eqb_eq in He0. now rewrite He0. }
    repeat split.
    + intros _. rewrite in_map_iff. exists e0. split; [assumption |].
      apply in_elt.
    + rewrite Hget. discriminate.
    + rewrite Hget in H. injection H as <-.
      unfold getScoreLog, markDirty, set_dirty. cbn [scoreLogs].
      rewrite find_skip by assumption. cbn [List.find assign_entry LogEntry.scoreID].
      apply String.eqb_eq in He0. now rewrite He0.
    + intros id Hne. unfold getScoreLog, markDirty, set_dirty. cbn [scoreLogs].
      rewrite Hlogs. now apply (find_other scoreID).
    + unfold markDirty, set_dirty. cbn [scoreLogs].
      rewrite !map_app. reflexivity.
    + unfold markDirty, set_dirty. cbn [scoreLogs].
      rewrite !map_app. reflexivity.
    + unfold markDirty, set_dirty. cbn [scoreLogs].
      rewrite !map_app. reflexivity.
  - cbn [fst snd]. repeat split; try reflexivity.
    + discriminate.
    + intros Hin. apply in_map_iff in Hin as (x & Hx & Hin).
      rewrite Forall_forall in Hsplit. specialize (Hsplit x).
      exfalso. apply Hsplit; [| assumption].
      apply list_elem_of_In. assumption.
    + unfold getScoreLog in H. rewrite find_none in H by assumption. discriminate.
    + unfold getScoreLog in H. rewrite find_none in H by assumption. discriminate.
    + unfold getScoreLog in H. rewrite find_none in H by assumption. discriminate.
Qed.

(** X9. [removeScoreLog] returns what [getScoreLog] returns for the id.  On
    an unknown id nothing changes.  Otherwise the log loses the first entry
    that bears the id and no other, the copy of the log in the game state
    follows, the roster is kept and the data are dirty. *)
Theorem removeScoreLog_removes_first_match (d : t) (scoreID : string) :
  let d' := snd (removeScoreLog d scoreID) in
  fst (removeScoreLog d scoreID) = getScoreLog d scoreID
  /\ (getScoreLog d scoreID = None -> d' = d)
  /\ (forall e : LogEntry.t,
        getScoreLog d scoreID = Some e ->
        exists l1 l2 : list LogEntry.t,
          scoreLogs d = l1 ++ e :: l2
          /\ Forall (fun x => LogEntry.scoreID x <> scoreID) l1
          /\ scoreLogs d' = l1 ++ l2
          /\ GameState.scoreLogs (gameState d') = l1 ++ l2
          /\ teamsData d' = teamsData d
          /\ isDirty d' = true).
Proof.
  cbn zeta. destruct (getScoreLog d scoreID) as [e|] eqn:Hget.
  - destruct (getScoreLog_split d scoreID e Hget) as (l1 & l2 & Hlogs & He & Hl1 & Hfind).
    unfold removeScoreLog. rewrite Hfind. cbn [fst snd].
    rewrite Hlogs, nth_error_middle, remove_at_middle.
    split; [reflexivity |]. split; [discriminate |].
    intros e' [= <-]. exists l1, l2. repeat split; assumption.
  - apply getScoreLog_none in Hget as Hfind.
    unfold removeScoreLog. rewrite Hfind. cbn [fst snd].
    split; [reflexivity |]. split; [reflexivity | discriminate].
Qed.

End Entries.

(** ** The snapshot across a reload *)

Section Snapshot.
Context `{Platform}.
Import CONFIG ScorekeeperApp.

(** The state object that [autoSave] captures. *)
Lemma autoSave_gameState (a : t) (w : World) (now : Z) :
  isRestoring a = false ->
  let a' := fst (autoSave a w now) in
  DataManager.gameState (dataManager a')
  = GameState.Build (teamAScore a) (teamBScore a)
      (Dom.teamA_value (dom a)) (Dom.teamB_value (dom a))
      (default "" (Dom.teamAList (dom a))) (default "" (Dom.teamBList (dom a)))
      (default "" (Dom.time (dom a)))
      (DataManager.scoreLogs (dataManager a))
      (Js.or_else (default "" (Dom.abbaStart (dom a))) (abbaStart a)) now
  /\ DataManager.scoreLogs (dataManager a') = DataManager.scoreLogs (dataManager a)
  /\ DataManager.teamsData (dataManager a') = DataManager.teamsData (dataManager a)
  /\ teamAScore a' = teamAScore a /\ teamBScore a' = teamBScore a
  /\ dom a' = dom a /\ abbaStart a' = abbaStart a
  /\ currentEditID a' = currentEditID a /\ isRestoring a' = false.
Proof.
  intros Hr. cbn zeta. unfold autoSave. rewrite Hr.
  unfold DataManager.saveCurrentState, DataManager.updateGameState,
    DataManager.markDirty, DataManager.set_dirty.
  cbn [DataManager.isDirty negb DataManager.gameState].
  destruct (PersistenceManager.saveGameState _ _ _) as [success w'].
  destruct success; cbn; rewrite ?Hr; repeat split; reflexivity.
Qed.

(** When [autoSave] leaves the data clean, the storage holds the captured
    state under the game-state key. *)
Lemma autoSave_stored (a : t) (w : World) (now : Z) :
  isRestoring a = false ->
  DataManager.isDirty (dataManager (fst (autoSave a w now))) = false ->
  localStorage (snd (autoSave a w now)) !! STORAGE_KEYS.GAME_STATE
  = Some (Json (VGame (DataManager.gameState (dataManager (fst (autoSave a w now)))))).
Proof.
  intros Hr. unfold autoSave. rewrite Hr.
  unfold DataManager.saveCurrentState, DataManager.updateGameState,
    DataManager.markDirty, DataManager.set_dirty.
  cbn [DataManager.isDirty negb DataManager.gameState].
  destruct (PersistenceManager.saveGameState _ _ _) as [success w'] eqn:Hsave.
  destruct success; cbn [fst snd dataManager with_dataManager DataManager.isDirty
                          DataManager.gameState]; [| discriminate].
  intros _. unfold PersistenceManager.saveGameState in Hsave.
  match type of Hsave with
  | PersistenceManager.saveToStorage _ _ ?v _ = _ =>
      pose proof (saveToStorage_stored w STORAGE_KEYS.GAME_STATE v now) as Hst
  end.
  rewrite Hsave in Hst. cbn [fst snd] in Hst.
  rewrite Hst by (reflexivity || discriminate). reflexivity.
Qed.

(** The data manager that a reload builds on a stored snapshot. *)
Lemma reload_stored_snapshot (w : World) (g : GameState.t) (later : Z) :
  localStorage w !! STORAGE_KEYS.GAME_STATE = Some (Json (VGame g)) ->
  exists (dm : DataManager.t) (w' : World),
    DataManager.new (reload w) later = Some (dm, w')
    /\ DataManager.gameState dm = g
    /\ DataManager.scoreLogs dm = GameState.scoreLogs g
    /\ DataManager.isDirty dm = false.
Proof.
  intros Hst. unfold DataManager.new, DataManager.loadGameState.
  rewrite (loadFromStorage_lookup (reload w) _ _ Hst).
  destruct (PersistenceManager.loadTeamsData _ later) as [cached w'].
  eexists _, _. repeat split.
Qed.

(** X10. The snapshot round trip.  When [autoSave] has run outside a restore
    and left the data clean, a [DataManager] built on the same storage after
    a reload, at any later time, holds the log the application had and the
    state object that [autoSave] captured: the two counters, the two
    selected names, the log and the time of the save. *)
Theorem autoSave_then_reload (a : t) (w : World) (now later : Z) :
  isRestoring a = false ->
  DataManager.isDirty (dataManager (fst (autoSave a w now))) = false ->
  exists (dm : DataManager.t) (w' : World),
    DataManager.new (reload (snd (autoSave a w now))) later = Some (dm, w')
    /\ DataManager.scoreLogs dm = DataManager.scoreLogs (dataManager a)
    /\ DataManager.isDirty dm = false
    /\ DataManager.gameState dm
       = DataManager.gameState (dataManager (fst (autoSave a w now)))
    /\ GameState.scoreLogs (DataManager.gameState dm)
       = DataManager.scoreLogs (dataManager a)
    /\ GameState.teamAScore (DataManager.gameState dm) = teamAScore a
    /\ GameState.teamBScore (DataManager.gameState dm) = teamBScore a
    /\ GameState.teamAName (DataManager.gameState dm) = Dom.teamA_value (dom a)
    /\ GameState.teamBName (DataManager.gameState dm) = Dom.teamB_value (dom a)
    /\ GameState.timestamp (DataManager.gameState dm) = now.
Proof.
  intros Hr Hclean.
  destruct (reload_stored_snapshot _ _ later (autoSave_stored a w now Hr Hclean))
    as (dm & w' & Hnew & Hg & Hlogs & Hdirty).
  destruct (autoSave_gameState a w now Hr) as (Hcaptured & _).
  exists dm, w'. split; [exact Hnew |].
  rewrite Hlogs, Hg, Hcaptured. cbn. repeat split; assumption.
Qed.

(** What [rebuildScoreTable] puts into the table. *)
Lemma rebuildScoreTable_rows (a : t) (logs : list LogEntry.t) (old : list Dom.row) :
  Dom.scoringTableBody (dom a) = Some old ->
  Dom.scoringTableBody (dom (rebuildScoreTable a logs))
  = Some (imap (fun idx e => createScoreRow a e idx) logs)
  /\ teamAScore (rebuildScoreTable a logs) = teamAScore a
  /\ teamBScore (rebuildScoreTable a logs) = teamBScore a
  /\ dataManager (rebuildScoreTable a logs) = dataManager a
  /\ isRestoring (rebuildScoreTable a logs) = isRestoring a.
Proof.
  intros Hold. unfold rebuildScoreTable. rewrite Hold. cbn. repeat split; reflexivity.
Qed.

Lemma imap_createScoreRow (f : nat -> LogEntry.t -> Dom.row) (sa sb : Z)
    (logs : list LogEntry.t) :
  (forall i e, Dom.data_score_id (f i e) = LogEntry.scoreID e
               /\ Dom.total_cell (f i e) = (sa, sb)) ->
  map Dom.data_score_id (imap f logs) = map LogEntry.scoreID logs
  /\ Forall (fun r => Dom.total_cell r = (sa, sb)) (imap f logs).
Proof.
  revert f. induction logs as [|e logs IH]; intros f Hf; cbn [imap map].
  - split; constructor.
  - destruct (IH (f ∘ S)) as (Hids & Htot).
    { intros i x. apply Hf. }
    split.
    + f_equal; [apply Hf | exact Hids].
    + constructor; [apply Hf | exact Htot].
Qed.

Lemma createScoreRow_cells (a : t) (e : LogEntry.t) (i : nat) :
  Dom.data_score_id (createScoreRow a e i) = LogEntry.scoreID e
  /\ Dom.total_cell (createScoreRow a e i) = (teamAScore a, teamBScore a)
  /\ Dom.abba_cell (createScoreRow a e i) = computeAbbaForIndex (abbaStart a) i.
Proof.
  unfold createScoreRow.
  destruct (String.eqb (LogEntry.Team e) (Dom.teamA_value (dom a)));
    repeat split; reflexivity.
Qed.

Lemma updateAbbaColumn_rows (a : t) (rows : list Dom.row) :
  Dom.scoringTableBody (dom a) = Some rows ->
  exists rows',
    Dom.scoringTableBody (dom (updateAbbaColumn a)) = Some rows'
    /\ map Dom.data_score_id rows' = map Dom.data_score_id rows
    /\ map Dom.total_cell rows' = map Dom.total_cell rows.
Proof.
  intros Hrows. unfold updateAbbaColumn. rewrite Hrows. cbn.
  eexists. split; [reflexivity |].
  generalize (computeAbbaForIndex (abbaStart a)). clear Hrows.
  induction rows as [|r rows IH]; intros f; [split; reflexivity |].
  cbn [imap map]. destruct (IH (f ∘ S)) as (H1 & H2). split; f_equal; assumption.
Qed.

(** X11. Restoring after a reload.  The snapshot in the storage is that of
    an [autoSave] at time [now], of a log whose scorers and assists are
    texts without markup, and the page is opened again less than 24 hours
    later; the user accepts the restore.  Then the counters and the log are
    those the application had at the save.  On a page with the scoring
    table and a log that is not empty, the table has one row per entry, in
    order, with the id of the entry; every row shows the final score, not
    the score after its own point. *)
Theorem restore_after_reload (a : t) (w : World) (now later : Z) (d : Dom.t)
    (a0 : t) (w0 : World) :
  isRestoring a = false ->
  Forall plain_entry (DataManager.scoreLogs (dataManager a)) ->
  DataManager.isDirty (dataManager (fst (autoSave a w now))) = false ->
  now <> 0 -> later - now < PersistenceManager.ONE_DAY ->
  new (localStorage (snd (autoSave a w now))) d later = Some (a0, w0) ->
  let a1 := checkAndRestoreState a0 true later in
  let logs := DataManager.scoreLogs (dataManager a) in
  teamAScore a1 = teamAScore a
  /\ teamBScore a1 = teamBScore a
  /\ DataManager.scoreLogs (dataManager a1) = logs
  /\ isRestoring a1 = false
  /\ (Dom.scoringTableBody d <> None -> logs <> [] ->
      exists rows : list Dom.row,
        Dom.scoringTableBody (dom a1) = Some rows
        /\ map Dom.data_score_id rows = map LogEntry.scoreID logs
        /\ Forall (fun r => Dom.total_cell r = (teamAScore a, teamBScore a)) rows).
Proof.
  intros Hr _ Hclean Hnz Hday Hnew. cbn zeta.
  destruct (reload_stored_snapshot _ _ later (autoSave_stored a w now Hr Hclean))
    as (dm & w' & Hdm & Hsnap & Hlogs & _).
  destruct (autoSave_gameState a w now Hr) as (Hcaptured & _).
  rewrite Hcaptured in Hsnap, Hlogs. cbn [GameState.scoreLogs] in Hlogs.
  assert (Hglogs : GameState.scoreLogs (DataManager.gameState dm)
                   = DataManager.scoreLogs (dataManager a)) by now rewrite Hsnap.
  assert (HgA : GameState.teamAScore (DataManager.gameState dm) = teamAScore a)
    by now rewrite Hsnap.
  assert (HgB : GameState.teamBScore (DataManager.gameState dm) = teamBScore a)
    by now rewrite Hsnap.
  assert (Hts : GameState.timestamp (DataManager.gameState dm) = now)
    by now rewrite Hsnap.
  clear Hsnap Hcaptured.
  unfold new in Hnew. fold (reload (snd (autoSave a w now))) in Hnew.
  rewrite Hdm in Hnew.
  destruct (TimerManager.new w' later) as [[tm w2]|]; [| discriminate].
  injection Hnew as <- <-.
  unfold checkAndRestoreState. cbn [dataManager]. rewrite Hts.
  apply Z.eqb_neq in Hnz. rewrite Hnz.
  apply Z.ltb_lt in Hday. rewrite Hday. cbn [negb andb].
  set (g := DataManager.gameState dm) in *.
  unfold restoreGameState.
  set (a2 := with_dom _ _).
  assert (Ha2 : teamAScore a2 = teamAScore a /\ teamBScore a2 = teamBScore a
                /\ dataManager a2 = dm
                /\ Dom.scoringTableBody (dom a2) = Dom.scoringTableBody d
                /\ Dom.abbaStart (dom a2) = Dom.abbaStart d).
  { subst a2. cbn. rewrite HgA, HgB. repeat split; reflexivity. }
  destruct Ha2 as (A2 & B2 & D2 & T2 & S2).
  set (a3 := match GameState.scoreLogs g with [] => a2 | _ => _ end).
  assert (Ha3 : teamAScore a3 = teamAScore a /\ teamBScore a3 = teamBScore a
                /\ dataManager a3 = dm
                /\ Dom.abbaStart (dom a3) = Dom.abbaStart d
                /\ (Dom.scoringTableBody d <> None ->
                    DataManager.scoreLogs (dataManager a) <> [] ->
                    exists rows,
                      Dom.scoringTableBody (dom a3) = Some rows
                      /\ map Dom.data_score_id rows
                         = map LogEntry.scoreID (DataManager.scoreLogs (dataManager a))
                      /\ Forall (fun r => Dom.total_cell r
                                          = (teamAScore a, teamBScore a)) rows)).
  { subst a3. rewrite Hglogs.
    destruct (DataManager.scoreLogs (dataManager a)) as [|e logs] eqn:Hl.
    - repeat split; try assumption. congruence.
    - unfold rebuildScoreTable.
      destruct (Dom.scoringTableBody (dom a2)) as [old|] eqn:Hold.
      + cbn [teamAScore teamBScore dataManager with_dom dom Dom.with_table
             Dom.abbaStart Dom.scoringTableBody].
        repeat split; try assumption.
        intros _ _. eexists. split; [reflexivity |].
        rewrite <- A2, <- B2. apply imap_createScoreRow.
        intros i x. destruct (createScoreRow_cells a2 x i) as (? & ? & _).
        split; assumption.
      + repeat split; try assumption. intros Hd. congruence. }
  destruct Ha3 as (A3 & B3 & D3 & S3 & R3).
  clearbody a3. clear a2 A2 B2 D2 T2 S2.
  destruct (Dom.abbaStart (dom a3)) as [sel|] eqn:Hsel.
  - destruct (String.eqb (GameState.abbaStart g) "").
    + cbn. rewrite A3, B3, D3, Hlogs. repeat split; try reflexivity. exact R3.
    + match goal with
      | |- context [updateAbbaColumn ?x] => set (a4 := x)
      end.
      assert (Ha4 : teamAScore a4 = teamAScore a3 /\ teamBScore a4 = teamBScore a3
                    /\ dataManager a4 = dataManager a3
                    /\ Dom.scoringTableBody (dom a4) = Dom.scoringTableBody (dom a3))
        by (unfold a4; cbn; repeat split; reflexivity).
      destruct Ha4 as (A4 & B4 & D4 & T4). clearbody a4.
      destruct (updateAbbaColumn_keeps a4) as (UA & UB & Udm & _ & _).
      cbn [teamAScore teamBScore dataManager with_isRestoring isRestoring dom].
      rewrite UA, UB, Udm, A4, B4, D4, A3, B3, D3, Hlogs.
      repeat split; try reflexivity.
      intros Hd Hne. destruct (R3 Hd Hne) as (rows & Hrows & Hids & Htot).
      rewrite <- T4 in Hrows.
      destruct (updateAbbaColumn_rows a4 rows Hrows) as (rows' & Hrows' & Hids' & Htot').
      exists rows'. split; [exact Hrows' |]. split; [congruence |].
      apply (proj1 (List.Forall_map Dom.total_cell
                      (fun p => p = (teamAScore a, teamBScore a)) rows')).
      rewrite Htot'.
      apply (proj2 (List.Forall_map Dom.total_cell
                      (fun p => p = (teamAScore a, teamBScore a)) rows)).
      exact Htot.
  - cbn. rewrite A3, B3, D3, Hlogs. repeat split; try reflexivity. exact R3.
Qed.

End Snapshot.

(** X10 and X11 on the Red against Blue match: saved at 4000, reopened
    one hour later. *)
Lemma autoSave_reload_witness :
  let s := @ScorekeeperApp.run small_browser (fst opening) (snd opening)
             red_blue_one_point in
  (ScorekeeperApp.isRestoring (fst s) = false
   /\ DataManager.isDirty
        (ScorekeeperApp.dataManager
           (fst (@ScorekeeperApp.autoSave small_browser (fst s) (snd s) 4000))) = false)
  /\ exists (dm : DataManager.t) (w' : World),
       DataManager.new
         (reload (snd (@ScorekeeperApp.autoSave small_browser (fst s) (snd s) 4000)))
         3604000 = Some (dm, w')
       /\ map LogEntry.Score (DataManager.scoreLogs dm) = ["Ann"]
       /\ GameState.teamAScore (DataManager.gameState dm) = 1
       /\ GameState.teamAName (DataManager.gameState dm) = "Red".
Proof.
  cbv zeta.
  set (s := @ScorekeeperApp.run small_browser (fst opening) (snd opening)
              red_blue_one_point).
  assert (Hr : ScorekeeperApp.isRestoring (fst s) = false) by (vm_compute; reflexivity).
  assert (Hc : DataManager.isDirty
                 (ScorekeeperApp.dataManager
                    (fst (@ScorekeeperApp.autoSave small_browser (fst s) (snd s) 4000)))
               = false) by (vm_compute; reflexivity).
  split; [split; assumption |].
  destruct (@autoSave_then_reload small_browser (fst s) (snd s) 4000 3604000 Hr Hc)
    as (dm & w' & Hnew & Hlogs & _ & _ & _ & HA & _ & HnA & _).
  exists dm, w'. split; [exact Hnew |].
  rewrite Hlogs, HA, HnA. vm_compute. repeat split; reflexivity.
Defined.

Lemma restore_after_reload_witness :
  let s := @ScorekeeperApp.run small_browser (fst opening) (snd opening)
             red_blue_one_point in
  let saved := @ScorekeeperApp.autoSave small_browser (fst s) (snd s) 4000 in
  exists (a0 : ScorekeeperApp.t) (w0 : World),
    (ScorekeeperApp.isRestoring (fst s) = false
     /\ Forall plain_entry (DataManager.scoreLogs (ScorekeeperApp.dataManager (fst s)))
     /\ DataManager.isDirty (ScorekeeperApp.dataManager (fst saved)) = false
     /\ 4000 <> 0 /\ 3604000 - 4000 < PersistenceManager.ONE_DAY
     /\ @ScorekeeperApp.new small_browser (localStorage (snd saved)) page 3604000
        = Some (a0, w0))
    /\ ScorekeeperApp.teamAScore (ScorekeeperApp.checkAndRestoreState a0 true 3604000) = 1
    /\ ScorekeeperApp.teamBScore (ScorekeeperApp.checkAndRestoreState a0 true 3604000) = 0
    /\ map LogEntry.Score
         (DataManager.scoreLogs
            (ScorekeeperApp.dataManager
               (ScorekeeperApp.checkAndRestoreState a0 true 3604000))) = ["Ann"].
Proof.
  cbv zeta.
  set (s := @ScorekeeperApp.run small_browser (fst opening) (snd opening)
              red_blue_one_point).
  set (saved := @ScorekeeperApp.autoSave small_browser (fst s) (snd s) 4000).
  assert (Hr : ScorekeeperApp.isRestoring (fst s) = false) by (vm_compute; reflexivity).
  assert (Hc : DataManager.isDirty (ScorekeeperApp.dataManager (fst saved)) = false)
    by (vm_compute; reflexivity).
  assert (Hplain : Forall plain_entry
                     (DataManager.scoreLogs (ScorekeeperApp.dataManager (fst s))))
    by (vm_compute; repeat constructor).
  assert (Hnz : 4000 <> 0) by lia.
  assert (Hday : 3604000 - 4000 < PersistenceManager.ONE_DAY)
    by (vm_compute; reflexivity).
  destruct (@ScorekeeperApp.new small_browser (localStorage (snd saved)) page 3604000)
    as [[a0 w0]|] eqn:Hnew; [| vm_compute in Hnew; discriminate].
  exists a0, w0.
  split; [split; [exact Hr |]; split; [exact Hplain |]; repeat split; assumption |].
  destruct (@restore_after_reload small_browser (fst s) (snd s) 4000 3604000 page
              a0 w0 Hr Hplain Hc Hnz Hday Hnew) as (HA & HB & Hlogs & _).
  rewrite HA, HB, Hlogs. vm_compute. repeat split; reflexivity.
Defined.

(** ** The scoring table *)

Section Table.
Context `{Platform}.
Import ScorekeeperApp.

Lemma createScoreRow_ext (x y : t) (e : LogEntry.t) (i j : nat) :
  Dom.teamA (dom x) = Dom.teamA (dom y) ->
  teamAScore x = teamAScore y -> teamBScore x = teamBScore y ->
  abbaStart x = abbaStart y -> i = j ->
  createScoreRow x e i = createScoreRow y e j.
Proof.
  intros Hsel HA HB Hab <-. unfold createScoreRow, Dom.teamA_value.
  now rewrite Hsel, HA, HB, Hab.
Qed.

Lemma count_team_nil (name : string) : count_team name [] = 0.
Proof. reflexivity. Qed.

Lemma rebuild_step_facts (a : t) (e : LogEntry.t) (idx : nat) (rows0 : list Dom.row) :
  Dom.scoringTableBody (dom a) = Some rows0 ->
  let hit := String.eqb (LogEntry.Team e) (Dom.teamA_value (dom a)) in
  let a1 := rebuild_step a e idx in
  teamAScore a1 = teamAScore a + (if hit then 1 else 0)
  /\ teamBScore a1 = teamBScore a + (if hit then 0 else 1)
  /\ Dom.teamA (dom a1) = Dom.teamA (dom a)
  /\ abbaStart a1 = abbaStart a
  /\ Dom.scoringTableBody (dom a1)
     = Some (rows0 ++ [createScoreRow
                         (with_scores a (teamAScore a + (if hit then 1 else 0))
                            (teamBScore a + (if hit then 0 else 1))) e idx]).
Proof.
  intros Hrows. cbn zeta. unfold rebuild_step.
  destruct (String.eqb (LogEntry.Team e) (Dom.teamA_value (dom a)));
    cbn; rewrite Hrows; cbn; rewrite ?Z.add_0_r; repeat split; reflexivity.
Qed.

(** The rows that the [forEach] of the rebuild appends. *)
Lemma rebuild_forEach_rows (logs : list LogEntry.t) :
  forall (idx : nat) (a : t) (rows0 : list Dom.row),
    Dom.scoringTableBody (dom a) = Some rows0 ->
    Dom.scoringTableBody (dom (rebuild_forEach logs idx a))
    = Some (rows0 ++
            imap (fun i e =>
                    let scoredA := count_team (Dom.teamA_value (dom a))
                                     (take (S i) logs) in
                    createScoreRow
                      (with_scores a (teamAScore a + scoredA)
                         (teamBScore a + (Z.of_nat (S i) - scoredA)))
                      e (idx + i)) logs).
Proof.
  induction logs as [|e logs IH]; intros idx a rows0 Hrows.
  - cbn. now rewrite app_nil_r.
  - cbn [rebuild_forEach].
    destruct (rebuild_step_facts a e idx rows0 Hrows) as (SA & SB & Ssel & Sab & Stab).
    rewrite (IH (S idx) _ _ Stab). f_equal. rewrite <- app_assoc. f_equal.
    cbn [imap app]. f_equal.
    + apply createScoreRow_ext; cbn; try reflexivity; try lia.
      * rewrite count_team_cons, take_0, count_team_nil. lia.
      * rewrite count_team_cons, take_0, count_team_nil.
        destruct (String.eqb (LogEntry.Team e) (Dom.teamA_value (dom a))); lia.
    + apply imap_ext. intros i x _. cbn zeta. unfold compose.
      assert (Hname : Dom.teamA_value (dom (rebuild_step a e idx))
                      = Dom.teamA_value (dom a)).
      { unfold Dom.teamA_value. now rewrite Ssel. }
      apply createScoreRow_ext; cbn [dom with_scores teamAScore teamBScore abbaStart];
        try assumption; try lia.
      * rewrite Hname, SA.
        change (take (S (S i)) (e :: logs)) with (e :: take (S i) logs).
        rewrite count_team_cons. lia.
      * rewrite Hname, SB.
        change (take (S (S i)) (e :: logs)) with (e :: take (S i) logs).
        rewrite count_team_cons.
        destruct (String.eqb (LogEntry.Team e) (Dom.teamA_value (dom a))); lia.
Qed.

Lemma rebuild_forEach_abbaStart (logs : list LogEntry.t) (idx : nat) (a : t) :
  abbaStart (rebuild_forEach logs idx a) = abbaStart a.
Proof. now destruct (rebuild_forEach_counts logs idx a) as (_ & _ & _ & ? & _). Qed.

Lemma imap_fixed {A : Type} (g : nat -> Dom.row -> Dom.row) (f : nat -> A -> Dom.row)
    (l : list A) :
  (forall i x, g i (f i x) = f i x) -> imap g (imap f l) = imap f l.
Proof.
  revert f g. induction l as [|x l IH]; intros f g Hfix; cbn [imap]; [reflexivity |].
  f_equal; [apply Hfix |]. apply IH. intros i y. apply Hfix.
Qed.

(** The table after [rebuildTableAndCounters]. *)
Lemma rebuildTableAndCounters_table (a : t) :
  Dom.scoringTableBody (dom a) <> None ->
  Dom.scoringTableBody (dom (rebuildTableAndCounters a))
  = Some (imap (running_row a (DataManager.scoreLogs (dataManager a)))
            (DataManager.scoreLogs (dataManager a))).
Proof.
  intros Htab. unfold rebuildTableAndCounters.
  destruct (Dom.scoringTableBody (dom a)) as [old|] eqn:Hold; [| congruence].
  set (a1 := with_dom (with_scores a 0 0) (Dom.with_table (dom (with_scores a 0 0)) [])).
  assert (Ht1 : Dom.scoringTableBody (dom a1) = Some []) by reflexivity.
  pose proof (rebuild_forEach_rows (DataManager.scoreLogs (dataManager a1)) 0 a1 [] Ht1)
    as Hrows.
  unfold updateAbbaColumn. rewrite Hrows. cbn [dom with_dom Dom.with_table
    Dom.scoringTableBody app].
  rewrite rebuild_forEach_abbaStart. f_equal.
  rewrite imap_fixed.
  - apply imap_ext. intros i e _. unfold running_row. cbn zeta.
    apply createScoreRow_ext; subst a1; cbn; try reflexivity; lia.
  - intros i e. cbn zeta. unfold createScoreRow.
    destruct (String.eqb (LogEntry.Team e) _); reflexivity.
Qed.

Lemma running_row_cells (a : t) (logs : list LogEntry.t) (i : nat) (e : LogEntry.t) :
  let nameA := Dom.teamA_value (dom a) in
  let r := running_row a logs i e in
  Dom.data_score_id r = LogEntry.scoreID e
  /\ Dom.abba_cell r = computeAbbaForIndex (abbaStart a) i
  /\ Dom.total_cell r = (count_team nameA (take (S i) logs),
                         Z.of_nat (S i) - count_team nameA (take (S i) logs))
  /\ (LogEntry.Team e = nameA ->
      Dom.scoreA_cell r = LogEntry.Score e /\ Dom.assistA_cell r = LogEntry.Assist e
      /\ Dom.scoreB_cell r = "" /\ Dom.assistB_cell r = "")
  /\ (LogEntry.Team e <> nameA ->
      Dom.scoreB_cell r = LogEntry.Score e /\ Dom.assistB_cell r = LogEntry.Assist e
      /\ Dom.scoreA_cell r = "" /\ Dom.assistA_cell r = "").
Proof.
  cbn zeta. unfold running_row, createScoreRow. cbn [dom with_scores teamAScore
    teamBScore abbaStart].
  destruct (String.eqb (LogEntry.Team e) (Dom.teamA_value (dom a))) eqn:Hhit;
    cbn; repeat split; try reflexivity.
  - apply String.eqb_eq in Hhit. congruence.
  - apply String.eqb_eq in Hhit. congruence.
  - apply String.eqb_eq in Hhit. congruence.
  - apply String.eqb_eq in Hhit. congruence.
  - apply String.eqb_neq in Hhit. congruence.
  - apply String.eqb_neq in Hhit. congruence.
  - apply String.eqb_neq in Hhit. congruence.
  - apply String.eqb_neq in Hhit. congruence.
Qed.

(** X12. The table after [rebuildTableAndCounters], on a page that has the
    scoring table, for a log whose scorers and assists are texts without
    markup: one row per entry of the log, in the order of the log.
    Row [i] carries the id of entry [i] and the possession marker of index
    [i]; its scoreboard cell shows the score after that point, the points of
    the selected Team A name among the first [i + 1] entries against all
    the others; scorer and assist stand in the columns of side A when the
    entry bears the selected Team A name, else in those of side B. *)
Theorem rebuildTableAndCounters_rows (a : t) :
  Dom.scoringTableBody (dom a) <> None ->
  Forall plain_entry (DataManager.scoreLogs (dataManager a)) ->
  let logs := DataManager.scoreLogs (dataManager a) in
  let nameA := Dom.teamA_value (dom a) in
  exists rows : list Dom.row,
    Dom.scoringTableBody (dom (rebuildTableAndCounters a)) = Some rows
    /\ length rows = length logs
    /\ forall (i : nat) (e : LogEntry.t),
         logs !! i = Some e ->
         exists r : Dom.row,
           rows !! i = Some r
           /\ Dom.data_score_id r = LogEntry.scoreID e
           /\ Dom.abba_cell r = computeAbbaForIndex (abbaStart a) i
           /\ Dom.total_cell r
              = (count_team nameA (take (S i) logs),
                 Z.of_nat (S i) - count_team nameA (take (S i) logs))
           /\ (LogEntry.Team e = nameA ->
               Dom.scoreA_cell r = LogEntry.Score e
               /\ Dom.assistA_cell r = LogEntry.Assist e
               /\ Dom.scoreB_cell r = "" /\ Dom.assistB_cell r = "")
           /\ (LogEntry.Team e <> nameA ->
               Dom.scoreB_cell r = LogEntry.Score e
               /\ Dom.assistB_cell r = LogEntry.Assist e
               /\ Dom.scoreA_cell r = "" /\ Dom.assistA_cell r = "").
Proof.
  intros Htab _. cbn zeta. eexists. split; [now apply rebuildTableAndCounters_table |].
  split; [apply length_imap |].
  intros i e Hi. eexists. split.
  - rewrite list_lookup_imap, Hi. reflexivity.
  - apply running_row_cells.
Qed.

End Table.

(** X12 after the Red against Blue match and one more point for Blue: the
    second row shows one all. *)
Lemma rebuildTableAndCounters_rows_witness :
  let a := fst (@ScorekeeperApp.run small_browser (fst opening) (snd opening)
                  (red_blue_one_point
                   ++ [(ScorekeeperApp.AddScore "B" "Bea" "Bo", 3500)])) in
  (Dom.scoringTableBody (ScorekeeperApp.dom a) <> None
   /\ Forall plain_entry (DataManager.scoreLogs (ScorekeeperApp.dataManager a)))
  /\ exists rows : list Dom.row,
       Dom.scoringTableBody (ScorekeeperApp.dom (ScorekeeperApp.rebuildTableAndCounters a))
       = Some rows
       /\ map Dom.total_cell rows = [(1, 0); (1, 1)]
       /\ map Dom.scoreA_cell rows = ["Ann"; ""]
       /\ map Dom.scoreB_cell rows = [""; "Bea"].
Proof.
  cbv zeta.
  assert (Htab : Dom.scoringTableBody
                   (ScorekeeperApp.dom
                      (fst (@ScorekeeperApp.run small_browser (fst opening) (snd opening)
                              (red_blue_one_point
                               ++ [(ScorekeeperApp.AddScore "B" "Bea" "Bo", 3500)]))))
                 <> None) by (vm_compute; discriminate).
  assert (Hplain : Forall plain_entry
                     (DataManager.scoreLogs
                        (ScorekeeperApp.dataManager
                           (fst (@ScorekeeperApp.run small_browser (fst opening)
                                   (snd opening)
                                   (red_blue_one_point
                                    ++ [(ScorekeeperApp.AddScore "B" "Bea" "Bo",
                                         3500)]))))))
    by (vm_compute; repeat constructor).
  split; [split; assumption |].
  destruct (rebuildTableAndCounters_rows _ Htab Hplain) as (rows & Hrows & _).
  exists rows. split; [exact Hrows |].
  vm_compute in Hrows. injection Hrows as <-. repeat split; reflexivity.
Defined.

(** ** The table, the counters and the log during a session *)

Section Session.
Context `{Platform}.
Import ScorekeeperApp.









Lemma remove_at_sync (a : t) (index : nat) :
  let logs := DataManager.remove_at index (DataManager.scoreLogs (dataManager a)) in
  GameState.scoreLogs (DataManager.with_logs (DataManager.gameState (dataManager a)) logs)
  = logs.
Proof. reflexivity. Qed.







End Session.


(** ** Deleting a point, the start marker, leaving the page *)

Section Handlers.
Context `{Platform}.
Import CONFIG ScorekeeperApp.

(** What [autoSave] leaves alone, restoring or not. *)
Lemma autoSave_keeps (a : t) (w : World) (now : Z) :
  let a' := fst (autoSave a w now) in
  DataManager.scoreLogs (dataManager a') = DataManager.scoreLogs (dataManager a)
  /\ teamAScore a' = teamAScore a /\ teamBScore a' = teamBScore a
  /\ dom a' = dom a /\ abbaStart a' = abbaStart a
  /\ currentEditID a' = currentEditID a.
Proof.
  cbn zeta. destruct (isRestoring a) eqn:Hr.
  - unfold autoSave. rewrite Hr. repeat split; reflexivity.
  - destruct (autoSave_gameState a w now Hr) as (_ & ? & _ & ? & ? & ? & ? & ? & _).
    repeat split; assumption.
Qed.


(** X15. Deleting without an entry to delete: when no edit is in progress,
    or the id under edit is not in the log, [handleDeleteScore] changes
    nothing and saves nothing. *)
Theorem handleDeleteScore_without_entry (a : t) (w : World) (now : Z) :
  (editing a = None
   \/ exists scoreID : string,
        editing a = Some scoreID
        /\ ~ In scoreID (map LogEntry.scoreID (DataManager.scoreLogs (dataManager a)))) ->
  handleDeleteScore a w now = (a, w).
Proof.
  intros [Hed | (scoreID & Hed & Hnot)]; unfold handleDeleteScore; rewrite Hed;
    [reflexivity |].
  unfold DataManager.removeScoreLog.
  pose proof (findIndex_split scoreID (DataManager.scoreLogs (dataManager a))) as Hs.
  destruct (DataManager.findIndex scoreID (DataManager.scoreLogs (dataManager a)));
    [| reflexivity].
  destruct Hs as (l1 & e & l2 & Hlogs & _ & He & _). exfalso. apply Hnot.
  rewrite Hlogs, in_map_iff. exists e. split; [exact He | apply in_elt].
Qed.

(** X16. Changing the start marker: [handleAbbaChange] reads the selector,
    anything but F counting as M, and writes the possession marker of its
    index into every row of the table; the other cells, the number of rows,
    the counters and the log stay as they are. *)
Theorem handleAbbaChange_rewrites_markers (a : t) (w : World) (now : Z)
    (rows : list Dom.row) :
  Dom.scoringTableBody (dom a) = Some rows ->
  let a' := fst (handleAbbaChange a w now) in
  let start := if String.eqb (default "" (Dom.abbaStart (dom a))) "F"
               then "F" else "M" in
  abbaStart a' = start
  /\ DataManager.scoreLogs (dataManager a') = DataManager.scoreLogs (dataManager a)
  /\ teamAScore a' = teamAScore a /\ teamBScore a' = teamBScore a
  /\ exists rows' : list Dom.row,
       Dom.scoringTableBody (dom a') = Some rows'
       /\ length rows' = length rows
       /\ forall (i : nat) (r : Dom.row),
            rows !! i = Some r ->
            rows' !! i
            = Some (Dom.Row (Dom.data_score_id r) (computeAbbaForIndex start i)
                      (Dom.scoreA_cell r) (Dom.assistA_cell r) (Dom.total_cell r)
                      (Dom.scoreB_cell r) (Dom.assistB_cell r)).
Proof.
  intros Hrows. cbn zeta. unfold handleAbbaChange.
  match goal with
  | |- context [autoSave ?x w now] =>
      destruct (autoSave_keeps x w now) as (KL & KA & KB & KD & KS & _)
  end.
  cbn zeta in *. rewrite KL, KA, KB, KD, KS.
  unfold updateAbbaColumn. cbn [dom with_abbaStart]. rewrite Hrows.
  cbn. repeat split; try reflexivity.
  eexists. split; [reflexivity |]. split; [apply length_imap |].
  intros i r Hi. rewrite list_lookup_imap, Hi. reflexivity.
Qed.

(** X17. Leaving the page.  [handleBeforeUnload] warns whenever the log has
    an entry, saved or not.  When it does not warn, the log is empty and the
    data are clean; outside a restore the storage then holds the state that
    the final save captured. *)
Theorem handleBeforeUnload_warning (a : t) (w : World) (now : Z) :
  let r := handleBeforeUnload a w now in
  (DataManager.scoreLogs (dataManager a) <> [] -> snd r <> None)
  /\ (snd r = None ->
      DataManager.scoreLogs (dataManager a) = []
      /\ DataManager.isDirty (dataManager (fst (fst r))) = false
      /\ (isRestoring a = false ->
          PersistenceManager.loadFromStorage (snd (fst r)) STORAGE_KEYS.GAME_STATE
          = Some (VGame (DataManager.gameState (dataManager (fst (fst r)))))
          /\ GameState.timestamp (DataManager.gameState (dataManager (fst (fst r))))
             = now)).
Proof.
  cbn zeta. unfold handleBeforeUnload.
  destruct (autoSave_keeps a w now) as (KL & _). cbn zeta in KL.
  pose proof (autoSave_stored a w now) as Hst.
  pose proof (autoSave_gameState a w now) as Hg.
  destruct (autoSave a w now) as [a' w'] eqn:Hsave. cbn [fst snd] in *.
  rewrite KL.
  destruct (DataManager.isDirty (dataManager a')) eqn:Hdirty; cbn [orb].
  - split; [discriminate |]. discriminate.
  - destruct (DataManager.scoreLogs (dataManager a)) as [|e logs] eqn:Hl; cbn.
    + split; [congruence |]. intros _. split; [reflexivity |].
      split; [reflexivity |]. intros Hr. split.
      * apply loadFromStorage_lookup. now apply Hst.
      * destruct (Hg Hr) as (-> & _). reflexivity.
    + split; discriminate.
Qed.

(** X18. A first visit is taken for a session to restore.  When the storage
    holds no readable game state, the constructor stamps the default state
    with the current time; so less than 24 hours later, at any time other
    than 0, [checkAndRestoreState] takes the branch of the prompt: an answer
    of no resets the state and leaves the data dirty, an answer of yes
    leaves the counters at 0 and the data clean. *)
Theorem first_visit_prompts_restore (ls : gmap string item) (d : Dom.t)
    (now later : Z) (a : t) (w : World) :
  PersistenceManager.loadFromStorage (PersistenceManager.new ls) STORAGE_KEYS.GAME_STATE
  = None ->
  now <> 0 -> later - now < PersistenceManager.ONE_DAY ->
  new ls d now = Some (a, w) ->
  DataManager.gameState (dataManager a) = GameState.fresh now
  /\ DataManager.isDirty (dataManager a) = false
  /\ DataManager.isDirty (dataManager (checkAndRestoreState a false later)) = true
  /\ DataManager.gameState (dataManager (checkAndRestoreState a false later))
     = GameState.fresh later
  /\ DataManager.isDirty (dataManager (checkAndRestoreState a true later)) = false
  /\ teamAScore (checkAndRestoreState a true later) = 0
  /\ teamBScore (checkAndRestoreState a true later) = 0.
Proof.
  intros Hnone Hnz Hday Hnew.
  unfold new, DataManager.new, DataManager.loadGameState in Hnew.
  rewrite Hnone in Hnew.
  destruct (PersistenceManager.loadTeamsData (PersistenceManager.new ls) now)
    as [cached w1].
  destruct (TimerManager.new w1 now) as [[tm w2]|]; [| discriminate].
  injection Hnew as <- <-.
  unfold checkAndRestoreState. cbn [dataManager DataManager.gameState
    GameState.fresh GameState.timestamp].
  apply Z.eqb_neq in Hnz. rewrite Hnz. apply Z.ltb_lt in Hday. rewrite Hday.
  cbn [negb andb]. split; [reflexivity |]. split; [reflexivity |].
  split; [reflexivity |]. split; [reflexivity |].
  unfold restoreGameState. cbn [GameState.scoreLogs GameState.abbaStart
    GameState.teamAScore GameState.teamBScore].
  match goal with
  | |- context [Dom.abbaStart (dom ?x)] => destruct (Dom.abbaStart (dom x))
  end; cbn; repeat split; reflexivity.
Qed.

End Handlers.


(** X15 on the same match: the delete button without an edit in progress. *)
Lemma handleDeleteScore_without_entry_witness :
  let s := @ScorekeeperApp.run small_browser (fst opening) (snd opening)
             red_blue_one_point in
  ScorekeeperApp.editing (fst s) = None
  /\ @ScorekeeperApp.handleDeleteScore small_browser (fst s) (snd s) 3500 = s.
Proof.
  cbv zeta.
  assert (Hed : ScorekeeperApp.editing
                  (fst (@ScorekeeperApp.run small_browser (fst opening) (snd opening)
                          red_blue_one_point)) = None) by (vm_compute; reflexivity).
  split; [exact Hed |].
  rewrite (@handleDeleteScore_without_entry small_browser _ _ 3500 (or_introl Hed)).
  now destruct (@ScorekeeperApp.run small_browser (fst opening) (snd opening)
                  red_blue_one_point).
Defined.

(** X16 on the same match: the selector is set to F. *)
Lemma handleAbbaChange_witness :
  let s := @ScorekeeperApp.run small_browser (fst opening) (snd opening)
             red_blue_one_point in
  let d := ScorekeeperApp.dom (fst s) in
  let a := ScorekeeperApp.with_dom (fst s)
             (Dom.Build (Dom.teamA d) (Dom.teamB d) (Dom.teamAList d) (Dom.teamBList d)
                (Dom.time d) (Some "F") (Dom.scoringTableBody d) (Dom.overlay d)
                (Dom.scorePopup d)) in
  exists rows : list Dom.row,
    Dom.scoringTableBody (ScorekeeperApp.dom a) = Some rows
    /\ ScorekeeperApp.abbaStart
         (fst (@ScorekeeperApp.handleAbbaChange small_browser a (snd s) 3500)) = "F".
Proof.
  cbv zeta.
  match goal with
  | |- exists rows, Dom.scoringTableBody (ScorekeeperApp.dom ?x) = _ /\ _ =>
      set (a := x)
  end.
  destruct (Dom.scoringTableBody (ScorekeeperApp.dom a)) as [rows|] eqn:Hrows;
    [| vm_compute in Hrows; discriminate].
  exists rows. split; [reflexivity |].
  destruct (@handleAbbaChange_rewrites_markers small_browser a
              (snd (@ScorekeeperApp.run small_browser (fst opening) (snd opening)
                      red_blue_one_point)) 3500 rows Hrows) as (Hstart & _).
  rewrite Hstart. reflexivity.
Defined.

(** X18 in the small browser, opened at time 1000. *)
Lemma first_visit_witness :
  exists (a : ScorekeeperApp.t) (w : World),
    (PersistenceManager.loadFromStorage (PersistenceManager.new ∅)
       CONFIG.STORAGE_KEYS.GAME_STATE = None
     /\ 1000 <> 0 /\ 1500 - 1000 < PersistenceManager.ONE_DAY
     /\ @ScorekeeperApp.new small_browser ∅ page 1000 = Some (a, w))
    /\ DataManager.isDirty (ScorekeeperApp.dataManager a) = false
    /\ DataManager.isDirty
         (ScorekeeperApp.dataManager (ScorekeeperApp.checkAndRestoreState a false 1500))
       = true.
Proof.
  destruct (@ScorekeeperApp.new small_browser ∅ page 1000) as [[a w]|] eqn:Hnew;
    [| vm_compute in Hnew; discriminate].
  assert (Hnone : PersistenceManager.loadFromStorage (PersistenceManager.new ∅)
                    CONFIG.STORAGE_KEYS.GAME_STATE = None) by reflexivity.
  assert (Hnz : 1000 <> 0) by lia.
  assert (Hday : 1500 - 1000 < PersistenceManager.ONE_DAY) by (vm_compute; reflexivity).
  exists a, w. split; [repeat split; assumption |].
  destruct (@first_visit_prompts_restore small_browser ∅ page 1000 1500 a w
              Hnone Hnz Hday Hnew) as (_ & Hclean & Hdirty & _).
  split; assumption.
Defined.

(** ** The timers *)

Section Timers.
Context `{Platform}.
Import CONFIG.

Lemma Date_parse_bounds (ms : Z) :
  ms - 1000 < TimerManager.Date_parse ms <= ms
  /\ TimerManager.Date_parse ms = 1000 * (ms / 1000).
Proof.
  unfold TimerManager.Date_parse. split; [| reflexivity].
  pose proof (Z.mul_div_le ms 1000 ltac:(lia)).
  pose proof (Z.mul_succ_div_gt ms 1000 ltac:(lia)). lia.
Qed.

(** X19. [getTimeRemaining] before the end: the total is a whole number of
    seconds, less than a second away from the true distance; minutes and
    seconds split it, the seconds between 0 and 59. *)
Theorem getTimeRemaining_splits_total (endtime now : Z) :
  now <= endtime ->
  let r := TimerManager.getTimeRemaining endtime now in
  0 <= TimerManager.total r
  /\ endtime - now - 1000 < TimerManager.total r < endtime - now + 1000
  /\ TimerManager.total r
     = 60000 * TimerManager.minutes r + 1000 * TimerManager.seconds r
  /\ 0 <= TimerManager.minutes r
  /\ 0 <= TimerManager.seconds r < 60.
Proof.
  intros Hle. cbn zeta. unfold TimerManager.getTimeRemaining.
  cbn [TimerManager.total TimerManager.minutes TimerManager.seconds].
  destruct (Date_parse_bounds endtime) as (He & He').
  destruct (Date_parse_bounds now) as (Hn & Hn').
  assert (Hdiv : now / 1000 <= endtime / 1000) by (apply Z.div_le_mono; lia).
  set (t := TimerManager.Date_parse endtime - TimerManager.Date_parse now) in *.
  assert (Ht : t = 1000 * (endtime / 1000 - now / 1000)) by (subst t; lia).
  assert (Hq : t / 1000 = endtime / 1000 - now / 1000).
  { rewrite Ht, Z.mul_comm. apply Z.div_mul. lia. }
  rewrite Hq. set (q := endtime / 1000 - now / 1000) in *.
  assert (Hq0 : 0 <= q) by (subst q; lia).
  rewrite Z.rem_mod_nonneg by lia.
  pose proof (Z.mod_pos_bound q 60 ltac:(lia)).
  pose proof (Z.div_mod q 60 ltac:(lia)).
  pose proof (Z.div_pos q 60 Hq0 ltac:(lia)).
  repeat split; lia.
Qed.


(** X21. [saveTimerState] when its three writes succeed: the storage then
    holds the state of the timer under the three timer keys. *)
Theorem saveTimerState_persists (tm : TimerManager.t) (w : World) (now : Z) :
  let endValue := match TimerManager.endTime tm with
                  | Some e => VDate e | None => VNull end in
  let remValue := match TimerManager.remainingTimeMs tm with
                  | Some r => VNum r | None => VNull end in
  let s1 := PersistenceManager.saveToStorage w "timerEndTime" endValue now in
  let s2 := PersistenceManager.saveToStorage (snd s1) STORAGE_KEYS.TIMER_RUNNING
              (VBool (TimerManager.isRunning tm)) now in
  let s3 := PersistenceManager.saveToStorage (snd s2) "timerRemainingTime"
              remValue now in
  fst s1 = true -> fst s2 = true -> fst s3 = true ->
  TimerManager.saveTimerState tm w now = snd s3
  /\ timer_persisted tm (localStorage (TimerManager.saveTimerState tm w now)).
Proof.
  cbn zeta. intros H1 H2 H3. split; [reflexivity |].
  unfold timer_persisted, TimerManager.saveTimerState.
  pose proof (saveToStorage_stored _ _ _ _ H1 ltac:(discriminate)) as S1.
  pose proof (saveToStorage_stored _ _ _ _ H2 ltac:(discriminate)) as S2.
  pose proof (saveToStorage_stored _ _ _ _ H3 ltac:(discriminate)) as S3.
  split; [| split].
  - rewrite saveToStorage_frame by discriminate.
    rewrite saveToStorage_frame by discriminate. exact S1.
  - rewrite saveToStorage_frame by discriminate. exact S2.
  - exact S3.
Qed.

(** X22. A reload keeps the state of the match timer sound.  The storage
    holds the state of a sound timer whose remaining time, if it has one, is
    an integer that a double holds exactly, and whose end time, if it has
    one, is a time of the calendar, as is the time of the reload.  Then the
    constructor succeeds and the new timer is sound.  An idle timer comes
    back idle, and with the remaining time it had when that is not zero,
    without a write to the storage. *)
Theorem timer_reload_keeps_state (tm0 : TimerManager.t) (w : World) (now : Z) :
  timer_ok tm0 ->
  timer_persisted tm0 (localStorage w) ->
  (forall r : Z, TimerManager.remainingTimeMs tm0 = Some r -> safe_integer r) ->
  (forall e : Z, TimerManager.endTime tm0 = Some e -> calendar_time e) ->
  calendar_time now ->
  exists (tm : TimerManager.t) (w' : World),
    TimerManager.new w now = Some (tm, w')
    /\ timer_ok tm
    /\ (TimerManager.isRunning tm0 = false ->
        TimerManager.isRunning tm = false
        /\ forall r : Z,
             TimerManager.remainingTimeMs tm0 = Some r -> r <> 0 ->
             TimerManager.remainingTimeMs tm = Some r /\ w' = w).
Proof.
  unfold timer_ok, timer_persisted. destruct tm0 as [ti run e r dm]. cbn.
  intros Hok (He & Hr & Hm) Hsafe _ _.
  unfold TimerManager.new, TimerManager.loadTimerState.
  rewrite (loadFromStorage_lookup _ _ _ He), (loadFromStorage_lookup _ _ _ Hr),
    (loadFromStorage_lookup _ _ _ Hm).
  destruct run.
  - destruct Hok as (Hsome & ->). destruct e as [e|]; [| congruence].
    cbn -[TimerManager.getTimeRemaining TimerManager.stop TimerManager.start].
    destruct (_ <=? 0).
    + eexists _, _. split; [reflexivity |]. cbn. repeat split; congruence.
    + eexists _, _. split; [reflexivity |]. cbn. repeat split; congruence.
  - destruct Hok as (-> & Hsome & _). destruct r as [r|]; [| congruence].
    assert (Hread : TimerManager.parseInt_number r = Some r).
    { apply parseInt_number_small. specialize (Hsafe r eq_refl).
      unfold safe_integer, MAX_SAFE_INTEGER in Hsafe. lia. }
    cbn -[TimerManager.parseInt_number].
    destruct (r =? 0) eqn:Hz; cbn -[TimerManager.parseInt_number]; rewrite ?Hread;
      cbn; eexists _, _; (split; [reflexivity |]); cbn.
    + apply Z.eqb_eq in Hz. split; [repeat split; congruence |].
      intros _. split; [reflexivity |]. intros x [= <-] Hne. congruence.
    + split; [repeat split; congruence |].
      intros _. split; [reflexivity |]. intros x [= <-] _. split; reflexivity.
Qed.

(** X23. After the reload of a running timer no interval is scheduled: the
    constructor sets the running flag before it calls [start], which
    returns at once.  The new timer counts as running towards the stored end
    time, but its tick never runs, so it does not stop at the end by itself;
    at and after the end it still counts as running, with no second left. *)
Theorem reloaded_running_timer_has_no_interval (w : World) (e now : Z) :
  localStorage w !! "timerEndTime" = Some (Json (VDate e)) ->
  localStorage w !! STORAGE_KEYS.TIMER_RUNNING = Some (Json (VBool true)) ->
  localStorage w !! "timerRemainingTime" = Some (Json VNull) ->
  0 < TimerManager.total (TimerManager.getTimeRemaining e now) ->
  exists tm : TimerManager.t,
    TimerManager.new w now = Some (tm, w)
    /\ TimerManager.isRunning tm = true
    /\ TimerManager.endTime tm = Some e
    /\ TimerManager.timerInterval tm = false
    /\ (forall (w' : World) (t : Z), TimerManager.tick tm w' t = (tm, w'))
    /\ (forall t : Z, e <= t -> TimerManager.getRemainingSeconds tm t <= 0).
Proof.
  intros He Hr Hm Hpos. eexists. split.
  - apply loadTimerState_running; eassumption.
  - cbn. repeat split.
    intros t Hle. unfold TimerManager.getRemainingSeconds. cbn.
    unfold TimerManager.Date_parse.
    assert (e / 1000 <= t / 1000) by (apply Z.div_le_mono; lia).
    apply Z.div_le_upper_bound; lia.
Qed.

(** X24. Pause and resume.  An idle timer with [r] milliseconds left is
    started at [t0] and stopped at [t1], where the two clock readings and
    the end time [t0 + r] are times of the calendar.  The remaining time it
    then holds is a whole number of seconds, never negative, zero when the
    time was up, and otherwise less than a second away from [r] less the
    time run. *)
Theorem start_then_stop_remaining (tm : TimerManager.t) (w w1 : World) (r t0 t1 : Z) :
  TimerManager.isRunning tm = false ->
  TimerManager.remainingTimeMs tm = Some r ->
  calendar_time t0 -> calendar_time t1 -> calendar_time (t0 + r) ->
  t0 <= t1 ->
  let started := fst (TimerManager.start tm w t0) in
  let stopped := fst (TimerManager.stop started w1 t1) in
  exists r' : Z,
    TimerManager.remainingTimeMs stopped = Some r'
    /\ TimerManager.isRunning stopped = false
    /\ 0 <= r' /\ r' mod 1000 = 0
    /\ (r <= t1 - t0 -> r' = 0)
    /\ (t1 - t0 <= r -> r - (t1 - t0) - 1000 < r' < r - (t1 - t0) + 1000).
Proof.
  intros Hidle Hr _ _ _ Hle. cbn zeta. unfold TimerManager.start. rewrite Hidle, Hr.
  cbn [fst]. unfold TimerManager.stop. cbn.
  eexists. split; [reflexivity |]. split; [reflexivity |].
  destruct (Date_parse_bounds (t0 + r)) as (He & He').
  destruct (Date_parse_bounds t1) as (Hn & Hn').
  set (x := TimerManager.Date_parse (t0 + r)) in *.
  set (y := TimerManager.Date_parse t1) in *.
  split; [lia |]. split.
  - destruct (Z.max_spec 0 (x - y)) as [(_ & ->) | (_ & ->)]; [| reflexivity].
    replace (x - y) with (((t0 + r) / 1000 - t1 / 1000) * 1000) by lia.
    apply Z.mod_mul. lia.
  - split.
    + intros Hup. assert ((t0 + r) / 1000 <= t1 / 1000) by (apply Z.div_le_mono; lia).
      lia.
    + intros Hin. lia.
Qed.

End Timers.

Section Seconds.
Import SecondsTimerManager.

Lemma sec_step_ok (tm : t) (ev : sec_event) (now : Z) :
  sec_ok tm -> exists tm', sec_step tm ev now = Some tm' /\ sec_ok tm'.
Proof.
  unfold sec_ok. destruct tm as [ti run e r ds]. cbn.
  destruct run; cbn.
  - intros (He & ->). destruct e as [e|]; [| congruence].
    destruct ev as [input | input |]; cbn.
    + eexists. split; [reflexivity |]. cbn. repeat split.
      intros r0 [= <-]. lia.
    + eexists. split; [reflexivity |]. cbn. repeat split.
      intros r0 [= <-]. lia.
    + destruct (_ <=? 0); cbn; eexists; (split; [reflexivity |]); cbn;
        repeat split; try congruence.
      intros r0 [= <-]. lia.
  - intros (-> & -> & Hr). destruct ev as [input | input |]; cbn.
    + eexists. split; [reflexivity |]. cbn. split; congruence.
    + eexists. split; [reflexivity |]. cbn. repeat split.
      intros r0 [= <-]. lia.
    + eexists. split; [reflexivity |]. cbn. repeat split. exact Hr.
Qed.

(** X25. The seconds timer never loses its state.  From the constructor on,
    whatever is pressed and whenever the interval fires, every operation
    finds the end time it needs: the timer holds an end time and its
    interval exactly while it runs, and an idle timer never holds a negative
    remaining time. *)
Theorem seconds_timer_always_sound (evs : list (sec_event * Z)) :
  exists tm : t, sec_run new evs = Some tm /\ sec_ok tm.
Proof.
  assert (Hgen : forall tm0, sec_ok tm0 ->
                             exists tm, sec_run tm0 evs = Some tm /\ sec_ok tm).
  { induction evs as [|[ev now] evs IH]; intros tm0 Hok.
    - exists tm0. split; [reflexivity | exact Hok].
    - cbn [sec_run]. destruct (sec_step_ok tm0 ev now Hok) as (tm1 & -> & Hok1).
      now apply IH. }
  apply Hgen. cbn. repeat split. discriminate.
Qed.

(** X26. The tick of the seconds timer looks at whole seconds: once the
    clock is in the second of the end time or past it, the timer stops with
    exactly zero left; before that second the tick changes nothing. *)
Theorem seconds_tick_stops_at_zero (tm : t) (e now : Z) :
  timerInterval tm = true -> isRunning tm = true -> endTime tm = Some e ->
  (e / 1000 <= now / 1000 ->
   tick tm now = Some (Build false false None (Some 0) (defaultSeconds tm)))
  /\ (now / 1000 < e / 1000 -> tick tm now = Some tm).
Proof.
  intros Hti Hrun He. unfold tick, stop. rewrite Hti, He, Hrun. cbn.
  unfold TimerManager.Date_parse. split; intros Hcmp.
  - assert (Hle : (1000 * (e / 1000) - 1000 * (now / 1000) <=? 0) = true)
      by (apply Z.leb_le; lia).
    now rewrite Hle.
  - assert (Hgt : (1000 * (e / 1000) - 1000 * (now / 1000) <=? 0) = false)
      by (apply Z.leb_gt; lia).
    now rewrite Hgt.
Qed.

(** X27. The reset of the seconds timer never leaves less than one second.
    The number of the input and the default are such that a thousand times
    their value is an integer that a double holds exactly.  Then the timer
    is idle with the seconds of the input, the default when the input holds
    no number or zero, and one second when the number is negative. *)
Theorem handleSecTimerReset_at_least_one_second (tm : t) (input : option Z) (now : Z) :
  sec_ok tm ->
  safe_integer (defaultSeconds tm * 1000) ->
  (forall n : Z, input = Some n -> safe_integer (n * 1000)) ->
  exists tm' : t,
    handleSecTimerReset tm input now = Some tm'
    /\ isRunning tm' = false
    /\ endTime tm' = None
    /\ remainingTimeMs tm'
       = Some (Z.max 1 (or_default input (defaultSeconds tm)) * 1000)
    /\ (forall r : Z, remainingTimeMs tm' = Some r -> 1000 <= r)
    /\ (forall n : Z, input = Some n -> n < 0 -> remainingTimeMs tm' = Some 1000).
Proof.
  intros Hok _ _.
  assert (Hsecs : (if or_default input (defaultSeconds tm) =? 0
                   then defaultSeconds tm
                   else or_default input (defaultSeconds tm))
                  = or_default input (defaultSeconds tm)).
  { unfold or_default. destruct input as [n|].
    - destruct (n =? 0) eqn:Hn.
      + destruct (defaultSeconds tm =? 0) eqn:Hd; [| reflexivity].
        apply Z.eqb_eq in Hd. now rewrite Hd.
      + now rewrite Hn.
    - destruct (defaultSeconds tm =? 0) eqn:Hd; [| reflexivity].
      apply Z.eqb_eq in Hd. now rewrite Hd. }
  assert (Hstop : exists tm1, stop tm now = Some tm1 /\ isRunning tm1 = false
                              /\ endTime tm1 = None
                              /\ defaultSeconds tm1 = defaultSeconds tm).
  { unfold sec_ok, stop in *. destruct tm as [ti run e r ds]. cbn in *.
    destruct run; cbn.
    - destruct Hok as (He & _). destruct e as [e|]; [| congruence].
      eexists. repeat split.
    - destruct Hok as (-> & _). eexists. repeat split. }
  destruct Hstop as (tm1 & Hstop & Hrun & Hend & Hds).
  unfold handleSecTimerReset, reset. rewrite Hstop, Hds, Hsecs.
  eexists. split; [reflexivity |]. cbn. rewrite Hrun, Hend.
  split; [reflexivity |]. split; [reflexivity |]. split; [reflexivity |].
  split.
  - intros r [= <-]. lia.
  - intros n -> Hn. unfold or_default.
    assert (Hz : (n =? 0) = false) by (apply Z.eqb_neq; lia).
    rewrite Hz. f_equal. lia.
Qed.

End Seconds.

(** X19 on a timer with 100 minutes, read half a minute in. *)
Lemma getTimeRemaining_witness :
  let r := TimerManager.getTimeRemaining (1700000000123 + 6000000) 1700000030123 in
  1700000030123 <= 1700000000123 + 6000000
  /\ r = TimerManager.TimeRemaining 5970000 99 30
  /\ TimerManager.total r
     = 60000 * TimerManager.minutes r + 1000 * TimerManager.seconds r.
Proof.
  cbv zeta.
  assert (Hle : 1700000030123 <= 1700000000123 + 6000000) by lia.
  split; [exact Hle |]. split; [reflexivity |].
  exact (proj1 (proj2 (proj2 (getTimeRemaining_splits_total _ _ Hle)))).
Defined.


(** X21 in the small browser: the three writes of a start have room. *)
Lemma saveTimerState_witness :
  let tm := TimerManager.Build false true (Some 6001000) None 100 in
  let w := PersistenceManager.new ∅ in
  let s1 := @PersistenceManager.saveToStorage small_browser w "timerEndTime"
              (VDate 6001000) 1000 in
  let s2 := @PersistenceManager.saveToStorage small_browser (snd s1)
              CONFIG.STORAGE_KEYS.TIMER_RUNNING (VBool true) 1000 in
  let s3 := @PersistenceManager.saveToStorage small_browser (snd s2)
              "timerRemainingTime" VNull 1000 in
  (fst s1 = true /\ fst s2 = true /\ fst s3 = true)
  /\ timer_persisted tm
       (localStorage (@TimerManager.saveTimerState small_browser tm w 1000)).
Proof.
  cbv zeta.
  set (tm := TimerManager.Build false true (Some 6001000) None 100).
  assert (H1 : fst (@PersistenceManager.saveToStorage small_browser
                      (PersistenceManager.new ∅) "timerEndTime"
                      (match TimerManager.endTime tm with
                       | Some e => VDate e | None => VNull end) 1000) = true)
    by (vm_compute; reflexivity).
  assert (H2 : fst (@PersistenceManager.saveToStorage small_browser
                      (snd (@PersistenceManager.saveToStorage small_browser
                              (PersistenceManager.new ∅) "timerEndTime"
                              (match TimerManager.endTime tm with
                               | Some e => VDate e | None => VNull end) 1000))
                      CONFIG.STORAGE_KEYS.TIMER_RUNNING
                      (VBool (TimerManager.isRunning tm)) 1000) = true)
    by (vm_compute; reflexivity).
  assert (H3 : fst (@PersistenceManager.saveToStorage small_browser
                      (snd (@PersistenceManager.saveToStorage small_browser
                              (snd (@PersistenceManager.saveToStorage small_browser
                                      (PersistenceManager.new ∅) "timerEndTime"
                                      (match TimerManager.endTime tm with
                                       | Some e => VDate e | None => VNull end) 1000))
                              CONFIG.STORAGE_KEYS.TIMER_RUNNING
                              (VBool (TimerManager.isRunning tm)) 1000))
                      "timerRemainingTime"
                      (match TimerManager.remainingTimeMs tm with
                       | Some r => VNum r | None => VNull end) 1000) = true)
    by (vm_compute; reflexivity).
  split; [repeat split; assumption |].
  exact (proj2 (@saveTimerState_persists small_browser tm (PersistenceManager.new ∅)
                  1000 H1 H2 H3)).
Defined.

(** X22 in the small browser: a timer started at 1000 with 100 minutes and
    paused half a minute later comes back, after a reload, idle with its
    99 minutes and 30 seconds. *)
Lemma timer_reload_state_witness :
  let started := @TimerManager.start small_browser (idle_timer 100)
                   (PersistenceManager.new ∅) 1000 in
  let paused := @TimerManager.stop small_browser (fst started) (snd started) 31000 in
  (timer_ok (fst paused)
   /\ timer_persisted (fst paused) (localStorage (reload (snd paused)))
   /\ (forall r : Z, TimerManager.remainingTimeMs (fst paused) = Some r ->
                     safe_integer r)
   /\ (forall e : Z, TimerManager.endTime (fst paused) = Some e -> calendar_time e)
   /\ calendar_time 60000)
  /\ exists (tm : TimerManager.t) (w' : World),
       @TimerManager.new small_browser (reload (snd paused)) 60000 = Some (tm, w')
       /\ timer_ok tm
       /\ TimerManager.isRunning tm = false
       /\ TimerManager.remainingTimeMs tm = Some 5970000.
Proof.
  cbv zeta.
  set (paused := @TimerManager.stop small_browser
                   (fst (@TimerManager.start small_browser (idle_timer 100)
                           (PersistenceManager.new ∅) 1000))
                   (snd (@TimerManager.start small_browser (idle_timer 100)
                           (PersistenceManager.new ∅) 1000)) 31000).
  assert (Hrem : TimerManager.remainingTimeMs (fst paused) = Some 5970000)
    by (vm_compute; reflexivity).
  assert (Hidle : TimerManager.isRunning (fst paused) = false)
    by (vm_compute; reflexivity).
  assert (Hok : timer_ok (fst paused)).
  { unfold timer_ok. rewrite Hidle, Hrem. repeat split. discriminate. }
  assert (Hp : timer_persisted (fst paused) (localStorage (reload (snd paused)))).
  { vm_compute. repeat split. }
  assert (Hsafe : forall r : Z, TimerManager.remainingTimeMs (fst paused) = Some r ->
                                safe_integer r).
  { intros r Hr. rewrite Hrem in Hr. injection Hr as <-.
    unfold safe_integer, MAX_SAFE_INTEGER. lia. }
  assert (Hend : forall e : Z, TimerManager.endTime (fst paused) = Some e ->
                               calendar_time e).
  { intros e He. vm_compute in He. discriminate. }
  assert (Hnow : calendar_time 60000) by (unfold calendar_time; lia).
  split; [split; [exact Hok |]; split; [exact Hp |]; split; [exact Hsafe |];
          split; [exact Hend | exact Hnow] |].
  destruct (@timer_reload_keeps_state small_browser (fst paused)
              (reload (snd paused)) 60000 Hok Hp Hsafe Hend Hnow)
    as (tm & w' & Hnew & Hok' & Hback).
  destruct (Hback Hidle) as (Hidle' & Hsame).
  destruct (Hsame 5970000 Hrem ltac:(lia)) as (Hrem' & _).
  exists tm, w'. repeat split; assumption.
Defined.

Lemma reloaded_running_timer_witness :
  let started := @TimerManager.start small_browser (idle_timer 100)
                   (PersistenceManager.new ∅) 1000 in
  let w := reload (snd started) in
  (localStorage w !! "timerEndTime" = Some (Json (VDate 6001000))
   /\ localStorage w !! CONFIG.STORAGE_KEYS.TIMER_RUNNING = Some (Json (VBool true))
   /\ localStorage w !! "timerRemainingTime" = Some (Json VNull)
   /\ 0 < TimerManager.total (TimerManager.getTimeRemaining 6001000 31000))
  /\ exists tm : TimerManager.t,
       @TimerManager.new small_browser w 31000 = Some (tm, w)
       /\ TimerManager.isRunning tm = true
       /\ TimerManager.timerInterval tm = false
       /\ fst (@TimerManager.tick small_browser tm w 7000000) = tm.
Proof.
  cbv zeta.
  set (w := reload (snd (@TimerManager.start small_browser (idle_timer 100)
                           (PersistenceManager.new ∅) 1000))).
  assert (He : localStorage w !! "timerEndTime" = Some (Json (VDate 6001000)))
    by (vm_compute; reflexivity).
  assert (Hr : localStorage w !! CONFIG.STORAGE_KEYS.TIMER_RUNNING
               = Some (Json (VBool true))) by (vm_compute; reflexivity).
  assert (Hm : localStorage w !! "timerRemainingTime" = Some (Json VNull))
    by (vm_compute; reflexivity).
  assert (Hpos : 0 < TimerManager.total (TimerManager.getTimeRemaining 6001000 31000))
    by (vm_compute; reflexivity).
  split; [repeat split; assumption |].
  destruct (@reloaded_running_timer_has_no_interval small_browser w 6001000 31000
              He Hr Hm Hpos) as (tm & Hnew & Hrun & _ & Hti & Htick & _).
  exists tm. repeat split; try assumption. now rewrite Htick.
Defined.

(** X24: a timer with 1001 milliseconds left, started at 999 and stopped at
    once, holds two seconds. *)
Lemma start_then_stop_witness :
  let tm := TimerManager.Build false false None (Some 1001) 100 in
  let w := PersistenceManager.new ∅ in
  (TimerManager.isRunning tm = false /\ TimerManager.remainingTimeMs tm = Some 1001
   /\ calendar_time 999 /\ calendar_time (999 + 1001) /\ 999 <= 999)
  /\ TimerManager.remainingTimeMs
       (fst (@TimerManager.stop small_browser
               (fst (@TimerManager.start small_browser tm w 999)) w 999))
     = Some 2000.
Proof.
  cbv zeta.
  set (tm := TimerManager.Build false false None (Some 1001) 100).
  assert (Hidle : TimerManager.isRunning tm = false) by reflexivity.
  assert (Hr : TimerManager.remainingTimeMs tm = Some 1001) by reflexivity.
  assert (Hle : 999 <= 999) by lia.
  assert (Ht : calendar_time 999) by (unfold calendar_time; lia).
  assert (He : calendar_time (999 + 1001)) by (unfold calendar_time; lia).
  split; [split; [exact Hidle |]; split; [exact Hr |]; split; [exact Ht |];
          split; [exact He | exact Hle] |].
  destruct (@start_then_stop_remaining small_browser tm (PersistenceManager.new ∅)
              (PersistenceManager.new ∅) 1001 999 999 Hidle Hr Ht Ht He Hle)
    as (r' & Hr' & _).
  reflexivity.
Defined.

(** X26 and X27 on the seconds timer, started at 500 with the default 90
    seconds. *)
Lemma seconds_tick_witness :
  let tm := SecondsTimerManager.start SecondsTimerManager.new None 500 in
  (SecondsTimerManager.timerInterval tm = true
   /\ SecondsTimerManager.isRunning tm = true
   /\ SecondsTimerManager.endTime tm = Some 90500)
  /\ SecondsTimerManager.tick tm 90001
     = Some (SecondsTimerManager.Build false false None (Some 0) 90)
  /\ SecondsTimerManager.tick tm 89999 = Some tm.
Proof.
  cbv zeta.
  set (tm := SecondsTimerManager.start SecondsTimerManager.new None 500).
  assert (Hti : SecondsTimerManager.timerInterval tm = true) by reflexivity.
  assert (Hrun : SecondsTimerManager.isRunning tm = true) by reflexivity.
  assert (He : SecondsTimerManager.endTime tm = Some 90500) by reflexivity.
  split; [repeat split; assumption |].
  split.
  - apply (proj1 (seconds_tick_stops_at_zero tm 90500 90001 Hti Hrun He)).
    vm_compute. discriminate.
  - apply (proj2 (seconds_tick_stops_at_zero tm 90500 89999 Hti Hrun He)).
    vm_compute. reflexivity.
Defined.

Lemma handleSecTimerReset_witness :
  (sec_ok SecondsTimerManager.new
   /\ safe_integer (SecondsTimerManager.defaultSeconds SecondsTimerManager.new * 1000)
   /\ (forall n : Z, Some (-5) = Some n -> safe_integer (n * 1000)))
  /\ exists tm' : SecondsTimerManager.t,
       SecondsTimerManager.handleSecTimerReset SecondsTimerManager.new (Some (-5)) 500
       = Some tm'
       /\ SecondsTimerManager.remainingTimeMs tm' = Some 1000.
Proof.
  assert (Hok : sec_ok SecondsTimerManager.new).
  { unfold sec_ok. cbn. repeat split. discriminate. }
  assert (Hdef : safe_integer
                   (SecondsTimerManager.defaultSeconds SecondsTimerManager.new * 1000)).
  { unfold safe_integer, MAX_SAFE_INTEGER. cbn. lia. }
  assert (Hin : forall n : Z, Some (-5) = Some n -> safe_integer (n * 1000)).
  { intros n [= <-]. unfold safe_integer, MAX_SAFE_INTEGER. lia. }
  split; [split; [exact Hok |]; split; [exact Hdef | exact Hin] |].
  destruct (handleSecTimerReset_at_least_one_second SecondsTimerManager.new
              (Some (-5)) 500 Hok Hdef Hin) as (tm' & Hreset & _ & _ & _ & _ & Hneg).
  exists tm'. split; [exact Hreset |]. apply (Hneg (-5)); [reflexivity | lia].
Defined.

(** ** Ids, the last-save stamp, an edit *)

Section More.
Context `{Platform}.
Import CONFIG ScorekeeperApp.

(** X28. The ids of added points are the clock readings of their additions:
    a session of additions on an empty log leaves the readings as ids, in
    order, and the ids are pairwise distinct exactly when the readings are. *)
Theorem additions_ids_distinct_iff (l : list (string * string * string * Z))
    (a : t) (w : World) :
  DataManager.scoreLogs (dataManager a) = [] ->
  let ids := map LogEntry.scoreID
               (DataManager.scoreLogs (dataManager (fst (run a w (additions l))))) in
  ids = map (fun p => Js.toString (snd p)) l
  /\ (NoDup ids <-> NoDup (map snd l)).
Proof.
  intros Hempty. cbn zeta. rewrite additions_ids, Hempty. cbn [map app].
  split; [reflexivity |].
  rewrite <- (map_map snd Js.toString).
  apply (NoDup_fmap (Js.toString : Z -> string)).
Qed.

(** X29. The last-save stamp, for a [saveToStorage] of another key.  When
    the write of the key and the write of the stamp both succeed, the call
    returns true without a clean-up, the storage holds the data and the
    stamp of this save, and the manager remembers the time.  In every other
    case the call runs its clean-up and retry, and the stamp in the storage
    is the one that was there before, whatever the result: a save that
    succeeds only at the retry leaves the old stamp beside the new data.
    When it was the write of the stamp that failed, the manager remembers
    the new time although the stored stamp is old. *)
Theorem saveToStorage_stamp (w : World) (key : string) (data : value) (now : Z) :
  key <> STORAGE_KEYS.LAST_SAVE ->
  let r := PersistenceManager.saveToStorage w key data now in
  let first := Storage.setItem w key (Json data) in
  let second := Storage.setItem (snd first) STORAGE_KEYS.LAST_SAVE (Json (VNum now)) in
  let stamp (x : World) := PersistenceManager.loadFromStorage x STORAGE_KEYS.LAST_SAVE in
  (fst first = true -> fst second = true ->
   fst r = true
   /\ stamp (snd r) = Some (VNum now)
   /\ PersistenceManager.loadFromStorage (snd r) key = Some data
   /\ lastSaveTime (snd r) = now
   /\ cleanups (journal (snd r)) = cleanups (journal w))
  /\ (fst first = false \/ fst second = false ->
      stamp (snd r) = stamp w
      /\ cleanups (journal (snd r)) = S (cleanups (journal w))
      /\ (fst r = true ->
          PersistenceManager.loadFromStorage (snd r) key = Some data))
  /\ (fst first = false -> lastSaveTime (snd r) = lastSaveTime w)
  /\ (fst first = true -> fst second = false ->
      fst r = true /\ lastSaveTime (snd r) = now).
Proof.
  intros Hne. cbn zeta. unfold PersistenceManager.saveToStorage.
  rewrite !setItem_spec. cbn zeta.
  cbn [fst snd localStorage journal lastSaveTime autoSaveInterval].
  destruct (Storage.used (<[key := Json data]> (localStorage w)) <=? quota)%nat
    eqn:Hfirst.
  - destruct (Storage.used (<[STORAGE_KEYS.LAST_SAVE := Json (VNum now)]>
                      (<[key := Json data]> (localStorage w))) <=? quota)%nat.
    + split; [intros _ _ | split; [intros [Hf | Hf]; discriminate |
                                   split; [discriminate | intros _; discriminate]]].
      unfold PersistenceManager.loadFromStorage, Storage.getItem.
      cbn [fst snd localStorage journal lastSaveTime Storage.record].
      rewrite lookup_insert_eq, lookup_insert_ne by congruence.
      rewrite lookup_insert_eq. repeat split.
      rewrite <- !app_assoc, !cleanups_app. cbn. lia.
    + rewrite retry_spec. cbn zeta.
      cbn [fst snd localStorage journal lastSaveTime].
      assert (Hretry :
        (Storage.used (<[key := Json data]>
                 (remediated (<[key := Json data]> (localStorage w)) now))
         <=? quota)%nat = true).
      { apply Nat.leb_le. apply Nat.leb_le in Hfirst.
        etransitivity; [apply used_insert_remediated |].
        now rewrite insert_insert_eq. }
      rewrite Hretry.
      unfold PersistenceManager.loadFromStorage, Storage.getItem.
      cbn [fst snd localStorage].
      rewrite lookup_insert_eq, lookup_insert_ne by congruence.
      rewrite remediated_lookup_other by discriminate.
      rewrite lookup_insert_ne by congruence.
      split; [intros _; discriminate |].
      split; [intros _ | split; [discriminate | intros _ _; split; reflexivity]].
      split; [reflexivity |]. split; [| reflexivity].
      rewrite !cleanups_app, cleanups_removals. cbn. lia.
  - rewrite retry_spec. cbn zeta.
    cbn [fst snd localStorage journal lastSaveTime].
    unfold PersistenceManager.loadFromStorage, Storage.getItem.
    cbn [fst snd localStorage].
    split; [discriminate |].
    split; [intros _ | split; [reflexivity | discriminate]].
    destruct (Storage.used (<[key := Json data]> (remediated (localStorage w) now))
              <=? quota)%nat; cbn [fst snd localStorage].
    + rewrite lookup_insert_eq, lookup_insert_ne by congruence.
      rewrite remediated_lookup_other by discriminate.
      split; [reflexivity |]. split; [| reflexivity].
      rewrite !cleanups_app, cleanups_removals. cbn. lia.
    + rewrite remediated_lookup_other by discriminate.
      split; [reflexivity |]. split; [| discriminate].
      rewrite !cleanups_app, cleanups_removals. cbn. lia.
Qed.

Lemma set_cells_middle (id letter scorer assist : string) (r1 r2 : list Dom.row)
    (r : Dom.row) :
  Forall (fun x => Dom.data_score_id x <> id) r1 ->
  Dom.data_score_id r = id ->
  set_cells id letter scorer assist (r1 ++ r :: r2)
  = r1 ++ (if String.eqb letter "A"
           then Dom.Row (Dom.data_score_id r) (Dom.abba_cell r) scorer assist
                  (Dom.total_cell r) (Dom.scoreB_cell r) (Dom.assistB_cell r)
           else Dom.Row (Dom.data_score_id r) (Dom.abba_cell r)
                  (Dom.scoreA_cell r) (Dom.assistA_cell r)
                  (Dom.total_cell r) scorer assist) :: r2.
Proof.
  intros Hr1 Hr. induction Hr1 as [|x r1 Hx _ IH]; cbn [app set_cells].
  - apply String.eqb_eq in Hr. now rewrite Hr.
  - apply String.eqb_neq in Hx. now rewrite Hx, IH.
Qed.

Lemma set_cells_absent (id letter scorer assist : string) (rows : list Dom.row) :
  Forall (fun x => Dom.data_score_id x <> id) rows ->
  set_cells id letter scorer assist rows = rows.
Proof.
  induction 1 as [|x rows Hx _ IH]; cbn [set_cells]; [reflexivity |].
  apply String.eqb_neq in Hx. now rewrite Hx, IH.
Qed.

(** X30. Editing a point: the edit button of a row, then the popup button.
    The state is one that a session has reached from an empty table, where
    the names of the log at the start, of every action and of the edit are
    texts without markup, so that every row of the table has the seven
    cells the application gave it, and the id is a text that the selector
    of the row can quote.  The entry that bears the id keeps its
    id, game, time and team and takes the new scorer and assist; the
    counters stay; no edit is in progress afterwards.  In the table the
    first row with the id takes the new names, in the columns of side A when
    the team of the entry is the Team A name selected now and else in those
    of side B, whatever its other columns hold; rows without the id are left
    alone. *)
Theorem edit_updates_entry_and_row (a0 : t) (w0 : World) (acts : list (action * Z))
    (scoreID scorer assist : string) (e : LogEntry.t) (rows : list Dom.row) :
  Dom.scoringTableBody (dom a0) = Some [] ->
  Forall plain_entry (DataManager.scoreLogs (dataManager a0)) ->
  Forall (fun step => plain_action (fst step)) acts ->
  plain_text scorer = true -> plain_text assist = true ->
  selector_text scoreID = true ->
  let a := fst (run a0 w0 acts) in
  DataManager.getScoreLog (dataManager a) scoreID = Some e ->
  Dom.scoringTableBody (dom a) = Some rows ->
  Dom.scorePopup (dom a) <> None ->
  let a' := snd (updateExistingScore (editScore a scoreID) scorer assist) in
  let sideA := String.eqb (LogEntry.Team e) (Dom.teamA_value (dom a)) in
  DataManager.getScoreLog (dataManager a') scoreID
  = Some (LogEntry.Build (LogEntry.scoreID e) (LogEntry.GameID e) (LogEntry.Time e)
            (LogEntry.Team e) scorer assist)
  /\ teamAScore a' = teamAScore a /\ teamBScore a' = teamBScore a
  /\ currentEditID a' = None
  /\ (forall (r1 r2 : list Dom.row) (r : Dom.row),
        rows = r1 ++ r :: r2 ->
        Forall (fun x => Dom.data_score_id x <> scoreID) r1 ->
        Dom.data_score_id r = scoreID ->
        Dom.scoringTableBody (dom a')
        = Some (r1 ++
                (if sideA
                 then Dom.Row (Dom.data_score_id r) (Dom.abba_cell r) scorer assist
                        (Dom.total_cell r) (Dom.scoreB_cell r) (Dom.assistB_cell r)
                 else Dom.Row (Dom.data_score_id r) (Dom.abba_cell r)
                        (Dom.scoreA_cell r) (Dom.assistA_cell r)
                        (Dom.total_cell r) scorer assist) :: r2))
  /\ (Forall (fun x => Dom.data_score_id x <> scoreID) rows ->
      Dom.scoringTableBody (dom a') = Some rows).
Proof.
  intros _ _ _ _ _ _. cbn zeta. generalize (fst (run a0 w0 acts)). intros a.
  intros Hget Hrows Hpop.
  destruct (getScoreLog_split _ _ _ Hget) as (l1 & l2 & Hlogs & He & Hl1 & Hfind).
  unfold editScore. rewrite Hget. unfold updateExistingScore.
  cbn [currentEditID with_dom with_currentEditID dataManager].
  unfold DataManager.updateScoreLog. rewrite Hfind, Hlogs, update_at_middle.
  unfold updateScoreInTable, set_popup_team, closePopup.
  cbn [dom with_dom with_dataManager with_currentEditID].
  destruct (Dom.scorePopup (dom a)) as [old|]; [| congruence].
  cbn [Dom.scoringTableBody Dom.scorePopup snd]. rewrite Hrows.
  cbn [dataManager teamAScore teamBScore currentEditID with_dom with_currentEditID
       with_dataManager dom Dom.with_table Dom.scoringTableBody default].
  split.
  { unfold DataManager.getScoreLog, DataManager.markDirty, DataManager.set_dirty.
    cbn [DataManager.scoreLogs]. rewrite find_skip by assumption.
    cbn [List.find DataManager.assign_entry LogEntry.scoreID].
    apply String.eqb_eq in He. now rewrite He. }
  split; [reflexivity |]. split; [reflexivity |]. split; [reflexivity |].
  split.
  - intros r1 r2 r -> Hr1 Hr. rewrite (set_cells_middle _ _ _ _ _ _ _ Hr1 Hr).
    destruct (String.eqb (LogEntry.Team e) (Dom.teamA_value (dom a))); reflexivity.
  - intros Hnone. now rewrite set_cells_absent.
Qed.

End More.

(** X28 on the first visit: two points, at 1000 and at 2000. *)
Lemma additions_ids_witness :
  let l := [("A", "Ann", "Bob", 1000); ("B", "Bea", "Bo", 2000)] in
  DataManager.scoreLogs (ScorekeeperApp.dataManager (fst opening)) = []
  /\ map LogEntry.scoreID
       (DataManager.scoreLogs
          (ScorekeeperApp.dataManager
             (fst (@ScorekeeperApp.run small_browser (fst opening) (snd opening)
                     (additions l)))))
     = ["1000"; "2000"].
Proof.
  cbv zeta.
  assert (Hempty : DataManager.scoreLogs (ScorekeeperApp.dataManager (fst opening)) = [])
    by (vm_compute; reflexivity).
  split; [exact Hempty |].
  rewrite (proj1 (@additions_ids_distinct_iff small_browser
                    [("A", "Ann", "Bob", 1000); ("B", "Bea", "Bo", 2000)]
                    (fst opening) (snd opening) Hempty)).
  vm_compute. reflexivity.
Defined.

(** X29 in a browser with room for 70 characters that holds an expired
    roster cache and an old stamp: the first write does not fit, the retry
    after the clean-up does, and the stamp of time 7 stays. *)
Lemma saveToStorage_stamp_witness :
  let P := {| quota := 70; text_length := fun _ => 20%nat;
              toLocaleString := Js.toString; toLocaleDateString := Js.toString |} in
  let ls : gmap string item :=
    {[ CONFIG.STORAGE_KEYS.TEAMS_DATA := Json (VTeams (TeamsCache.Build [] 0 10));
       CONFIG.STORAGE_KEYS.LAST_SAVE := Json (VNum 7) ]} in
  let w := PersistenceManager.new ls in
  let r := @PersistenceManager.saveToStorage P w "timerRunning" (VBool true) 5000 in
  ("timerRunning" <> CONFIG.STORAGE_KEYS.LAST_SAVE
   /\ fst (@Storage.setItem P w "timerRunning" (Json (VBool true))) = false)
  /\ fst r = true
  /\ PersistenceManager.loadFromStorage (snd r) CONFIG.STORAGE_KEYS.LAST_SAVE
     = Some (VNum 7)
  /\ PersistenceManager.loadFromStorage (snd r) "timerRunning" = Some (VBool true).
Proof.
  cbv zeta.
  set (P := {| quota := 70; text_length := fun _ => 20%nat;
               toLocaleString := Js.toString; toLocaleDateString := Js.toString |}).
  set (w := PersistenceManager.new
              {[ CONFIG.STORAGE_KEYS.TEAMS_DATA := Json (VTeams (TeamsCache.Build [] 0 10));
                 CONFIG.STORAGE_KEYS.LAST_SAVE := Json (VNum 7) ]}).
  assert (Hne : "timerRunning" <> CONFIG.STORAGE_KEYS.LAST_SAVE) by discriminate.
  assert (Hfirst : fst (@Storage.setItem P w "timerRunning" (Json (VBool true))) = false)
    by (vm_compute; reflexivity).
  assert (Hok : fst (@PersistenceManager.saveToStorage P w "timerRunning"
                       (VBool true) 5000) = true) by (vm_compute; reflexivity).
  split; [split; assumption |]. split; [exact Hok |].
  destruct (@saveToStorage_stamp P w "timerRunning" (VBool true) 5000 Hne)
    as (_ & Hretry & _).
  destruct (Hretry (or_introl Hfirst)) as (Hstamp & _ & Hdata).
  split; [| exact (Hdata Hok)].
  rewrite Hstamp. vm_compute. reflexivity.
Defined.

(** X30 on the Red against Blue match: the point of Ann goes to Al. *)
Lemma edit_witness :
  let a := fst (@ScorekeeperApp.run small_browser (fst opening) (snd opening)
                  red_blue_one_point) in
  exists (e : LogEntry.t) (rows : list Dom.row),
    (Dom.scoringTableBody (ScorekeeperApp.dom (fst opening)) = Some []
     /\ Forall plain_entry
          (DataManager.scoreLogs (ScorekeeperApp.dataManager (fst opening)))
     /\ Forall (fun step => plain_action (fst step)) red_blue_one_point
     /\ plain_text "Al" = true /\ plain_text "Bob" = true
     /\ selector_text "3000" = true
     /\ DataManager.getScoreLog (ScorekeeperApp.dataManager a) "3000" = Some e
     /\ Dom.scoringTableBody (ScorekeeperApp.dom a) = Some rows
     /\ Dom.scorePopup (ScorekeeperApp.dom a) <> None)
    /\ option_map LogEntry.Score
         (DataManager.getScoreLog
            (ScorekeeperApp.dataManager
               (snd (ScorekeeperApp.updateExistingScore
                       (ScorekeeperApp.editScore a "3000") "Al" "Bob"))) "3000")
       = Some "Al"
    /\ option_map (map Dom.scoreA_cell)
         (Dom.scoringTableBody
            (ScorekeeperApp.dom
               (snd (ScorekeeperApp.updateExistingScore
                       (ScorekeeperApp.editScore a "3000") "Al" "Bob"))))
       = Some ["Al"].
Proof.
  cbv zeta.
  set (a := fst (@ScorekeeperApp.run small_browser (fst opening) (snd opening)
                   red_blue_one_point)).
  destruct (DataManager.getScoreLog (ScorekeeperApp.dataManager a) "3000")
    as [e|] eqn:Hget; [| vm_compute in Hget; discriminate].
  destruct (Dom.scoringTableBody (ScorekeeperApp.dom a)) as [rows|] eqn:Hrows;
    [| vm_compute in Hrows; discriminate].
  assert (Hpop : Dom.scorePopup (ScorekeeperApp.dom a) <> None)
    by (vm_compute; discriminate).
  assert (Htab : Dom.scoringTableBody (ScorekeeperApp.dom (fst opening)) = Some [])
    by (vm_compute; reflexivity).
  assert (Hlog : Forall plain_entry
                   (DataManager.scoreLogs (ScorekeeperApp.dataManager (fst opening))))
    by (vm_compute; constructor).
  assert (Hacts : Forall (fun step => plain_action (fst step)) red_blue_one_point)
    by (vm_compute; repeat constructor).
  assert (Hs : plain_text "Al" = true) by reflexivity.
  assert (Hb : plain_text "Bob" = true) by reflexivity.
  assert (Hid : selector_text "3000" = true) by reflexivity.
  exists e, rows.
  split; [split; [exact Htab |]; split; [exact Hlog |]; split; [exact Hacts |];
          split; [exact Hs |]; split; [exact Hb |]; split; [exact Hid |];
          split; [reflexivity |];
          split; [reflexivity | exact Hpop] |].
  destruct (@edit_updates_entry_and_row small_browser (fst opening) (snd opening)
              red_blue_one_point "3000" "Al" "Bob" e rows Htab Hlog Hacts Hs Hb
              Hid Hget Hrows Hpop) as (Hentry & _).
  split.
  - cbv zeta in Hentry. unfold a. rewrite Hentry. reflexivity.
  - vm_compute. reflexivity.
Defined.
